(** * cloudrunner: the ramp-up benchmark driver of [src/AwsRunner.py] and the
    parallel test framework of [src/libs/testFramework/classicTest.py].

    The development is a shallow embedding of the Python 2 sources:
    - the timing parser ([TestInstance.parse_output], [_get_time_ms]);
    - the aggregates ([RunResult], [RunAverages]);
    - the worker thread ([ThreadWithError]);
    - the parallel executor ([PerformParallelOperations]);
    - the driver ([main] of [AwsRunner.py]), from the point where the
      instances have been provisioned. *)

From Stdlib Require Import ZArith List Ascii String Bool Lia Arith Permutation.
Import ListNotations.

Local Open Scope Z_scope.

(* ================================================================== *)
(** * Python values shared by all parts *)
(* ================================================================== *)

(** What a [raise] can throw, seen from the handlers of the sources: every
    handler of the driver and of the worker is [except Exception], so the only
    distinction that matters is whether the thrown object is an instance of
    [Exception] (RuntimeError, IndexError, ...) or lies outside of it
    (SystemExit, KeyboardInterrupt, GeneratorExit, which derive from
    [BaseException] only). *)
Inductive exc : Type :=
| ExcException      (* isinstance(e, Exception) *)
| ExcBaseOnly.      (* a BaseException that is not an Exception *)

(** How a call ends for the one who waits for it: it returns a value, it
    raises, or the wait is over before the call is ([Hangs]): for a thread
    joined with a timeout the thread is still alive after the join, for a
    direct call the caller never gets control back. *)
Inductive outcome (A : Type) : Type :=
| Returns (a : A)
| Raises (e : exc)
| Hangs.
Arguments Returns {A} a.
Arguments Raises {A} e.
Arguments Hangs {A}.

(* ================================================================== *)
(** * RunResult *)
(* ================================================================== *)

(** [class RunResult]: the per-instance per-run data.  [__init__] sets every
    time to 0 and every status to False. *)
Record RunResult : Type := mkRunResult {
  _id : nat;
  _file_create_time_ms : Z;
  _file_create_status : bool;
  _file_read_time_ms : Z;
  _file_read_status : bool;
  _file_delete_time_ms : Z;
  _file_delete_status : bool
}.

Definition RunResult_init (resultId : nat) : RunResult :=
  mkRunResult resultId 0 false 0 false 0 false.

Definition set_file_create_status (status : bool) (r : RunResult) : RunResult :=
  mkRunResult (_id r) (_file_create_time_ms r) status
              (_file_read_time_ms r) (_file_read_status r)
              (_file_delete_time_ms r) (_file_delete_status r).

Definition set_file_create_time_ms (time_ms : Z) (r : RunResult) : RunResult :=
  mkRunResult (_id r) time_ms (_file_create_status r)
              (_file_read_time_ms r) (_file_read_status r)
              (_file_delete_time_ms r) (_file_delete_status r).

Definition set_file_read_status (status : bool) (r : RunResult) : RunResult :=
  mkRunResult (_id r) (_file_create_time_ms r) (_file_create_status r)
              (_file_read_time_ms r) status
              (_file_delete_time_ms r) (_file_delete_status r).

Definition set_file_read_time_ms (time_ms : Z) (r : RunResult) : RunResult :=
  mkRunResult (_id r) (_file_create_time_ms r) (_file_create_status r)
              time_ms (_file_read_status r)
              (_file_delete_time_ms r) (_file_delete_status r).

Definition set_file_delete_status (status : bool) (r : RunResult) : RunResult :=
  mkRunResult (_id r) (_file_create_time_ms r) (_file_create_status r)
              (_file_read_time_ms r) (_file_read_status r)
              (_file_delete_time_ms r) status.

Definition set_file_delete_time_ms (time_ms : Z) (r : RunResult) : RunResult :=
  mkRunResult (_id r) (_file_create_time_ms r) (_file_create_status r)
              (_file_read_time_ms r) (_file_read_status r)
              time_ms (_file_delete_status r).

Definition get_file_create_status := _file_create_status.
Definition get_file_create_time_ms := _file_create_time_ms.
Definition get_file_read_status := _file_read_status.
Definition get_file_read_time_ms := _file_read_time_ms.
Definition get_file_delete_status := _file_delete_status.
Definition get_file_delete_time_ms := _file_delete_time_ms.

(* ================================================================== *)
(** * The timing parser *)
(* ================================================================== *)

Module Parser.

Local Open Scope string_scope.
Local Open Scope char_scope.

(** [\d] of a Python 2 [re] pattern without the UNICODE flag: [0-9]. *)
Definition is_digit (c : ascii) : bool :=
  let n := nat_of_ascii c in (48 <=? n)%nat && (n <=? 57)%nat.

(** [\s] of a Python 2 [re] pattern without flags: [ \t\n\r\f\v]. *)
Definition is_space (c : ascii) : bool :=
  let n := nat_of_ascii c in
  (n =? 32)%nat || ((9 <=? n)%nat && (n <=? 13)%nat).

(** The longest prefix of [s] whose characters satisfy [p], and the rest. *)
Fixpoint span (p : ascii -> bool) (s : string) : string * string :=
  match s with
  | EmptyString => (EmptyString, EmptyString)
  | String c t =>
      if p c then let (a, b) := span p t in (String c a, b)
      else (EmptyString, s)
  end.

(** One pattern item [c]: a literal character. *)
Definition lit (c : ascii) (s : string) : option string :=
  match s with
  | String c' t => if Ascii.eqb c c' then Some t else None
  | EmptyString => None
  end.

(** One pattern item [p+] (greedy), for a character class [p]: the matched
    text and the rest.  In [time_pattern] every [+] item is followed by an
    item that its class excludes, so giving characters back never helps and
    the greedy choice is the only one that can match. *)
Definition plus (p : ascii -> bool) (s : string) : option (string * string) :=
  match span p s with
  | (EmptyString, _) => None
  | (a, b) => Some (a, b)
  end.

(** A match of [time_pattern = r'real\s+(\d+)m(\d+)\.(\d+)s'] that starts at
    the first character of [s]: the three groups and the text after the
    match. *)
Definition match_here (s : string)
  : option (string * string * string * string) :=
  match lit "r" s with None => None | Some s =>
  match lit "e" s with None => None | Some s =>
  match lit "a" s with None => None | Some s =>
  match lit "l" s with None => None | Some s =>
  match plus is_space s with None => None | Some (_, s) =>
  match plus is_digit s with None => None | Some (g1, s) =>
  match lit "m" s with None => None | Some s =>
  match plus is_digit s with None => None | Some (g2, s) =>
  match lit "." s with None => None | Some s =>
  match plus is_digit s with None => None | Some (g3, s) =>
  match lit "s" s with None => None | Some s =>
  Some (g1, g2, g3, s)
  end end end end end end end end end end end.

(** [re.search(time_pattern, s)]: the match at the leftmost position that
    has one; its groups 1, 2 and 3. *)
Fixpoint re_search (s : string) : option (string * string * string) :=
  match match_here s with
  | Some (g1, g2, g3, _) => Some (g1, g2, g3)
  | None =>
      match s with
      | EmptyString => None
      | String _ t => re_search t
      end
  end.

(** [int(text)] on a string of decimal digits (leading zeros allowed). *)
Definition digit_value (c : ascii) : Z := Z.of_nat (nat_of_ascii c) - 48.

Fixpoint int_from (acc : Z) (s : string) : Z :=
  match s with
  | EmptyString => acc
  | String c t => int_from (acc * 10 + digit_value c) t
  end.

Definition int (s : string) : Z := int_from 0 s.

(** [TestInstance._get_time_ms]. *)
Definition _get_time_ms (minutes seconds millisec : string) : Z :=
  let time_ms := 0 in
  let time_ms := time_ms + int minutes * 60 * 1000 in
  let time_ms := time_ms + int seconds * 1000 in
  let time_ms := time_ms + int millisec in
  time_ms.

(** [TestInstance.parse_output], with the instance id that the source reads
    from [self._vinstance]. *)
Definition parse_output (instance_id : nat)
    (create_output read_output delete_output : string) : RunResult :=
  let run_result := RunResult_init instance_id in
  let run_result :=
    match re_search create_output with
    | Some (g1, g2, g3) =>
        set_file_create_time_ms (_get_time_ms g1 g2 g3)
          (set_file_create_status true run_result)
    | None => set_file_create_status false run_result
    end in
  let run_result :=
    match re_search read_output with
    | Some (g1, g2, g3) =>
        set_file_read_time_ms (_get_time_ms g1 g2 g3)
          (set_file_read_status true run_result)
    | None => set_file_read_status false run_result
    end in
  let run_result :=
    match re_search delete_output with
    | Some (g1, g2, g3) =>
        set_file_delete_time_ms (_get_time_ms g1 g2 g3)
          (set_file_delete_status true run_result)
    | None => set_file_delete_status false run_result
    end in
  run_result.

(** The text after a stage's match, extended by [t]. *)
Definition more (t : string) (r : option string) : option string :=
  option_map (fun rest => rest ++ t) r.

Definition more2 (t : string) (r : option (string * string))
  : option (string * string) :=
  option_map (fun ar => (fst ar, snd ar ++ t)) r.

End Parser.

(* ================================================================== *)
(** * RunAverages *)
(* ================================================================== *)

(** [class RunAverages]: the averaged data of one run.  The fields are the
    attributes that [__init__] assigns; the integer division is Python 2's
    [/] on ints, which rounds towards minus infinity as [Z.div] does. *)
Record RunAverages : Type := mkRunAverages {
  _total_create_pass : Z;
  _total_create_fail : Z;
  _total_create_time_ms : Z;
  _average_create_time_ms : Z;
  _total_read_pass : Z;
  _total_read_fail : Z;
  _total_read_time_ms : Z;
  _average_read_time_ms : Z;
  _total_delete_pass : Z;
  _total_delete_fail : Z;
  _average_delete_time_ms : Z;
  _total_delete_time_ms : Z;
  _run_id : nat
}.

Module RunAveragesImpl.

(** The attribute values before the loop. *)
Definition zeroed (run_id : nat) : RunAverages :=
  mkRunAverages 0 0 0 0 0 0 0 0 0 0 0 0 run_id.

(** The three [if]/[else] of the loop body, one per operation. *)
Definition count_create (report : RunResult) (a : RunAverages) : RunAverages :=
  if get_file_create_status report then
    mkRunAverages (_total_create_pass a + 1) (_total_create_fail a)
      (_total_create_time_ms a + get_file_create_time_ms report)
      (_average_create_time_ms a)
      (_total_read_pass a) (_total_read_fail a) (_total_read_time_ms a)
      (_average_read_time_ms a)
      (_total_delete_pass a) (_total_delete_fail a)
      (_average_delete_time_ms a) (_total_delete_time_ms a) (_run_id a)
  else
    mkRunAverages (_total_create_pass a) (_total_create_fail a + 1)
      (_total_create_time_ms a) (_average_create_time_ms a)
      (_total_read_pass a) (_total_read_fail a) (_total_read_time_ms a)
      (_average_read_time_ms a)
      (_total_delete_pass a) (_total_delete_fail a)
      (_average_delete_time_ms a) (_total_delete_time_ms a) (_run_id a).

Definition count_read (report : RunResult) (a : RunAverages) : RunAverages :=
  if get_file_read_status report then
    mkRunAverages (_total_create_pass a) (_total_create_fail a)
      (_total_create_time_ms a) (_average_create_time_ms a)
      (_total_read_pass a + 1) (_total_read_fail a)
      (_total_read_time_ms a + get_file_read_time_ms report)
      (_average_read_time_ms a)
      (_total_delete_pass a) (_total_delete_fail a)
      (_average_delete_time_ms a) (_total_delete_time_ms a) (_run_id a)
  else
    mkRunAverages (_total_create_pass a) (_total_create_fail a)
      (_total_create_time_ms a) (_average_create_time_ms a)
      (_total_read_pass a) (_total_read_fail a + 1) (_total_read_time_ms a)
      (_average_read_time_ms a)
      (_total_delete_pass a) (_total_delete_fail a)
      (_average_delete_time_ms a) (_total_delete_time_ms a) (_run_id a).

Definition count_delete (report : RunResult) (a : RunAverages) : RunAverages :=
  if get_file_delete_status report then
    mkRunAverages (_total_create_pass a) (_total_create_fail a)
      (_total_create_time_ms a) (_average_create_time_ms a)
      (_total_read_pass a) (_total_read_fail a) (_total_read_time_ms a)
      (_average_read_time_ms a)
      (_total_delete_pass a + 1) (_total_delete_fail a)
      (_average_delete_time_ms a)
      (_total_delete_time_ms a + get_file_delete_time_ms report) (_run_id a)
  else
    mkRunAverages (_total_create_pass a) (_total_create_fail a)
      (_total_create_time_ms a) (_average_create_time_ms a)
      (_total_read_pass a) (_total_read_fail a) (_total_read_time_ms a)
      (_average_read_time_ms a)
      (_total_delete_pass a) (_total_delete_fail a + 1)
      (_average_delete_time_ms a) (_total_delete_time_ms a) (_run_id a).

(** One iteration of [for report in run_result_list]. *)
Definition loop_body (a : RunAverages) (report : RunResult) : RunAverages :=
  count_delete report (count_read report (count_create report a)).

Definition with_average_create (v : Z) (a : RunAverages) : RunAverages :=
  mkRunAverages (_total_create_pass a) (_total_create_fail a)
    (_total_create_time_ms a) v
    (_total_read_pass a) (_total_read_fail a) (_total_read_time_ms a)
    (_average_read_time_ms a)
    (_total_delete_pass a) (_total_delete_fail a)
    (_average_delete_time_ms a) (_total_delete_time_ms a) (_run_id a).

Definition with_average_read (v : Z) (a : RunAverages) : RunAverages :=
  mkRunAverages (_total_create_pass a) (_total_create_fail a)
    (_total_create_time_ms a) (_average_create_time_ms a)
    (_total_read_pass a) (_total_read_fail a) (_total_read_time_ms a)
    v
    (_total_delete_pass a) (_total_delete_fail a)
    (_average_delete_time_ms a) (_total_delete_time_ms a) (_run_id a).

Definition with_average_delete (v : Z) (a : RunAverages) : RunAverages :=
  mkRunAverages (_total_create_pass a) (_total_create_fail a)
    (_total_create_time_ms a) (_average_create_time_ms a)
    (_total_read_pass a) (_total_read_fail a) (_total_read_time_ms a)
    (_average_read_time_ms a)
    (_total_delete_pass a) (_total_delete_fail a)
    v (_total_delete_time_ms a) (_run_id a).

(** The statements after the loop, in the order of the source.  The second
    one assigns [_average_create_time_ms] in its [then] branch, as the source
    does. *)
Definition finish_create (a : RunAverages) : RunAverages :=
  if _total_create_pass a =? 0 then with_average_create (-1) a
  else with_average_create (_total_create_time_ms a / _total_create_pass a) a.

Definition finish_read (a : RunAverages) : RunAverages :=
  if _total_read_pass a =? 0 then with_average_create (-1) a
  else with_average_read (_total_read_time_ms a / _total_read_pass a) a.

Definition finish_delete (a : RunAverages) : RunAverages :=
  if _total_delete_pass a =? 0 then with_average_delete (-1) a
  else with_average_delete (_total_delete_time_ms a / _total_delete_pass a) a.

End RunAveragesImpl.

(** [RunAverages.__init__(run_result_list, run_id)]. *)
Definition RunAverages_init (run_result_list : list RunResult) (run_id : nat)
  : RunAverages :=
  let a := fold_left RunAveragesImpl.loop_body run_result_list
                     (RunAveragesImpl.zeroed run_id) in
  RunAveragesImpl.finish_delete
    (RunAveragesImpl.finish_read (RunAveragesImpl.finish_create a)).

Definition get_avg_create_time_ms := _average_create_time_ms.
Definition get_avg_read_time_ms := _average_read_time_ms.
Definition get_avg_delete_time_ms := _average_delete_time_ms.
Definition get_run_id := _run_id.

(** The three timed operations, and the attributes of each. *)
Inductive operation : Type := op_create | op_read | op_delete.

Definition op_status (o : operation) : RunResult -> bool :=
  match o with
  | op_create => get_file_create_status
  | op_read => get_file_read_status
  | op_delete => get_file_delete_status
  end.

Definition op_time (o : operation) : RunResult -> Z :=
  match o with
  | op_create => get_file_create_time_ms
  | op_read => get_file_read_time_ms
  | op_delete => get_file_delete_time_ms
  end.

Definition op_average (o : operation) : RunAverages -> Z :=
  match o with
  | op_create => get_avg_create_time_ms
  | op_read => get_avg_read_time_ms
  | op_delete => get_avg_delete_time_ms
  end.

Definition op_total_pass (o : operation) : RunAverages -> Z :=
  match o with
  | op_create => _total_create_pass
  | op_read => _total_read_pass
  | op_delete => _total_delete_pass
  end.

Definition op_total_fail (o : operation) : RunAverages -> Z :=
  match o with
  | op_create => _total_create_fail
  | op_read => _total_read_fail
  | op_delete => _total_delete_fail
  end.

Definition op_total_time_ms (o : operation) : RunAverages -> Z :=
  match o with
  | op_create => _total_create_time_ms
  | op_read => _total_read_time_ms
  | op_delete => _total_delete_time_ms
  end.

(** [parse_output] with [text] as the output of operation [o] and [others]
    as the output of the two other operations. *)
Definition parse_with (o : operation) (instance_id : nat)
    (text others : string) : RunResult :=
  match o with
  | op_create => Parser.parse_output instance_id text others others
  | op_read => Parser.parse_output instance_id others text others
  | op_delete => Parser.parse_output instance_id others others text
  end.

(** The quantities the averages are specified by: the passing results of an
    operation and the sum of their durations. *)
Definition passing (status : RunResult -> bool) (l : list RunResult)
  : list RunResult := filter status l.

Definition sum_of (time : RunResult -> Z) (l : list RunResult) : Z :=
  fold_right (fun r acc => time r + acc) 0 l.

Definition pass_count (status : RunResult -> bool) (l : list RunResult) : Z :=
  Z.of_nat (List.length (passing status l)).

(** The average as the specification words it: the sum of the passing
    durations divided by the passing count, and -1 without a passing
    result. *)
Definition spec_average (status : RunResult -> bool) (time : RunResult -> Z)
    (l : list RunResult) : Z :=
  if pass_count status l =? 0 then -1
  else sum_of time (passing status l) / pass_count status l.

Definition fail_count (status : RunResult -> bool) (l : list RunResult) : Z :=
  Z.of_nat (List.length (filter (fun r => negb (status r)) l)).

(** The counters after the loop over [l], started from the counters [a]. *)
Definition tally (l : list RunResult) (a : RunAverages) : RunAverages :=
  mkRunAverages
    (_total_create_pass a + pass_count get_file_create_status l)
    (_total_create_fail a + fail_count get_file_create_status l)
    (_total_create_time_ms a
     + sum_of get_file_create_time_ms (passing get_file_create_status l))
    (_average_create_time_ms a)
    (_total_read_pass a + pass_count get_file_read_status l)
    (_total_read_fail a + fail_count get_file_read_status l)
    (_total_read_time_ms a
     + sum_of get_file_read_time_ms (passing get_file_read_status l))
    (_average_read_time_ms a)
    (_total_delete_pass a + pass_count get_file_delete_status l)
    (_total_delete_fail a + fail_count get_file_delete_status l)
    (_average_delete_time_ms a)
    (_total_delete_time_ms a
     + sum_of get_file_delete_time_ms (passing get_file_delete_status l))
    (_run_id a).

(* ================================================================== *)
(** * ThreadWithError *)
(* ================================================================== *)

(** [ThreadWithError.run], given how the thread's target ends:
<<
    self.error = False
    try:
        super(self.__class__, self).run()
    except Exception as err:
        log.error("Hit error in thread:%s", err.message)
        self.error = True
>>
    The result is the value of [self.error] and how [run] itself ends:
    an [Exception] is swallowed, anything else leaves [run]. *)
Definition ThreadWithError_run {A : Type} (target : outcome A)
  : bool * outcome unit :=
  match target with
  | Returns _ => (false, Returns tt)
  | Raises ExcException => (true, Returns tt)
  | Raises ExcBaseOnly => (false, Raises ExcBaseOnly)
  | Hangs => (false, Hangs)
  end.

(** The two queries of the driver on a thread whose [join(timeout)] has
    returned.  [threading.Thread] calls [run] in the new thread and ends the
    thread when [run] ends, whether by return or by an uncaught throw, so
    the thread is alive exactly when [run] has not ended. *)
Record ThreadWithError : Type := mkThreadWithError {
  error : bool;
  run_ended : bool
}.

Definition joined {A : Type} (target : outcome A) : ThreadWithError :=
  let (err, ending) := ThreadWithError_run target in
  mkThreadWithError err
    match ending with Hangs => false | _ => true end.

Definition has_error (t : ThreadWithError) : bool := error t.
Definition is_alive (t : ThreadWithError) : bool := negb (run_ended t).

(* ================================================================== *)
(** * Test units, events and the driver's monad *)
(* ================================================================== *)

(** The four operations of a test unit, as names ([getattr(test, method)] in
    [classicTest], the call sites in [AwsRunner]). *)
Inductive method : Type :=
| m_setup_environment
| m_pre_test_setup
| m_execute_test
| m_cleanup.

Definition method_eqb (a b : method) : bool :=
  match a, b with
  | m_setup_environment, m_setup_environment
  | m_pre_test_setup, m_pre_test_setup
  | m_execute_test, m_execute_test
  | m_cleanup, m_cleanup => true
  | _, _ => false
  end.

(** A test unit ([TestInstance] and its subclasses): how each of its
    operations ends.  An operation is invoked at most once per ramp level on
    a unit, so its behaviour is given per level ([setup_environment] runs
    once, before the levels).  [execute_test] returns the unit's
    [RunResult]. *)
Record TestInstance : Type := mkTestInstance {
  setup_environment : outcome unit;
  pre_test_setup : nat -> outcome unit;
  execute_test : nat -> outcome RunResult;
  cleanup : nat -> outcome unit
}.

(** The unit's own [pre_test_setup], for the places where the module-level
    function of the same name is in scope. *)
Definition Top_pre_test_setup : TestInstance -> nat -> outcome unit :=
  pre_test_setup.

(** One line of the final report ([report_results] turns each field into a
    string with [str]; the numbers are kept here). *)
Record report_row : Type := mkRow {
  RunId : nat;
  AvgCreateTimeMs : Z;
  AvgReadTimeMs : Z;
  AvgDelTimeMs : Z
}.

(** What the main thread does, in its program order.  [EvBegin m l j]: the
    call of operation [m] on unit [j] at level [l] is launched (a worker
    thread is started on it, or it is called directly).  [EvEnd m l j r]:
    the main thread is done waiting for that call ([join] has returned, or
    the direct call has ended) and [r] is how the call ended for it. *)
Inductive event : Type :=
| EvBegin (m : method) (level : nat) (j : nat)
| EvEnd (m : method) (level : nat) (j : nat) (r : outcome unit)
| EvAverages (level : nat)
| EvLogException
| EvDestroyAllInstances
| EvDeleteBucket
| EvReport (rows : list report_row).

(** How a call ended, without its value. *)
Definition ended {A : Type} (o : outcome A) : outcome unit :=
  match o with
  | Returns _ => Returns tt
  | Raises e => Raises e
  | Hangs => Hangs
  end.

Section Monad.

Context {S : Type}.

(** The mutable objects of the program ([store]) and what has happened so
    far. *)
Record world : Type := mkWorld {
  store : S;
  trace : list event
}.

(** A statement or call of the program: it changes the world and returns,
    raises, or never gives control back. *)
Definition M (A : Type) : Type := world -> outcome A * world.

Definition ret {A} (a : A) : M A := fun w => (Returns a, w).

Definition bind {A B} (m : M A) (k : A -> M B) : M B :=
  fun w =>
    match m w with
    | (Returns a, w') => k a w'
    | (Raises e, w') => (Raises e, w')
    | (Hangs, w') => (Hangs, w')
    end.

Definition raise {A} (e : exc) : M A := fun w => (Raises e, w).

(** The end of a call of the environment (a unit's operation, a teardown
    call): the call's effects outside this program are not modelled. *)
Definition call {A} (o : outcome A) : M A := fun w => (o, w).

Definition emit (e : event) : M unit :=
  fun w => (Returns tt, mkWorld (store w) (trace w ++ [e])).

Definition modify (f : S -> S) : M unit :=
  fun w => (Returns tt, mkWorld (f (store w)) (trace w)).

Definition get : M S := fun w => (Returns (store w), w).

(** [try: body / except Exception: handler]. *)
Definition try_except (body : M unit) (handler : M unit) : M unit :=
  fun w =>
    match body w with
    | (Raises ExcException, w') => handler w'
    | r => r
    end.

(** [for x in l: body(x)]. *)
Fixpoint for_ {B} (l : list B) (body : B -> M unit) : M unit :=
  match l with
  | [] => ret tt
  | x :: l' => bind (body x) (fun _ => for_ l' body)
  end.

(** [l[j]], which raises IndexError when [j] is out of range. *)
Definition index {B} (l : list B) (j : nat) : M B :=
  match nth_error l j with
  | Some x => ret x
  | None => raise ExcException
  end.

(** A started worker: the call it was started on and its target.  The
    workers of one batch run concurrently with each other and with the main
    thread; the main thread learns what a worker did at the [join] on it, so
    the model runs the target there.  Targets of one batch touch the store
    only by appending to the shared list, under the lock.  In the program
    a worker appends when its call returns, joined or not: the model fixes
    the order of the appends of a batch (that of the joins) and leaves out
    the appends of workers that are never joined, so statements about the
    shared list are made up to the order within a batch, and for a failed
    batch only about the workers joined before the failing one. *)
Record worker : Type := mkWorker {
  w_method : method;
  w_level : nat;
  w_index : nat;
  w_target : M unit
}.

(** [t = ThreadWithError(target=..., args=...); t.start()]. *)
Definition start (t : worker) : M unit :=
  emit (EvBegin (w_method t) (w_level t) (w_index t)).

(** [t.join(timeout)]: afterwards the target has run to its end, or the
    timeout is over. *)
Definition join (t : worker) : M ThreadWithError :=
  fun w =>
    let (o, w') := w_target t w in
    (Returns (joined o),
     mkWorld (store w')
       (trace w' ++ [EvEnd (w_method t) (w_level t) (w_index t) (ended o)])).

(** The waiting loop that follows every batch of workers:
<<
    for t in thread_list:
        t.join(timeout)
        if t.is_alive():
            raise RuntimeError('Timed out ...')
        if t.has_error():
            raise RuntimeError('Error ...')
>> *)
Definition join_all (thread_list : list worker) : M unit :=
  for_ thread_list (fun t =>
    bind (join t) (fun th =>
      if is_alive th then raise ExcException
      else if has_error th then raise ExcException
      else ret tt)).

End Monad.

Arguments world : clear implicits.
Arguments M : clear implicits.
Arguments worker : clear implicits.

Declare Scope prog_scope.
Delimit Scope prog_scope with prog.
Notation "x <- m ;; k" := (bind m (fun x => k))
  (at level 61, m at next level, right associativity) : prog_scope.
Notation "m ;; k" := (bind m (fun _ => k))
  (at level 61, right associativity) : prog_scope.

Local Open Scope prog_scope.

(* ================================================================== *)
(** * classicTest.PerformParallelOperations *)
(* ================================================================== *)

Module PerformParallelOperations.

(** A value of [self.results]: [{method: result}], where [result] is what
    the unit's operation returned ([None] for all but [execute_test]). *)
Inductive pyval : Type :=
| PyNone
| PyRunResult (r : RunResult).

Definition results_t : Type := list (method * pyval).

(** The object: [self.tests]; [self.results] is the store of its methods. *)
Record t : Type := mk { tests : list TestInstance }.

(** [__init__(self, test_instances=None)]:
<<
    self.tests = test_instances
    self.results = []
    if not self.tests or len(self.tests) == 0:
        raise Exception("No tests specified")
>>
    [None] stands for the omitted argument. *)
Definition __init__ (test_instances : option (list TestInstance))
  : outcome (t * results_t) :=
  match test_instances with
  | None => Raises ExcException
  | Some l =>
      if (List.length l =? 0)%nat then Raises ExcException
      else Returns (mk l, [])
  end.

(** [getattr(test, method)()], at level [lvl]. *)
Definition invoke (test : TestInstance) (m : method) (lvl : nat)
  : outcome pyval :=
  match m with
  | m_setup_environment =>
      match setup_environment test with
      | Returns _ => Returns PyNone | Raises e => Raises e | Hangs => Hangs
      end
  | m_pre_test_setup =>
      match pre_test_setup test lvl with
      | Returns _ => Returns PyNone | Raises e => Raises e | Hangs => Hangs
      end
  | m_execute_test =>
      match execute_test test lvl with
      | Returns r => Returns (PyRunResult r)
      | Raises e => Raises e | Hangs => Hangs
      end
  | m_cleanup =>
      match cleanup test lvl with
      | Returns _ => Returns PyNone | Raises e => Raises e | Hangs => Hangs
      end
  end.

(** [_thread_run_and_gather(self, test, method, lock)]. *)
Definition _thread_run_and_gather (test : TestInstance) (m : method)
  : M results_t unit :=
  result <- call (invoke test m 0) ;;
  modify (fun results => results ++ [(m, result)]).

(** The first loop of [_perform_ops]: one worker per test, started at
    once. *)
Fixpoint start_from (m : method) (j : nat) (tests : list TestInstance)
  : M results_t (list (worker results_t)) :=
  match tests with
  | [] => ret []
  | test :: rest =>
      let th := mkWorker m 0 j (_thread_run_and_gather test m) in
      start th ;;
      thread_list <- start_from m (S j) rest ;;
      ret (th :: thread_list)
  end.

(** [_perform_ops(self, method, timeout_sec, lock)]. *)
Definition _perform_ops (self : t) (m : method) : M results_t unit :=
  thread_list <- start_from m 0 (tests self) ;;
  join_all thread_list.

(** [perform_all_operations(self)]: the handler logs and raises again. *)
Definition perform_all_operations (self : t) : M results_t results_t :=
  for_ [m_setup_environment; m_pre_test_setup; m_execute_test; m_cleanup]
    (fun m =>
       try_except (_perform_ops self m)
                  (emit EvLogException ;; raise ExcException)) ;;
  get.

(** [_get_results(self, method)] and [get_execute_test_results(self)]. *)
Definition _get_results (results : results_t) (m : method) : list pyval :=
  flat_map (fun r => if method_eqb m (fst r) then [snd r] else []) results.

Definition get_execute_test_results (results : results_t) : list pyval :=
  _get_results results m_execute_test.

End PerformParallelOperations.

(* ================================================================== *)
(** * AwsRunner: the ramp-up driver *)
(* ================================================================== *)

Module AwsRunner.

(** The mutable lists of the driver: the module-level
    [test_per_run_results], which every [run_test] worker appends to, and
    [main]'s local [test_run_averages], which outlives the [try] block. *)
Record lists : Type := mkLists {
  test_per_run_results : list RunResult;
  test_run_averages : list RunAverages
}.

Definition prog : Type -> Type := M lists.

(** The two teardown calls of the testbed, as they end. *)
Record testbed : Type := mkTestbed {
  destroy_all_instances : outcome unit;
  delete_bucket : outcome unit
}.

(** [report_results(list_of_results, outfile)]: the rows that are logged
    (and written to [outfile] when one is given). *)
Definition row_of (run_result : RunAverages) : report_row :=
  mkRow (get_run_id run_result)
        (get_avg_create_time_ms run_result)
        (get_avg_read_time_ms run_result)
        (get_avg_delete_time_ms run_result).

Definition report_results (list_of_results : list RunAverages) : prog unit :=
  emit (EvReport (map row_of list_of_results)).

(** The targets of the workers. *)
Definition general_test_prep (test_object : TestInstance) : prog unit :=
  call (setup_environment test_object).

Definition pre_test_setup (test_object : TestInstance) (lvl : nat)
  : prog unit :=
  call (pre_test_setup test_object lvl).

(** [run_test(test_object, lock_obj)]:
<<
    result = test_object.execute_test()
    with lock_obj:
        test_per_run_results.append(result)
>> *)
Definition run_test (test_object : TestInstance) (lvl : nat) : prog unit :=
  result <- call (execute_test test_object lvl) ;;
  modify (fun s => mkLists (test_per_run_results s ++ [result])
                           (test_run_averages s)).

(** The first loop of [main]: a test object per virtual instance, and a
    worker started on its [general_test_prep].  The test objects are given
    ready made: [TestInstance(...)] only stores its arguments. *)
Fixpoint prepare_from (j : nat) (test_objects : list TestInstance)
  : prog (list (worker lists)) :=
  match test_objects with
  | [] => ret []
  | test_object :: rest =>
      let th := mkWorker m_setup_environment 0 j
                         (general_test_prep test_object) in
      start th ;;
      thread_list <- prepare_from (S j) rest ;;
      ret (th :: thread_list)
  end.

(** The starting loops of a level:
<<
    thread_list = []
    for j in range(0, i):
        t = ThreadWithError(target=..., args=(test_object_list[j], ...))
        thread_list.append(t)
        t.start()
>> *)
Fixpoint start_range (m : method) (i : nat)
    (target : TestInstance -> nat -> prog unit)
    (test_object_list : list TestInstance) (js : list nat)
  : prog (list (worker lists)) :=
  match js with
  | [] => ret []
  | j :: js' =>
      test_object <- index test_object_list j ;;
      let th := mkWorker m i j (target test_object i) in
      start th ;;
      thread_list <- start_range m i target test_object_list js' ;;
      ret (th :: thread_list)
  end.

(** A call made by the main thread itself: [test_object_list[j].cleanup()]. *)
Definition direct_cleanup (test_object : TestInstance) (i j : nat)
  : prog unit :=
  emit (EvBegin m_cleanup i j) ;;
  (fun w =>
     let o := cleanup test_object i in
     (o, mkWorld (store w) (trace w ++ [EvEnd m_cleanup i j (ended o)]))).

(** One iteration of [for i in range(1, args.clients + 1)]. *)
Definition level (test_object_list : list TestInstance) (i : nat)
  : prog unit :=
  (* Prepare the selected instances to run the test. *)
  thread_list <- start_range m_pre_test_setup i pre_test_setup
                             test_object_list (seq 0 i) ;;
  join_all thread_list ;;
  (* Actually trigger the benchmark test. *)
  thread_list <- start_range m_execute_test i run_test
                             test_object_list (seq 0 i) ;;
  join_all thread_list ;;
  (* Cleanup, and prepare for the next test. *)
  for_ (seq 0 i) (fun j =>
    test_object <- index test_object_list j ;;
    direct_cleanup test_object i j) ;;
  (* Store the benchmark information (averages of instances run). *)
  emit (EvAverages i) ;;
  modify (fun s =>
    mkLists (test_per_run_results s)
            (test_run_averages s
               ++ [RunAverages_init (test_per_run_results s) i])).

(** The body of [main]'s [try]. *)
Definition ramp (clients : nat) (test_objects : list TestInstance)
  : prog unit :=
  thread_list <- prepare_from 0 test_objects ;;
  join_all thread_list ;;
  for_ (seq 1 clients) (level test_objects).

(** [main], from the point where [create_instances] has returned:
<<
    try:
        ...
    except Exception:
        log.exception('Error while attempting to run test,'
                      ' attempting to clean up')
    # Cleanup the testbed
    cloud_provider.destroy_all_instances()
    storage.delete_bucket(args.bucket)
    # Output a report of the test runs.
    report_results(test_run_averages, outfile=args.outfile)
>> *)
Definition main (clients : nat) (test_objects : list TestInstance)
    (bed : testbed) : prog unit :=
  try_except (ramp clients test_objects) (emit EvLogException) ;;
  emit EvDestroyAllInstances ;;
  call (destroy_all_instances bed) ;;
  emit EvDeleteBucket ;;
  call (delete_bucket bed) ;;
  s <- get ;;
  report_results (test_run_averages s).

(** The state of a fresh process: both lists are empty and nothing has
    happened. *)
Definition initial : world lists := mkWorld (mkLists [] []) [].

(** A run of the program. *)
Definition run_main (clients : nat) (test_objects : list TestInstance)
    (bed : testbed) : outcome unit * world lists :=
  main clients test_objects bed initial.

(** The report a run has put out, if it has. *)
Fixpoint reported (tr : list event) : option (list report_row) :=
  match tr with
  | [] => None
  | EvReport rows :: _ => Some rows
  | _ :: tr' => reported tr'
  end.

End AwsRunner.


(* ================================================================== *)
(** * The driver's run, described without the monad *)
(* ================================================================== *)

(** The lists and predicates below describe, as plain data, what the
    monadic program of [AwsRunner] does; the structure lemmas of the second
    part prove that they describe it, and the claims are then read off
    them. *)
Module Shape.

Import AwsRunner.

(** The waiting loop raises on this worker: it is still alive after the
    join, or it has captured an error. *)
Definition blocks {A : Type} (o : outcome A) : bool :=
  is_alive (joined o) || has_error (joined o).

(** The workers of one batch: one per unit of [us], numbered from [j]. *)
Fixpoint workers_of {St : Type} (m : method) (i : nat)
    (target : TestInstance -> nat -> M St unit) (j : nat)
    (us : list TestInstance) : list (worker St) :=
  match us with
  | [] => []
  | u :: us' => mkWorker m i j (target u i) :: workers_of m i target (S j) us'
  end.

Section Batch.

Variables (m : method) (i : nat) (oc : TestInstance -> outcome unit).

(** The events of the starting loop. *)
Definition begins (j n : nat) : list event := map (EvBegin m i) (seq j n).

(** The events of the waiting loop, which stops at the first worker that
    blocks. *)
Fixpoint ends (j : nat) (us : list TestInstance) : list event :=
  match us with
  | [] => []
  | u :: us' =>
      EvEnd m i j (oc u) :: (if blocks (oc u) then [] else ends (S j) us')
  end.

(** The waiting loop gets through. *)
Definition passes (us : list TestInstance) : bool :=
  forallb (fun u => negb (blocks (oc u))) us.

(** The store after the waiting loop, when the target of unit [u] changes
    the store by [g u]. *)
Fixpoint batch_store {St : Type} (g : TestInstance -> St -> St)
    (us : list TestInstance) (s : St) : St :=
  match us with
  | [] => s
  | u :: us' =>
      if blocks (oc u) then g u s else batch_store g us' (g u s)
  end.

End Batch.

(** The results that the [run_test] workers of level [i] have appended when
    the waiting loop is over. *)
Fixpoint gathered (i : nat) (us : list TestInstance) : list RunResult :=
  match us with
  | [] => []
  | u :: us' =>
      match execute_test u i with
      | Returns r => r :: gathered i us'
      | Raises ExcBaseOnly => gathered i us'
      | Raises ExcException => []
      | Hangs => []
      end
  end.

(** The cleanup loop of level [i]: its events and how it ends. *)
Fixpoint cleanups (i j : nat) (us : list TestInstance) : list event :=
  match us with
  | [] => []
  | u :: us' =>
      EvBegin m_cleanup i j :: EvEnd m_cleanup i j (cleanup u i)
      :: match cleanup u i with
         | Returns _ => cleanups i (S j) us'
         | _ => []
         end
  end.

Fixpoint cleanup_result (i : nat) (us : list TestInstance) : outcome unit :=
  match us with
  | [] => Returns tt
  | u :: us' =>
      match cleanup u i with
      | Returns _ => cleanup_result i us'
      | Raises e => Raises e
      | Hangs => Hangs
      end
  end.

Definition oc_setup (u : TestInstance) : outcome unit := setup_environment u.
Definition oc_pre (i : nat) (u : TestInstance) : outcome unit :=
  Top_pre_test_setup u i.
Definition oc_exec (i : nat) (u : TestInstance) : outcome unit :=
  ended (execute_test u i).

Section Level.

Variable objs : list TestInstance.
Variable i : nat.

(** The units that level [i] selects. *)
Definition selected : list TestInstance := firstn i objs.

Definition in_range : bool := (i <=? List.length objs)%nat.

Definition pre_ok : bool := in_range && passes (oc_pre i) selected.
Definition exec_ok : bool := pre_ok && passes (oc_exec i) selected.

(** How one iteration of the level loop ends. *)
Definition level_result : outcome unit :=
  if exec_ok then cleanup_result i selected else Raises ExcException.

Definition level_ok : bool :=
  match level_result with Returns _ => true | _ => false end.

(** The events of one iteration of the level loop. *)
Definition level_trace : list event :=
  begins m_pre_test_setup i 0 (List.length selected)
  ++ (if in_range then ends m_pre_test_setup i (oc_pre i) 0 selected else [])
  ++ (if pre_ok then
        begins m_execute_test i 0 i
        ++ ends m_execute_test i (oc_exec i) 0 selected
      else [])
  ++ (if exec_ok then cleanups i 0 selected else [])
  ++ (if level_ok then [EvAverages i] else []).

(** The lists after one iteration of the level loop. *)
Definition level_store (s : lists) : lists :=
  let results :=
    test_per_run_results s ++ (if pre_ok then gathered i selected else []) in
  mkLists results
    (test_run_averages s
     ++ (if level_ok then [RunAverages_init results i] else [])).

End Level.

(** The level loop over the levels [ls]: it stops after the first level
    that does not end by returning. *)
Fixpoint levels_trace (objs : list TestInstance) (ls : list nat)
  : list event :=
  match ls with
  | [] => []
  | i :: ls' =>
      level_trace objs i
      ++ (if level_ok objs i then levels_trace objs ls' else [])
  end.

Fixpoint levels_result (objs : list TestInstance) (ls : list nat)
  : outcome unit :=
  match ls with
  | [] => Returns tt
  | i :: ls' =>
      if level_ok objs i then levels_result objs ls'
      else level_result objs i
  end.

Fixpoint levels_store (objs : list TestInstance) (ls : list nat)
    (s : lists) : lists :=
  match ls with
  | [] => s
  | i :: ls' =>
      if level_ok objs i then levels_store objs ls' (level_store objs i s)
      else level_store objs i s
  end.

(** The [try] block. *)
Definition setup_ok (objs : list TestInstance) : bool :=
  passes oc_setup objs.

Definition ramp_trace (clients : nat) (objs : list TestInstance)
  : list event :=
  begins m_setup_environment 0 0 (List.length objs)
  ++ ends m_setup_environment 0 oc_setup 0 objs
  ++ (if setup_ok objs then levels_trace objs (seq 1 clients) else []).

Definition ramp_result (clients : nat) (objs : list TestInstance)
  : outcome unit :=
  if setup_ok objs then levels_result objs (seq 1 clients)
  else Raises ExcException.

Definition ramp_store (clients : nat) (objs : list TestInstance)
    (s : lists) : lists :=
  if setup_ok objs then levels_store objs (seq 1 clients) s else s.

(** The store change of a [run_test] worker. *)
Definition g_exec (i : nat) (u : TestInstance) (s : lists) : lists :=
  match execute_test u i with
  | Returns r => mkLists (test_per_run_results s ++ [r]) (test_run_averages s)
  | _ => s
  end.

(** What follows the [try] block when it is left by returning or through
    the handler. *)
Definition tail_trace (bed : testbed) (rows : list report_row) : list event :=
  EvDestroyAllInstances
  :: match destroy_all_instances bed with
     | Returns _ =>
         EvDeleteBucket
         :: match delete_bucket bed with
            | Returns _ => [EvReport rows]
            | _ => []
            end
     | _ => []
     end.

Definition tail_result (bed : testbed) : outcome unit :=
  match destroy_all_instances bed with
  | Returns _ => delete_bucket bed
  | Raises e => Raises e
  | Hangs => Hangs
  end.

Definition main_trace (clients : nat) (objs : list TestInstance)
    (bed : testbed) : list event :=
  let rows :=
    map row_of (test_run_averages (ramp_store clients objs (mkLists [] []))) in
  ramp_trace clients objs
  ++ match ramp_result clients objs with
     | Returns _ => tail_trace bed rows
     | Raises ExcException => EvLogException :: tail_trace bed rows
     | Raises ExcBaseOnly => []
     | Hangs => []
     end.

Definition main_result (clients : nat) (objs : list TestInstance)
    (bed : testbed) : outcome unit :=
  match ramp_result clients objs with
  | Returns _ => tail_result bed
  | Raises ExcException => tail_result bed
  | Raises ExcBaseOnly => Raises ExcBaseOnly
  | Hangs => Hangs
  end.

(** How a worker of [PerformParallelOperations] ends, and what it appends
    to [self.results]. *)
Definition oc_invoke (m : method) (u : TestInstance) : outcome unit :=
  ended (PerformParallelOperations.invoke u m 0).

Definition g_invoke (m : method) (u : TestInstance)
    (results : PerformParallelOperations.results_t)
  : PerformParallelOperations.results_t :=
  match PerformParallelOperations.invoke u m 0 with
  | Returns v => results ++ [(m, v)]
  | _ => results
  end.

(** The events of the [try] block, as opposed to those of the handler, the
    teardown and the report. *)
Definition ramp_event (e : event) : Prop :=
  match e with
  | EvBegin _ _ _ | EvEnd _ _ _ _ | EvAverages _ => True
  | _ => False
  end.

(** The level an event belongs to. *)
Definition level_of (e : event) : option nat :=
  match e with
  | EvBegin _ l _ | EvEnd _ l _ _ | EvAverages l => Some l
  | _ => None
  end.


End Shape.

(* ================================================================== *)
(** * Reading a trace: who took part, and what came before what *)
(* ================================================================== *)

Module Order.

(** The units on which operation [m] was launched at level [l], in the
    order of the launches. *)
Definition units_begun (m : method) (l : nat) (tr : list event) : list nat :=
  flat_map (fun e => match e with
                     | EvBegin m' l' j =>
                         if method_eqb m m' && (l =? l')%nat then [j] else []
                     | _ => []
                     end) tr.

(** The levels whose iteration was entered, in the order of entry: an
    iteration begins by launching [pre_test_setup] on unit 0. *)
Definition levels_entered (tr : list event) : list nat :=
  flat_map (fun e => match e with
                     | EvBegin m_pre_test_setup l 0 => [l]
                     | _ => []
                     end) tr.

(** Among the events [seen], the call of [m] on unit [j] at level [l] has
    ended without blocking the driver: it returned, or it was ended by a
    throw outside of [Exception], which a worker does not capture. *)
Definition ended_quietly (m : method) (l j : nat) (seen : list event) : Prop :=
  exists r, In (EvEnd m l j r) seen /\ (r = Returns tt \/ r = Raises ExcBaseOnly).

Definition returned (m : method) (l j : nat) (seen : list event) : Prop :=
  In (EvEnd m l j (Returns tt)) seen.

(** What must have been seen before an event, in a run over [n] units. *)
Definition guard (n : nat) (e : event) (seen : list event) : Prop :=
  match e with
  | EvBegin m_setup_environment _ _ => True
  | EvBegin m_pre_test_setup l _ =>
      (forall j, (j < n)%nat -> ended_quietly m_setup_environment 0 j seen)
      /\ (forall j, (j < l - 1)%nat -> returned m_cleanup (l - 1) j seen)
  | EvBegin m_execute_test l _ =>
      forall j, (j < l)%nat -> ended_quietly m_pre_test_setup l j seen
  | EvBegin m_cleanup l k =>
      (forall j, (j < l)%nat -> ended_quietly m_execute_test l j seen)
      /\ (forall j, (j < k)%nat -> returned m_cleanup l j seen)
  | EvEnd m l j _ => In (EvBegin m l j) seen
  | EvAverages l => forall j, (j < l)%nat -> returned m_cleanup l j seen
  | EvLogException => True
  | EvDestroyAllInstances => True
  | EvDeleteBucket => In EvDestroyAllInstances seen
  | EvReport _ => In EvDeleteBucket seen
  end.

(** Every event of [tr] comes after what its guard asks for, when [seen]
    is what came before [tr]. *)
Fixpoint safe (n : nat) (seen tr : list event) : Prop :=
  match tr with
  | [] => True
  | e :: tr' => guard n e seen /\ safe n (seen ++ [e]) tr'
  end.

(** What a level's iteration needs to have been seen. *)
Definition level_pre (n i : nat) (seen : list event) : Prop :=
  (forall j, (j < n)%nat -> ended_quietly m_setup_environment 0 j seen)
  /\ (forall j, (j < i - 1)%nat -> returned m_cleanup (i - 1) j seen).

(** The number of cleanup calls that the cleanup loop of level [i] makes
    on the units [us]: it stops after the first call that does not
    return. *)
Fixpoint cleanup_calls (i : nat) (us : list TestInstance) : nat :=
  match us with
  | [] => 0
  | u :: us' =>
      S (match cleanup u i with
         | Returns _ => cleanup_calls i us'
         | _ => 0
         end)
  end.

(** The results that the [execute_test] calls of level [i] return, in the
    order of the units. *)
Definition level_results (objs : list TestInstance) (i : nat)
  : list RunResult :=
  flat_map (fun u => match execute_test u i with
                     | Returns r => [r]
                     | _ => []
                     end) (firstn i objs).

(** The results of the levels 1 to [l]. *)
Definition results_through (objs : list TestInstance) (l : nat)
  : list RunResult :=
  flat_map (level_results objs) (seq 1 l).

End Order.

(* ================================================================== *)
(** * Texts with a timing line *)
(* ================================================================== *)

Module Text.

Import Parser.
Local Open Scope string_scope.

(** Every character of [s] is in the class [p]. *)
Fixpoint all (p : ascii -> bool) (s : string) : bool :=
  match s with
  | EmptyString => true
  | String c t => p c && all p t
  end.

(** [s] does not go on with a character of the class [p]. *)
Definition stops (p : ascii -> bool) (s : string) : Prop :=
  match s with
  | EmptyString => True
  | String c _ => p c = false
  end.

(** A timing line as the shell's [time] prints it, followed by [post]. *)
Definition timing_text (ws minutes seconds millisec post : string) : string :=
  "real" ++ ws ++ minutes ++ "m" ++ seconds ++ "." ++ millisec ++ "s" ++ post.

(** The parts of a timing line: non-empty white space and three non-empty
    strings of digits. *)
Definition well_formed (ws minutes seconds millisec : string) : Prop :=
  (ws <> "" /\ all is_space ws = true)
  /\ (minutes <> "" /\ all is_digit minutes = true)
  /\ (seconds <> "" /\ all is_digit seconds = true)
  /\ (millisec <> "" /\ all is_digit millisec = true).

(** The pattern has a match in [text]. *)
Definition found (text : string) : bool :=
  match re_search text with Some _ => true | None => false end.

End Text.

(* ================================================================== *)
(** * AwsRunner: the test unit and the command line *)
(* ================================================================== *)

Module Remote.

Local Open Scope string_scope.

(** What fabric's [run] returns: the exit status of the remote command and
    what it printed. *)
Record fabric_result : Type := mkResult {
  return_code : Z;
  stdout : string
}.

(** [VirtualInstanceAWS.run_command_on_gos(command, timeout_sec)], given how
    fabric's [run] ends:
<<
    result = run(command, timeout=timeout_sec)
    if result.return_code != 0:
        ...
        raise RuntimeError('Error found while running cmd')
    return result.stdout
>> *)
Definition run_command_on_gos (ran : outcome fabric_result) : outcome string :=
  match ran with
  | Returns result =>
      if (return_code result =? 0)%Z then Returns (stdout result)
      else Raises ExcException
  | Raises e => Raises e
  | Hangs => Hangs
  end.

(** The commands of [TestInstance.execute_test]; their texts only name the
    files of the unit. *)
Inductive command : Type :=
| create_zero       (* dd if=/dev/zero ... *)
| create_random     (* dd if=/dev/urandom ... *)
| read_files        (* cat ... >> /dev/null *)
| delete_files.     (* rm ... *)

(** [TestInstance.execute_test(self, file_type='zero')]: [gos] tells how
    fabric's [run] ends on each command.  The handler of the create command
    is a bare [except:], those of the read and delete commands are
    [except Exception:]. *)
Definition execute_test (instance_id : nat) (file_type : string)
    (gos : command -> outcome fabric_result) : outcome RunResult :=
  let create_command :=
    if file_type =? "zero" then Some create_zero
    else if file_type =? "random" then Some create_random
    else None in
  match create_command with
  | None => Raises ExcException
  | Some create_command =>
      match run_command_on_gos (gos create_command) with
      | Hangs => Hangs
      | created =>
          let create_output :=
            match created with Returns text => text | _ => "" end in
          match run_command_on_gos (gos read_files) with
          | Hangs => Hangs
          | Raises ExcBaseOnly => Raises ExcBaseOnly
          | read =>
              let read_output :=
                match read with Returns text => text | _ => "" end in
              match run_command_on_gos (gos delete_files) with
              | Hangs => Hangs
              | Raises ExcBaseOnly => Raises ExcBaseOnly
              | deleted =>
                  let delete_output :=
                    match deleted with Returns text => text | _ => "" end in
                  Returns (Parser.parse_output instance_id create_output
                             read_output delete_output)
              end
          end
      end
  end.

(** The command that times operation [o], for the file types that have
    one. *)
Definition command_of (file_type : string) (o : operation) : command :=
  match o with
  | op_create => if file_type =? "zero" then create_zero else create_random
  | op_read => read_files
  | op_delete => delete_files
  end.

End Remote.

Module CommandLine.

Local Open Scope string_scope.

(** The parsed arguments: [argparse] leaves [None] for an option that is
    not given; [--clients] has [type=int]. *)
Record args : Type := mkArgs {
  clients : option Z;
  bucket : option string;
  key : option string;
  secretkey : option string;
  keypairname : option string;
  keypairfile : option string;
  region : option string;
  outfile : option string
}.

(** The checks at the head of [main], in their order; the result is the
    message of the exception raised, if one is.  In Python 2 [None <= 0] is
    true, so a missing [--clients] fails the first check.  [isfile] is
    [os.path.isfile]. *)
Definition validate (isfile : string -> bool) (a : args) : option string :=
  if match clients a with Some n => (n <=? 0)%Z | None => true end
  then Some "Invalid number of clients"
  else if match bucket a with None => true | _ => false end
  then Some "Bucket not specified"
  else if match region a with None => true | _ => false end
  then Some "Region name not specified"
  else if match key a with None => true | _ => false end
  then Some "access key not specified"
  else if match secretkey a with None => true | _ => false end
  then Some "secret key not specified"
  else if match keypairname a with None => true | _ => false end
  then Some "keypair not specified"
  else match keypairfile a with
       | None => Some "keypair file not specified"
       | Some path =>
           if isfile path then None
           else Some ("keypair file not found:" ++ path)
       end.

End CommandLine.

(* ================================================================== *)
(** * classicTest: the serial runner, and the runner of tests/AwsRunner *)
(* ================================================================== *)

Module ClassicTest.

Import PerformParallelOperations.

(** The four operations in the order in which both runners go through
    them. *)
Definition order : list method :=
  [m_setup_environment; m_pre_test_setup; m_execute_test; m_cleanup].

(** A call made by the calling thread itself: [self.<method>()]. *)
Definition direct {St : Type} (test : TestInstance) (m : method)
  : M St unit :=
  bind (emit (EvBegin m 0 0))
       (fun _ w =>
          let o := ended (invoke test m 0) in
          (o, mkWorld (store w) (trace w ++ [EvEnd m 0 0 o]))).

(** One block of [TestInstance.perform_all_operations]:
<<
    try:
        self.setup_environment()
    except Exception as err:
        log.exception("Failed to setup environment")
        raise
>> *)
Definition guarded {St : Type} (test : TestInstance) (m : method)
  : M St unit :=
  try_except (direct test m)
             (bind (emit EvLogException) (fun _ => raise ExcException)).

(** [TestInstance.perform_all_operations(self)]: the four blocks. *)
Definition perform_all_operations {St : Type} (self : TestInstance)
  : M St unit :=
  bind (guarded self m_setup_environment) (fun _ =>
  bind (guarded self m_pre_test_setup) (fun _ =>
  bind (guarded self m_execute_test) (fun _ =>
  guarded self m_cleanup))).

(** The operations that were launched, in the order of the launches. *)
Definition begun_methods (tr : list event) : list method :=
  flat_map (fun e => match e with EvBegin m _ _ => [m] | _ => [] end) tr.

(** The number of operations at the head of [ms] whose call returns. *)
Fixpoint leading_returns (test : TestInstance) (ms : list method) : nat :=
  match ms with
  | [] => 0
  | m :: ms' =>
      match invoke test m 0 with
      | Returns _ => S (leading_returns test ms')
      | _ => 0
      end
  end.

(** The place of an operation in [order]. *)
Definition position (m : method) : nat :=
  match m with
  | m_setup_environment => 0
  | m_pre_test_setup => 1
  | m_execute_test => 2
  | m_cleanup => 3
  end.

(** What the calls of operation [m] on the tests return, in the order of
    the tests. *)
Definition returned_values (m : method) (tests : list TestInstance)
  : list pyval :=
  flat_map (fun u => match invoke u m 0 with
                     | Returns v => [v]
                     | _ => []
                     end) tests.

(** The number of phases at the head of [ms] that get through on all the
    tests: no worker has captured an [Exception] or is alive after its
    join. *)
Fixpoint leading_phases (tests : list TestInstance) (ms : list method)
  : nat :=
  match ms with
  | [] => 0
  | m :: ms' =>
      if Shape.passes (Shape.oc_invoke m) tests
      then S (leading_phases tests ms')
      else 0
  end.

(** The loop of [PerformParallelOperations.perform_all_operations] over
    the phases [ms], described without the monad: its events, the list
    [self.results] after it, and whether it gets through. *)
Fixpoint phases_trace (tests : list TestInstance) (ms : list method)
  : list event :=
  match ms with
  | [] => []
  | m :: ms' =>
      Shape.begins m 0 0 (List.length tests)
      ++ Shape.ends m 0 (Shape.oc_invoke m) 0 tests
      ++ (if Shape.passes (Shape.oc_invoke m) tests
          then phases_trace tests ms'
          else [EvLogException])
  end.

Fixpoint phases_store (tests : list TestInstance) (ms : list method)
    (s : results_t) : results_t :=
  match ms with
  | [] => s
  | m :: ms' =>
      let s' :=
        Shape.batch_store (Shape.oc_invoke m) (Shape.g_invoke m) tests s in
      if Shape.passes (Shape.oc_invoke m) tests
      then phases_store tests ms' s'
      else s'
  end.

Definition phases_ok (tests : list TestInstance) (ms : list method) : bool :=
  forallb (fun m => Shape.passes (Shape.oc_invoke m) tests) ms.

End ClassicTest.

Module TestsAwsRunner.

Import PerformParallelOperations.

(** The objects of [main] in [tests/AwsRunner/AwsRunner.py]: the results of
    the executor and the local [test_run_averages]. *)
Record state : Type := mkState {
  results : results_t;
  test_run_averages : list RunAverages
}.

(** A method of the executor, run on the executor's part of the state. *)
Definition on_executor {A : Type} (m : M results_t A) : M state A :=
  fun w =>
    let (o, w') := m (mkWorld (results (store w)) (trace w)) in
    (o, mkWorld (mkState (store w') (test_run_averages (store w)))
                (trace w')).

(** The elements of [get_execute_test_results()] as [RunAverages] reads
    them: it calls the getters of each element, which [None] does not
    have. *)
Fixpoint run_results_of (values : list pyval) : option (list RunResult) :=
  match values with
  | [] => Some []
  | PyNone :: _ => None
  | PyRunResult r :: rest =>
      match run_results_of rest with
      | Some l => Some (r :: l)
      | None => None
      end
  end.

(** What [main] says at its end. *)
Inductive last_words : Type :=
| Reported (rows : list report_row)
| NoResultsToReport.

(** The body of the [try] of [main]:
<<
    for vinstance in virtual_instances:
        test_object_list.append(Test(vinstance, ...))
    parallel_ops = classicTest.PerformParallelOperations(
        test_instances=test_object_list)
    parallel_ops.perform_all_operations()
    test_run_averages.append(RunAverages(
        parallel_ops.get_execute_test_results(), 1))
>> *)
Definition body (test_object_list : list TestInstance) : M state unit :=
  match __init__ (Some test_object_list) with
  | Returns (parallel_ops, fresh) =>
      bind (modify (fun s => mkState fresh (test_run_averages s))) (fun _ =>
      bind (on_executor (perform_all_operations parallel_ops)) (fun _ =>
      bind get (fun s =>
        match run_results_of (get_execute_test_results (results s)) with
        | Some l =>
            modify (fun s => mkState (results s)
                               (test_run_averages s ++ [RunAverages_init l 1]))
        | None => raise ExcException
        end)))
  | Raises e => raise e
  | Hangs => fun w => (Hangs, w)
  end.

(** [main], from the point where [create_instances] has returned:
<<
    try: ...
    except Exception:
        log.exception(...)
    cloud_provider.destroy_all_instances()
    storage.delete_bucket(args.bucket)
    if len(test_run_averages) >= 1:
        report_results(test_run_averages, outfile=args.outfile)
    else:
        log.error("No results to report")
>> *)
Definition main (test_object_list : list TestInstance)
    (bed : AwsRunner.testbed) : M state last_words :=
  bind (try_except (body test_object_list) (emit EvLogException)) (fun _ =>
  bind (emit EvDestroyAllInstances) (fun _ =>
  bind (call (AwsRunner.destroy_all_instances bed)) (fun _ =>
  bind (emit EvDeleteBucket) (fun _ =>
  bind (call (AwsRunner.delete_bucket bed)) (fun _ =>
  bind get (fun s =>
    if (1 <=? List.length (test_run_averages s))%nat then
      let rows := map AwsRunner.row_of (test_run_averages s) in
      bind (emit (EvReport rows)) (fun _ => ret (Reported rows))
    else ret NoResultsToReport)))))).

Definition initial : world state := mkWorld (mkState [] []) [].



Definition run_main (test_object_list : list TestInstance)
    (bed : AwsRunner.testbed) : outcome last_words * world state :=
  main test_object_list bed initial.

End TestsAwsRunner.
(* ################################################################## *)
(** * Properties *)
(* ################################################################## *)

(* ================================================================== *)
(** ** The timing parser *)
(* ================================================================== *)

Module ParserFacts.

Import Parser.
Local Open Scope string_scope.

Lemma span_app_stop (p : ascii -> bool) (c : ascii) (t s : string) :
  p c = false ->
  span p (s ++ String c t) = (fst (span p s), snd (span p s) ++ String c t).
Proof.
  intros Hc. induction s as [|a s IH]; simpl.
  - now rewrite Hc.
  - destruct (p a); [|reflexivity].
    rewrite IH. now destruct (span p s).
Qed.

Lemma plus_app_stop (p : ascii -> bool) (c : ascii) (t s : string) :
  p c = false ->
  plus p (s ++ String c t) = more2 (String c t) (plus p s).
Proof.
  intros Hc. unfold plus. rewrite (span_app_stop p c t s Hc).
  destruct (span p s) as [a b]; simpl. now destruct a.
Qed.

Lemma lit_app_stop (x c : ascii) (t s : string) :
  Ascii.eqb x c = false ->
  lit x (s ++ String c t) = more (String c t) (lit x s).
Proof.
  intros Hx. destruct s as [|a s]; simpl.
  - now rewrite Hx.
  - now destruct (Ascii.eqb x a).
Qed.

Lemma lit_app_cons (x a : ascii) (s t : string) :
  lit x (String a s ++ t) = more t (lit x (String a s)).
Proof. simpl. now destruct (Ascii.eqb x a). Qed.

(** A match that starts inside [s] does not reach into a following text
    that begins with the letter r: no item of the pattern after the first
    accepts that letter. *)
Lemma match_here_app_r (a : ascii) (s t : string) :
  match_here (String a s ++ String "r" t)
  = option_map (fun g => (fst g, snd g ++ String "r" t))
               (match_here (String a s)).
Proof.
  unfold match_here.
  rewrite lit_app_cons.
  destruct (lit "r" (String a s)) as [s1|]; [simpl|reflexivity].
  rewrite lit_app_stop by reflexivity.
  destruct (lit "e" s1) as [s2|]; [simpl|reflexivity].
  rewrite lit_app_stop by reflexivity.
  destruct (lit "a" s2) as [s3|]; [simpl|reflexivity].
  rewrite lit_app_stop by reflexivity.
  destruct (lit "l" s3) as [s4|]; [simpl|reflexivity].
  rewrite plus_app_stop by reflexivity.
  destruct (plus is_space s4) as [[w s5]|]; [simpl|reflexivity].
  rewrite plus_app_stop by reflexivity.
  destruct (plus is_digit s5) as [[g1 s6]|]; [simpl|reflexivity].
  rewrite lit_app_stop by reflexivity.
  destruct (lit "m" s6) as [s7|]; [simpl|reflexivity].
  rewrite plus_app_stop by reflexivity.
  destruct (plus is_digit s7) as [[g2 s8]|]; [simpl|reflexivity].
  rewrite lit_app_stop by reflexivity.
  destruct (lit "." s8) as [s9|]; [simpl|reflexivity].
  rewrite plus_app_stop by reflexivity.
  destruct (plus is_digit s9) as [[g3 s10]|]; [simpl|reflexivity].
  rewrite lit_app_stop by reflexivity.
  destruct (lit "s" s10) as [s11|]; reflexivity.
Qed.

Lemma re_search_none_inv (a : ascii) (s : string) :
  re_search (String a s) = None ->
  match_here (String a s) = None /\ re_search s = None.
Proof.
  intros H. change (re_search (String a s)) with
    (match match_here (String a s) with
     | Some (g1, g2, g3, _) => Some (g1, g2, g3)
     | None => re_search s
     end) in H.
  destruct (match_here (String a s)) as [[[[g1 g2] g3] r]|];
    [discriminate|now split].
Qed.

(** A text without a match, put in front of a text that begins with the
    letter r, adds no match. *)
Lemma re_search_skip (pre t : string) :
  re_search pre = None ->
  re_search (pre ++ String "r" t) = re_search (String "r" t).
Proof.
  induction pre as [|a pre IH]; intros H; [reflexivity|].
  apply re_search_none_inv in H. destruct H as [Hm Hs].
  change (re_search (String a pre ++ String "r" t)) with
    (match match_here (String a pre ++ String "r" t) with
     | Some (g1, g2, g3, _) => Some (g1, g2, g3)
     | None => re_search (pre ++ String "r" t)
     end).
  rewrite match_here_app_r, Hm. simpl. auto.
Qed.

Lemma re_search_sample (post : string) :
  re_search ("real 1m2.345s" ++ post) = Some ("1", "2", "345").
Proof. reflexivity. Qed.

Lemma re_search_first (pre post : string) :
  re_search pre = None ->
  re_search (pre ++ "real 1m2.345s" ++ post) = Some ("1", "2", "345").
Proof.
  intros H.
  change ("real 1m2.345s" ++ post) with (String "r" ("eal 1m2.345s" ++ post)).
  rewrite re_search_skip by exact H. reflexivity.
Qed.

End ParserFacts.

(* ================================================================== *)
(** ** RunAverages *)
(* ================================================================== *)

Module RunAveragesFacts.

Import RunAveragesImpl.

Lemma pass_count_cons status r l :
  pass_count status (r :: l)
  = (if status r then 1 else 0) + pass_count status l.
Proof.
  unfold pass_count, passing. simpl. destruct (status r); simpl List.length; lia.
Qed.

Lemma fail_count_cons status r l :
  fail_count status (r :: l)
  = (if status r then 0 else 1) + fail_count status l.
Proof.
  unfold fail_count. simpl. destruct (status r); simpl List.length; lia.
Qed.

Lemma sum_passing_cons status time r l :
  sum_of time (passing status (r :: l))
  = (if status r then time r else 0) + sum_of time (passing status l).
Proof. unfold passing. simpl. destruct (status r); simpl; lia. Qed.

Lemma pass_count_nonneg status l : 0 <= pass_count status l.
Proof. unfold pass_count. lia. Qed.

Lemma pass_count_app status l1 l2 :
  pass_count status (l1 ++ l2) = pass_count status l1 + pass_count status l2.
Proof.
  unfold pass_count, passing. rewrite filter_app, length_app. lia.
Qed.

Lemma fail_count_app status l1 l2 :
  fail_count status (l1 ++ l2) = fail_count status l1 + fail_count status l2.
Proof.
  unfold fail_count. rewrite filter_app, length_app. lia.
Qed.

Lemma sum_passing_app status time l1 l2 :
  sum_of time (passing status (l1 ++ l2))
  = sum_of time (passing status l1) + sum_of time (passing status l2).
Proof.
  induction l1 as [|r l1 IH]; [simpl; lia|].
  change ((r :: l1) ++ l2) with (r :: (l1 ++ l2)).
  rewrite !sum_passing_cons, IH. lia.
Qed.

Ltac fields :=
  cbn [_total_create_pass _total_create_fail _total_create_time_ms
       _total_read_pass _total_read_fail _total_read_time_ms
       _total_delete_pass _total_delete_fail _total_delete_time_ms
       _average_create_time_ms _average_read_time_ms _average_delete_time_ms
       _run_id with_average_create with_average_read with_average_delete
       get_file_create_status get_file_read_status get_file_delete_status
       get_file_create_time_ms get_file_read_time_ms get_file_delete_time_ms].

Lemma loop_tally l : forall a, fold_left loop_body l a = tally l a.
Proof.
  induction l as [|r l IH]; intros a.
  - destruct a. unfold tally, pass_count, fail_count. simpl.
    f_equal; lia.
  - simpl fold_left. rewrite IH. unfold tally.
    rewrite !pass_count_cons, !fail_count_cons, !sum_passing_cons.
    unfold loop_body, count_create, count_read, count_delete.
    destruct (get_file_create_status r), (get_file_read_status r),
      (get_file_delete_status r); fields; f_equal; lia.
Qed.

(** The counters of a constructed [RunAverages]. *)
Lemma init_totals l id :
  let a := RunAverages_init l id in
  _total_create_pass a = pass_count get_file_create_status l
  /\ _total_create_fail a = fail_count get_file_create_status l
  /\ _total_create_time_ms a
     = sum_of get_file_create_time_ms (passing get_file_create_status l)
  /\ _total_read_pass a = pass_count get_file_read_status l
  /\ _total_read_fail a = fail_count get_file_read_status l
  /\ _total_read_time_ms a
     = sum_of get_file_read_time_ms (passing get_file_read_status l)
  /\ _total_delete_pass a = pass_count get_file_delete_status l
  /\ _total_delete_fail a = fail_count get_file_delete_status l
  /\ _total_delete_time_ms a
     = sum_of get_file_delete_time_ms (passing get_file_delete_status l)
  /\ _run_id a = id.
Proof.
  unfold RunAverages_init. rewrite loop_tally.
  unfold finish_delete, finish_read, finish_create, tally, zeroed.
  fields. rewrite !Z.add_0_l.
  destruct (pass_count get_file_create_status l =? 0); fields;
    destruct (pass_count get_file_read_status l =? 0); fields;
    destruct (pass_count get_file_delete_status l =? 0); fields;
    repeat split; reflexivity.
Qed.

(** The delete average is the specified one. *)
Lemma avg_delete_spec l id :
  get_avg_delete_time_ms (RunAverages_init l id)
  = spec_average get_file_delete_status get_file_delete_time_ms l.
Proof.
  unfold RunAverages_init, get_avg_delete_time_ms, spec_average.
  rewrite loop_tally.
  unfold finish_delete, finish_read, finish_create, tally, zeroed.
  fields. rewrite !Z.add_0_l.
  destruct (pass_count get_file_create_status l =? 0); fields;
    destruct (pass_count get_file_read_status l =? 0); fields;
    destruct (pass_count get_file_delete_status l =? 0); reflexivity.
Qed.

(** The create average is the specified one when some read passes, and -1
    whenever no read passes. *)
Lemma avg_create_spec l id :
  get_avg_create_time_ms (RunAverages_init l id)
  = if pass_count get_file_read_status l =? 0 then -1
    else spec_average get_file_create_status get_file_create_time_ms l.
Proof.
  unfold RunAverages_init, get_avg_create_time_ms, spec_average.
  rewrite loop_tally.
  unfold finish_delete, finish_read, finish_create, tally, zeroed.
  fields. rewrite !Z.add_0_l.
  destruct (pass_count get_file_create_status l =? 0); fields;
    destruct (pass_count get_file_read_status l =? 0); fields;
    destruct (pass_count get_file_delete_status l =? 0); reflexivity.
Qed.

(** The read average is the specified one when some read passes, and stays
    at its initial 0 when none does. *)
Lemma avg_read_spec l id :
  get_avg_read_time_ms (RunAverages_init l id)
  = if pass_count get_file_read_status l =? 0 then 0
    else spec_average get_file_read_status get_file_read_time_ms l.
Proof.
  unfold RunAverages_init, get_avg_read_time_ms, spec_average.
  rewrite loop_tally.
  unfold finish_delete, finish_read, finish_create, tally, zeroed.
  fields. rewrite !Z.add_0_l.
  destruct (pass_count get_file_create_status l =? 0); fields;
    destruct (pass_count get_file_read_status l =? 0); fields;
    destruct (pass_count get_file_delete_status l =? 0); reflexivity.
Qed.

End RunAveragesFacts.

(* ================================================================== *)
(** ** The structure of a run *)
(* ================================================================== *)

Module StructureFacts.

Import AwsRunner Shape.

Lemma world_eta {St : Type} (w : world St) : mkWorld (store w) (trace w) = w.
Proof. now destruct w. Qed.

Lemma ended_unit (o : outcome unit) : ended o = o.
Proof. now destruct o as [[]| |]. Qed.

Lemma skipn_head {A : Type} (l : list A) : forall j u t,
  skipn j l = u :: t -> nth_error l j = Some u /\ skipn (S j) l = t.
Proof.
  induction l as [|a l IH]; intros j u t H.
  - destruct j; discriminate.
  - destruct j as [|j].
    + simpl in H. injection H as -> ->. now split.
    + simpl in H. apply IH in H. exact H.
Qed.

Lemma skipn_nil_nth_error {A : Type} (l : list A) : forall j,
  skipn j l = [] -> nth_error l j = None.
Proof.
  induction l as [|a l IH]; intros j H.
  - now destruct j.
  - destruct j as [|j]; [discriminate|]. simpl in *. auto.
Qed.

(** The starting loop of a batch, on units that exist. *)
Lemma start_range_ok (m : method) (i : nat)
    (target : TestInstance -> nat -> prog unit) (objs : list TestInstance) :
  forall us j rest w,
    skipn j objs = us ++ rest ->
    start_range m i target objs (seq j (List.length us)) w
    = (Returns (workers_of m i target j us),
       mkWorld (store w) (trace w ++ begins m i j (List.length us))).
Proof.
  induction us as [|u us IH]; intros j rest w H.
  - simpl. unfold ret, begins. simpl. now rewrite app_nil_r, world_eta.
  - apply skipn_head in H. destruct H as [Hn Hs].
    cbn [List.length seq start_range]. unfold bind at 1, index.
    rewrite Hn. unfold ret at 1. unfold bind at 1, start, emit.
    cbn [w_method w_level w_index]. unfold bind at 1.
    rewrite (IH (S j) rest _ Hs). unfold ret. cbn [store trace].
    unfold begins. cbn [seq map]. now rewrite <- app_assoc.
Qed.

(** The starting loop of a batch that asks for more units than exist: the
    index raises after the existing ones are started. *)
Lemma start_range_short (m : method) (i : nat)
    (target : TestInstance -> nat -> prog unit) (objs : list TestInstance) :
  forall us j k w,
    skipn j objs = us ->
    start_range m i target objs (seq j (List.length us + S k)) w
    = (Raises ExcException,
       mkWorld (store w) (trace w ++ begins m i j (List.length us))).
Proof.
  induction us as [|u us IH]; intros j k w H.
  - apply skipn_nil_nth_error in H.
    cbn [List.length Nat.add seq start_range]. unfold bind, index.
    rewrite H. unfold raise, begins. simpl. now rewrite app_nil_r, world_eta.
  - apply skipn_head in H. destruct H as [Hn Hs].
    cbn [List.length Nat.add seq start_range]. unfold bind at 1, index.
    rewrite Hn. unfold ret at 1. unfold bind at 1, start, emit.
    cbn [w_method w_level w_index]. unfold bind at 1.
    rewrite (IH (S j) k _ Hs). cbn [store trace].
    unfold begins. cbn [seq map]. now rewrite <- app_assoc.
Qed.

(** The waiting loop of a batch whose targets end as [oc] says and change
    the store as [g] says. *)
Lemma join_all_shape {St : Type} (m : method) (i : nat)
    (target : TestInstance -> nat -> M St unit)
    (oc : TestInstance -> outcome unit) (g : TestInstance -> St -> St) :
  (forall u w, target u i w = (oc u, mkWorld (g u (store w)) (trace w))) ->
  forall us j w,
    join_all (workers_of m i target j us) w
    = (if passes oc us then Returns tt else Raises ExcException,
       mkWorld (batch_store oc g us (store w))
               (trace w ++ ends m i oc j us)).
Proof.
  intros Ht. induction us as [|u us IH]; intros j w.
  - simpl. unfold ret. now rewrite app_nil_r, world_eta.
  - cbn [workers_of]. unfold join_all in *. cbn [for_].
    unfold bind at 1. unfold bind at 1. unfold join at 1.
    cbn [w_target w_method w_level w_index]. rewrite Ht.
    rewrite ended_unit. cbn [store trace passes forallb ends batch_store].
    unfold blocks at 1 2 3.
    destruct (oc u) as [[]|[]|]; cbn.
    + unfold bind at 1. unfold ret at 1. rewrite IH. cbn [store trace].
      now rewrite <- app_assoc.
    + reflexivity.
    + unfold bind at 1. unfold ret at 1. rewrite IH. cbn [store trace].
      now rewrite <- app_assoc.
    + reflexivity.
Qed.

(** What the three targets do. *)
Lemma general_test_prep_acts (u : TestInstance) (w : world lists) :
  general_test_prep u w = (oc_setup u, mkWorld (store w) (trace w)).
Proof. unfold general_test_prep, call, oc_setup. now rewrite world_eta. Qed.

Lemma pre_test_setup_acts (i : nat) (u : TestInstance) (w : world lists) :
  AwsRunner.pre_test_setup u i w = (oc_pre i u, mkWorld (store w) (trace w)).
Proof.
  unfold AwsRunner.pre_test_setup, call, oc_pre, Top_pre_test_setup.
  now rewrite world_eta.
Qed.

Lemma run_test_acts (i : nat) (u : TestInstance) (w : world lists) :
  run_test u i w = (oc_exec i u, mkWorld (g_exec i u (store w)) (trace w)).
Proof.
  unfold run_test, bind, call, modify, oc_exec, g_exec.
  destruct (execute_test u i) as [r|e|]; cbn; now rewrite ?world_eta.
Qed.

Lemma batch_store_id (oc : TestInstance -> outcome unit)
    (us : list TestInstance) (s : lists) :
  batch_store oc (fun _ s => s) us s = s.
Proof. induction us as [|u us IH]; simpl; [|destruct (blocks (oc u))]; auto. Qed.

Lemma batch_store_exec (i : nat) (us : list TestInstance) : forall s,
  batch_store (oc_exec i) (g_exec i) us s
  = mkLists (test_per_run_results s ++ gathered i us) (test_run_averages s).
Proof.
  induction us as [|u us IH]; intros s.
  - simpl. rewrite app_nil_r. now destruct s.
  - cbn [batch_store gathered].
    assert (Hoc : oc_exec i u = ended (execute_test u i)) by reflexivity.
    rewrite Hoc, IH. unfold g_exec.
    destruct (execute_test u i) as [r|[]|]; cbn.
    + now rewrite <- app_assoc.
    + rewrite app_nil_r. now destruct s.
    + reflexivity.
    + rewrite app_nil_r. now destruct s.
Qed.

(** The first loop of [main]. *)
Lemma prepare_from_shape : forall objs j w,
  prepare_from j objs w
  = (Returns (workers_of m_setup_environment 0
                (fun u _ => general_test_prep u) j objs),
     mkWorld (store w)
       (trace w ++ begins m_setup_environment 0 j (List.length objs))).
Proof.
  induction objs as [|u objs IH]; intros j w.
  - simpl. unfold ret, begins. simpl. now rewrite app_nil_r, world_eta.
  - cbn [prepare_from List.length]. unfold bind at 1, start, emit.
    cbn [w_method w_level w_index]. unfold bind at 1. rewrite IH.
    unfold ret. cbn [store trace workers_of]. unfold begins. cbn [seq map].
    now rewrite <- app_assoc.
Qed.

(** The cleanup loop of a level, on units that exist. *)
Lemma cleanup_loop_shape (i : nat) (objs : list TestInstance) :
  forall us j rest w,
    skipn j objs = us ++ rest ->
    for_ (seq j (List.length us))
         (fun j => bind (index objs j)
                        (fun test_object => direct_cleanup test_object i j)) w
    = (cleanup_result i us,
       mkWorld (store w) (trace w ++ cleanups i j us)).
Proof.
  induction us as [|u us IH]; intros j rest w H.
  - simpl. unfold ret. now rewrite app_nil_r, world_eta.
  - apply skipn_head in H. destruct H as [Hn Hs].
    cbn [List.length seq for_ cleanups cleanup_result].
    unfold bind at 1. unfold bind at 1. unfold index. rewrite Hn.
    unfold ret at 1. unfold direct_cleanup, bind at 1, emit.
    cbn [store trace]. rewrite ended_unit.
    destruct (cleanup u i) as [[]|e|].
    + rewrite (IH (S j) rest _ Hs). cbn [store trace].
      now rewrite <- !app_assoc.
    + now rewrite <- !app_assoc.
    + now rewrite <- !app_assoc.
Qed.

Lemma start_range_sel (m : method) (i : nat)
    (target : TestInstance -> nat -> prog unit) (objs : list TestInstance)
    (n : nat) (w : world lists) :
  (n <= List.length objs)%nat ->
  start_range m i target objs (seq 0 n) w
  = (Returns (workers_of m i target 0 (firstn n objs)),
     mkWorld (store w) (trace w ++ begins m i 0 n)).
Proof.
  intros Hn.
  pose proof (start_range_ok m i target objs (firstn n objs) 0 (skipn n objs) w)
    as H.
  rewrite firstn_length_le in H by exact Hn.
  apply H. simpl. symmetry. apply firstn_skipn.
Qed.

Lemma cleanup_loop_sel (i : nat) (objs : list TestInstance) (n : nat)
    (w : world lists) :
  (n <= List.length objs)%nat ->
  for_ (seq 0 n)
       (fun j => bind (index objs j)
                      (fun test_object => direct_cleanup test_object i j)) w
  = (cleanup_result i (firstn n objs),
     mkWorld (store w) (trace w ++ cleanups i 0 (firstn n objs))).
Proof.
  intros Hn.
  pose proof (cleanup_loop_shape i objs (firstn n objs) 0 (skipn n objs) w)
    as H.
  rewrite firstn_length_le in H by exact Hn.
  apply H. simpl. symmetry. apply firstn_skipn.
Qed.

Lemma start_range_over (m : method) (i : nat)
    (target : TestInstance -> nat -> prog unit) (objs : list TestInstance)
    (n : nat) (w : world lists) :
  (List.length objs < n)%nat ->
  start_range m i target objs (seq 0 n) w
  = (Raises ExcException,
     mkWorld (store w) (trace w ++ begins m i 0 (List.length objs))).
Proof.
  intros Hn.
  replace n with (List.length objs + S (n - S (List.length objs)))%nat by lia.
  now apply start_range_short.
Qed.

(** One iteration of the level loop. *)
Lemma level_shape (objs : list TestInstance) (i : nat) (w : world lists) :
  level objs i w
  = (level_result objs i,
     mkWorld (level_store objs i (store w))
             (trace w ++ level_trace objs i)).
Proof.
  unfold level_result, level_store, level_trace, level_ok, level_result,
    exec_ok, pre_ok, in_range, selected.
  destruct (Nat.leb_spec i (List.length objs)) as [Hle|Hgt].
  - rewrite firstn_length_le by exact Hle.
    cbn [andb]. unfold level.
    unfold bind at 1. rewrite start_range_sel by exact Hle.
    unfold bind at 1.
    rewrite (join_all_shape m_pre_test_setup i AwsRunner.pre_test_setup
               (oc_pre i) (fun _ s => s) (pre_test_setup_acts i)).
    rewrite batch_store_id. cbn [store trace].
    destruct (passes (oc_pre i) (firstn i objs)); cbn [andb].
    2:{ rewrite !app_nil_r, <- app_assoc. now destruct (store w). }
    unfold bind at 1. rewrite start_range_sel by exact Hle.
    unfold bind at 1.
    rewrite (join_all_shape m_execute_test i run_test
               (oc_exec i) (g_exec i) (run_test_acts i)).
    rewrite batch_store_exec. cbn [store trace].
    destruct (passes (oc_exec i) (firstn i objs)).
    2:{ rewrite !app_nil_r, <- !app_assoc. reflexivity. }
    unfold bind at 1. rewrite cleanup_loop_sel by exact Hle.
    cbn [store trace].
    destruct (cleanup_result i (firstn i objs)) as [[]|e|].
    + unfold bind, emit, modify. cbn [store trace test_per_run_results
        test_run_averages]. now rewrite <- !app_assoc.
    + now rewrite !app_nil_r, <- !app_assoc.
    + now rewrite !app_nil_r, <- !app_assoc.
  - cbn [andb]. rewrite firstn_all2 by lia.
    unfold level. unfold bind at 1.
    rewrite start_range_over by exact Hgt.
    rewrite !app_nil_r. now destruct (store w).
Qed.

(** The level loop. *)
Lemma levels_shape (objs : list TestInstance) : forall ls w,
  for_ ls (level objs) w
  = (levels_result objs ls,
     mkWorld (levels_store objs ls (store w))
             (trace w ++ levels_trace objs ls)).
Proof.
  induction ls as [|i ls IH]; intros w.
  - simpl. unfold ret. now rewrite app_nil_r, world_eta.
  - cbn [for_ levels_result levels_store levels_trace].
    unfold bind. rewrite level_shape. unfold level_ok.
    destruct (level_result objs i) as [[]|e|].
    + rewrite IH. cbn [store trace]. now rewrite <- app_assoc.
    + now rewrite app_nil_r.
    + now rewrite app_nil_r.
Qed.

(** The [try] block. *)
Lemma ramp_shape (clients : nat) (objs : list TestInstance) (w : world lists) :
  ramp clients objs w
  = (ramp_result clients objs,
     mkWorld (ramp_store clients objs (store w))
             (trace w ++ ramp_trace clients objs)).
Proof.
  unfold ramp, ramp_result, ramp_store, ramp_trace, setup_ok.
  unfold bind at 1. rewrite prepare_from_shape. unfold bind at 1.
  rewrite (join_all_shape m_setup_environment 0
             (fun u _ => general_test_prep u) oc_setup (fun _ s => s)
             (fun u w => general_test_prep_acts u w)).
  rewrite batch_store_id. cbn [store trace].
  destruct (passes oc_setup objs).
  - rewrite levels_shape. cbn [store trace]. now rewrite <- !app_assoc.
  - now rewrite app_nil_r, <- !app_assoc.
Qed.

(** The whole run. *)
Lemma run_main_shape (clients : nat) (objs : list TestInstance)
    (bed : testbed) :
  run_main clients objs bed
  = (main_result clients objs bed,
     mkWorld (ramp_store clients objs (mkLists [] []))
             (main_trace clients objs bed)).
Proof.
  unfold run_main, main, main_result, main_trace, tail_trace, tail_result.
  unfold bind at 1. unfold try_except. rewrite ramp_shape.
  unfold initial. cbn [store trace app].
  destruct (ramp_result clients objs) as [[]|[]|];
    destruct (destroy_all_instances bed) as [[]|e1|];
    destruct (delete_bucket bed) as [[]|e2|];
    repeat (unfold bind, emit, call, get, report_results; cbn [store trace]);
    rewrite <- ?app_assoc, ?app_nil_r; reflexivity.
Qed.

End StructureFacts.

(* ================================================================== *)
(** ** The events of a run *)
(* ================================================================== *)

Module TraceFacts.

Import AwsRunner Shape StructureFacts.

Lemma In_begins (m : method) (i j n : nat) (e : event) :
  In e (begins m i j n) <-> exists k, (j <= k < j + n)%nat /\ e = EvBegin m i k.
Proof.
  unfold begins. rewrite in_map_iff. split.
  - intros (k & <- & Hk). apply in_seq in Hk. now exists k.
  - intros (k & Hk & ->). exists k. split; [reflexivity|]. now apply in_seq.
Qed.

(** The events of a waiting loop are the ends of calls of its units. *)
Lemma In_ends (m : method) (i : nat) (oc : TestInstance -> outcome unit)
    (e : event) : forall us j,
  In e (ends m i oc j us) ->
  exists k u, nth_error us k = Some u /\ e = EvEnd m i (j + k) (oc u).
Proof.
  induction us as [|u us IH]; intros j H; [contradiction|].
  cbn [ends] in H. destruct H as [<-|H].
  - exists 0%nat, u. split; [reflexivity|]. now rewrite Nat.add_0_r.
  - destruct (blocks (oc u)); [contradiction|].
    apply IH in H. destruct H as (k & u' & Hk & ->).
    exists (S k), u'. split; [exact Hk|]. f_equal. lia.
Qed.

(** A waiting loop that gets through has seen every call end, and none of
    them blocks. *)
Lemma ends_complete (m : method) (i : nat) (oc : TestInstance -> outcome unit) :
  forall us j k u,
    passes oc us = true ->
    nth_error us k = Some u ->
    In (EvEnd m i (j + k) (oc u)) (ends m i oc j us) /\ blocks (oc u) = false.
Proof.
  induction us as [|u0 us IH]; intros j k u Hp Hk.
  - destruct k; discriminate.
  - cbn [passes forallb] in Hp. apply andb_true_iff in Hp.
    destruct Hp as [Hb Hp]. apply negb_true_iff in Hb.
    cbn [ends]. rewrite Hb. destruct k as [|k].
    + injection Hk as <-. rewrite Nat.add_0_r. split; [now left|exact Hb].
    + cbn [nth_error] in Hk. destruct (IH (S j) k u Hp Hk) as [Hin Hbu].
      split; [|exact Hbu]. right.
      now replace (j + S k)%nat with (S j + k)%nat by lia.
Qed.


Lemma Forall_app_intro {A : Type} (P : A -> Prop) (a b : list A) :
  Forall P a -> Forall P b -> Forall P (a ++ b).
Proof. intros Ha Hb. apply Forall_app. now split. Qed.

Lemma Forall_begins (P : event -> Prop) (m : method) (i j n : nat) :
  (forall k, P (EvBegin m i k)) -> Forall P (begins m i j n).
Proof.
  intros H. apply Forall_forall. intros e He.
  apply In_begins in He. destruct He as (k & _ & ->). apply H.
Qed.

Lemma Forall_ends (P : event -> Prop) (m : method) (i : nat)
    (oc : TestInstance -> outcome unit) (j : nat) (us : list TestInstance) :
  (forall k r, P (EvEnd m i k r)) -> Forall P (ends m i oc j us).
Proof.
  intros H. apply Forall_forall. intros e He.
  apply In_ends in He. destruct He as (k & u & _ & ->). apply H.
Qed.

Lemma Forall_cleanups (P : event -> Prop) (i : nat) :
  (forall k, P (EvBegin m_cleanup i k)) ->
  (forall k r, P (EvEnd m_cleanup i k r)) ->
  forall us j, Forall P (cleanups i j us).
Proof.
  intros Hb He. induction us as [|u us IH]; intros j; cbn [cleanups].
  - constructor.
  - constructor; [apply Hb|]. constructor; [apply He|].
    destruct (cleanup u i); [apply IH|constructor|constructor].
Qed.

(** Every event of a level's iteration is an event of the [try] block that
    carries the level's number. *)
Lemma Forall_level_trace (P : event -> Prop) (objs : list TestInstance)
    (i : nat) :
  (forall m k, P (EvBegin m i k)) ->
  (forall m k r, P (EvEnd m i k r)) ->
  P (EvAverages i) ->
  Forall P (level_trace objs i).
Proof.
  intros Hb He Ha. unfold level_trace.
  apply Forall_app_intro; [now apply Forall_begins|].
  apply Forall_app_intro.
  { destruct (in_range objs i); [now apply Forall_ends|constructor]. }
  apply Forall_app_intro.
  { destruct (pre_ok objs i); [|constructor].
    apply Forall_app_intro; [now apply Forall_begins|now apply Forall_ends]. }
  apply Forall_app_intro.
  { destruct (exec_ok objs i); [|constructor].
    apply Forall_cleanups; auto. }
  destruct (level_ok objs i); constructor; [exact Ha|constructor].
Qed.

Lemma level_trace_level (objs : list TestInstance) (i : nat) :
  Forall (fun e => ramp_event e /\ level_of e = Some i) (level_trace objs i).
Proof. apply Forall_level_trace; intros; now split. Qed.

Lemma levels_trace_events (objs : list TestInstance) (ls : list nat) :
  Forall (fun e => ramp_event e /\ exists i, In i ls /\ level_of e = Some i)
         (levels_trace objs ls).
Proof.
  induction ls as [|i ls IH]; cbn [levels_trace]; [constructor|].
  apply Forall_app_intro.
  - eapply Forall_impl; [|apply level_trace_level].
    intros e [He Hl]. split; [exact He|]. exists i. split; [now left|exact Hl].
  - destruct (level_ok objs i); [|constructor].
    eapply Forall_impl; [|exact IH].
    intros e [He (k & Hk & Hl)]. split; [exact He|].
    exists k. split; [now right|exact Hl].
Qed.

Lemma ramp_trace_events (clients : nat) (objs : list TestInstance) :
  Forall ramp_event (ramp_trace clients objs).
Proof.
  unfold ramp_trace.
  apply Forall_app_intro; [now apply Forall_begins|].
  apply Forall_app_intro; [now apply Forall_ends|].
  destruct (setup_ok objs); [|constructor].
  eapply Forall_impl; [|apply levels_trace_events]. now intros e [He _].
Qed.

Lemma reported_skip (tr rest : list event) :
  Forall ramp_event tr -> reported (tr ++ rest) = reported rest.
Proof.
  induction 1 as [|e tr He _ IH]; [reflexivity|].
  destruct e; try contradiction; exact IH.
Qed.

Lemma not_ramp_event_In (tr : list event) (e : event) :
  Forall ramp_event tr -> ~ ramp_event e -> ~ In e tr.
Proof.
  intros H He Hin. rewrite Forall_forall in H. exact (He (H e Hin)).
Qed.



End TraceFacts.

(* ================================================================== *)
(** ** A failing level ends the level loop *)
(* ================================================================== *)

Module AbortFacts.

Import AwsRunner Shape StructureFacts TraceFacts.








End AbortFacts.

(* ================================================================== *)
(** ** PerformParallelOperations *)
(* ================================================================== *)

Module PPOFacts.

Import PerformParallelOperations Shape StructureFacts.

Lemma gather_acts (m : method) (u : TestInstance) (w : world results_t) :
  _thread_run_and_gather u m w
  = (oc_invoke m u, mkWorld (g_invoke m u (store w)) (trace w)).
Proof.
  unfold _thread_run_and_gather, bind, call, modify, oc_invoke, g_invoke.
  destruct (invoke u m 0) as [v|e|]; cbn; now rewrite ?world_eta.
Qed.

Lemma start_from_shape (m : method) : forall us j w,
  start_from m j us w
  = (Returns (workers_of m 0 (fun u _ => _thread_run_and_gather u m) j us),
     mkWorld (store w) (trace w ++ begins m 0 j (List.length us))).
Proof.
  induction us as [|u us IH]; intros j w.
  - simpl. unfold ret, begins. simpl. now rewrite app_nil_r, world_eta.
  - cbn [start_from List.length]. unfold bind at 1, start, emit.
    cbn [w_method w_level w_index]. unfold bind at 1. rewrite IH.
    unfold ret. cbn [store trace workers_of]. unfold begins. cbn [seq map].
    now rewrite <- app_assoc.
Qed.

(** [_perform_ops], described. *)
Lemma _perform_ops_shape (self : t) (m : method) (w : world results_t) :
  _perform_ops self m w
  = (if passes (oc_invoke m) (tests self) then Returns tt
     else Raises ExcException,
     mkWorld (batch_store (oc_invoke m) (g_invoke m) (tests self) (store w))
             (trace w ++ begins m 0 0 (List.length (tests self))
                      ++ ends m 0 (oc_invoke m) 0 (tests self))).
Proof.
  unfold _perform_ops. unfold bind. rewrite start_from_shape.
  rewrite (join_all_shape m 0 (fun u _ => _thread_run_and_gather u m)
             (oc_invoke m) (g_invoke m) (gather_acts m)).
  cbn [store trace]. now rewrite <- app_assoc.
Qed.

(** The units up to the first one that blocks. *)
Lemma first_blocking (oc : TestInstance -> outcome unit) :
  forall us u,
    In u us -> blocks (oc u) = true ->
    exists before bad after,
      us = before ++ bad :: after
      /\ Forall (fun u' => blocks (oc u') = false) before
      /\ blocks (oc bad) = true.
Proof.
  induction us as [|u0 us IH]; intros u Hin Hb; [contradiction|].
  destruct (blocks (oc u0)) eqn:E0.
  - exists [], u0, us. repeat split; [constructor|exact E0].
  - destruct Hin as [->|Hin]; [congruence|].
    destruct (IH u Hin Hb) as (before & bad & after & -> & Hall & Hbad).
    exists (u0 :: before), bad, after. repeat split; [|exact Hbad].
    now constructor.
Qed.

Lemma passes_split (oc : TestInstance -> outcome unit)
    (before after : list TestInstance) (bad : TestInstance) :
  blocks (oc bad) = true -> passes oc (before ++ bad :: after) = false.
Proof.
  intros Hb. unfold passes. rewrite forallb_app. cbn [forallb].
  rewrite Hb. cbn. apply andb_false_r.
Qed.

Lemma batch_store_split {St : Type} (oc : TestInstance -> outcome unit)
    (g : TestInstance -> St -> St) (bad : TestInstance)
    (after : list TestInstance) :
  blocks (oc bad) = true ->
  forall before s,
    Forall (fun u' => blocks (oc u') = false) before ->
    batch_store oc g (before ++ bad :: after) s
    = g bad (fold_left (fun s u => g u s) before s).
Proof.
  intros Hb. induction before as [|u before IH]; intros s Hall.
  - cbn. now rewrite Hb.
  - inversion Hall as [|? ? Hu Hall']; subst.
    cbn [app batch_store fold_left]. rewrite Hu. now apply IH.
Qed.

(** What the units of [before] leave in [self.results]. *)
Lemma fold_g_invoke (m : method) : forall before s,
  fold_left (fun s u => g_invoke m u s) before s
  = s ++ flat_map (fun u => match invoke u m 0 with
                            | Returns v => [(m, v)]
                            | _ => []
                            end) before.
Proof.
  induction before as [|u before IH]; intros s.
  - cbn. now rewrite app_nil_r.
  - cbn [fold_left flat_map]. rewrite IH. unfold g_invoke.
    destruct (invoke u m 0); cbn [app]; now rewrite <- ?app_assoc.
Qed.

(** What the units of [before] leave in [test_per_run_results]. *)
Lemma fold_g_exec (i : nat) : forall before s,
  fold_left (fun s u => g_exec i u s) before s
  = AwsRunner.mkLists
      (AwsRunner.test_per_run_results s
       ++ flat_map (fun u => match execute_test u i with
                             | Returns r => [r]
                             | _ => []
                             end) before)
      (AwsRunner.test_run_averages s).
Proof.
  induction before as [|u before IH]; intros s.
  - cbn. rewrite app_nil_r. now destruct s.
  - cbn [fold_left flat_map]. rewrite IH. unfold g_exec.
    destruct (execute_test u i); cbn; now rewrite <- ?app_assoc.
Qed.

Lemma blocks_ended {A : Type} (o : outcome A) :
  blocks (ended o) = true <-> o = Raises ExcException \/ o = Hangs.
Proof.
  destruct o as [a|[]|]; cbn; split; intros H; auto;
    try discriminate; destruct H; discriminate.
Qed.

Lemma not_blocks_ended {A : Type} (o : outcome A) :
  blocks (ended o) = false <-> o <> Raises ExcException /\ o <> Hangs.
Proof.
  destruct o as [a|[]|]; cbn; split; intros H;
    try discriminate; try (split; discriminate); auto;
    destruct H as [H1 H2]; congruence.
Qed.

(** What a failing waiting loop of [run_test] workers has gathered: the
    results of the units before the first one that blocks. *)
Lemma gathered_split (i : nat) (bad : TestInstance)
    (after : list TestInstance) :
  blocks (oc_exec i bad) = true ->
  forall before,
    Forall (fun u' => blocks (oc_exec i u') = false) before ->
    gathered i (before ++ bad :: after)
    = flat_map (fun u => match execute_test u i with
                         | Returns r => [r]
                         | _ => []
                         end) before.
Proof.
  intros Hb. apply blocks_ended in Hb.
  induction before as [|u before IH]; intros Hall.
  - cbn. now destruct Hb as [-> | ->].
  - inversion Hall as [|? ? Hu Hall']; subst.
    apply not_blocks_ended in Hu. destruct Hu as [Hu1 Hu2].
    cbn [app gathered flat_map]. rewrite (IH Hall').
    destruct (execute_test u i) as [r|[]|]; cbn; congruence.
Qed.

End PPOFacts.

(* ================================================================== *)
(** ** The order of the events of a run *)
(* ================================================================== *)

Module OrderFacts.

Import AwsRunner Shape StructureFacts TraceFacts Order.

Lemma ended_quietly_mono (m : method) (l j : nat) (seen seen' : list event) :
  incl seen seen' -> ended_quietly m l j seen -> ended_quietly m l j seen'.
Proof. intros Hi (r & Hin & Hr). exists r. split; [now apply Hi|exact Hr]. Qed.

Lemma guard_mono (n : nat) (e : event) (seen seen' : list event) :
  incl seen seen' -> guard n e seen -> guard n e seen'.
Proof.
  intros Hi. destruct e as [m l j|m l j r|l| | | |rows]; cbn.
  - destruct m.
    + auto.
    + intros [H1 H2]. split; intros k Hk.
      * eapply ended_quietly_mono; eauto.
      * apply Hi. now apply H2.
    + intros H k Hk. eapply ended_quietly_mono; eauto.
    + intros [H1 H2]. split; intros k Hk.
      * eapply ended_quietly_mono; eauto.
      * apply Hi. now apply H2.
  - apply Hi.
  - intros H k Hk. apply Hi. now apply H.
  - auto.
  - auto.
  - apply Hi.
  - apply Hi.
Qed.

Lemma safe_mono (n : nat) (tr : list event) : forall seen seen',
  incl seen seen' -> safe n seen tr -> safe n seen' tr.
Proof.
  induction tr as [|e tr IH]; intros seen seen' Hi; [auto|].
  cbn. intros [Hg Hs]. split.
  - eapply guard_mono; eauto.
  - eapply IH; [|exact Hs]. now apply incl_app_app; [|apply incl_refl].
Qed.

Lemma safe_app (n : nat) (a b : list event) : forall seen,
  safe n seen a -> safe n (seen ++ a) b -> safe n seen (a ++ b).
Proof.
  induction a as [|e a IH]; intros seen Ha Hb.
  - cbn. now rewrite app_nil_r in Hb.
  - cbn in *. destruct Ha as [Hg Ha]. split; [exact Hg|].
    apply IH; [exact Ha|]. now rewrite <- app_assoc.
Qed.

(** Events whose guards hold at the start hold them all along. *)
Lemma safe_Forall (n : nat) (tr : list event) : forall seen,
  Forall (fun e => guard n e seen) tr -> safe n seen tr.
Proof.
  induction tr as [|e tr IH]; intros seen H; [exact I|].
  inversion H as [|? ? He Htr]; subst. cbn. split; [exact He|].
  apply IH. eapply Forall_impl; [|exact Htr].
  intros e'. apply guard_mono. now apply incl_appl, incl_refl.
Qed.

(** What [safe] says about each event of the trace. *)
Lemma safe_split (n : nat) (before : list event) : forall seen tr e after,
  safe n seen tr -> tr = before ++ e :: after -> guard n e (seen ++ before).
Proof.
  induction before as [|b before IH]; intros seen tr e after Hs ->.
  - cbn in Hs. rewrite app_nil_r. tauto.
  - cbn in Hs. destruct Hs as [_ Hs].
    specialize (IH _ _ e after Hs eq_refl).
    now rewrite <- app_assoc in IH.
Qed.

(** The waiting loop ends calls that were begun. *)
Lemma safe_ends (n : nat) (m : method) (i : nat)
    (oc : TestInstance -> outcome unit) : forall us j seen,
  (forall k, (j <= k < j + List.length us)%nat -> In (EvBegin m i k) seen) ->
  safe n seen (ends m i oc j us).
Proof.
  intros us j seen H. apply safe_Forall. apply Forall_forall.
  intros e He. apply In_ends in He. destruct He as (k & u & Hk & ->).
  cbn. apply H.
  assert (k < List.length us)%nat by (apply nth_error_Some; congruence). lia.
Qed.

Lemma blocks_false_inv (r : outcome unit) :
  blocks r = false -> r = Returns tt \/ r = Raises ExcBaseOnly.
Proof. destruct r as [[]|[]|]; cbn; intros H; auto; discriminate. Qed.

Lemma nth_error_lt {A : Type} (l : list A) (j : nat) :
  (j < List.length l)%nat -> exists x, nth_error l j = Some x.
Proof.
  intros H. destruct (nth_error l j) as [x|] eqn:E; [now exists x|].
  apply nth_error_None in E. lia.
Qed.

(** After a waiting loop that got through, every call of the batch has
    ended quietly. *)
Lemma ends_quiet (m : method) (i : nat) (oc : TestInstance -> outcome unit)
    (us : list TestInstance) (j : nat) :
  passes oc us = true ->
  (j < List.length us)%nat ->
  ended_quietly m i j (ends m i oc 0 us).
Proof.
  intros Hp Hj. destruct (nth_error_lt us j Hj) as [u Hu].
  destruct (ends_complete m i oc us 0 j u Hp Hu) as [Hin Hb].
  exists (oc u). split; [exact Hin|now apply blocks_false_inv].
Qed.

(** The cleanup loop: each call is launched after the calls before it have
    returned. *)
Lemma safe_cleanups (n i : nat) : forall us j seen,
  (forall k, (k < i)%nat -> ended_quietly m_execute_test i k seen) ->
  (forall k, (k < j)%nat -> returned m_cleanup i k seen) ->
  safe n seen (cleanups i j us).
Proof.
  induction us as [|u us IH]; intros j seen He Hc; [exact I|].
  cbn [cleanups safe guard]. split; [now split|]. split.
  - apply in_or_app. right. now left.
  - destruct (cleanup u i) as [[]|e|]; [|exact I|exact I].
    apply IH.
    + intros k Hk. eapply ended_quietly_mono; [|now apply He].
      rewrite <- app_assoc. now apply incl_appl, incl_refl.
    + intros k Hk. unfold returned. rewrite <- app_assoc.
      destruct (Nat.eq_dec k j) as [->|Hne].
      * apply in_or_app. right. right. now left.
      * apply in_or_app. left. apply Hc. lia.
Qed.

(** A cleanup loop that ends by returning has seen every call return. *)
Lemma cleanups_complete (i : nat) : forall us j k,
  cleanup_result i us = Returns tt ->
  (k < List.length us)%nat ->
  In (EvEnd m_cleanup i (j + k) (Returns tt)) (cleanups i j us).
Proof.
  induction us as [|u us IH]; intros j k Hr Hk; [cbn in Hk; lia|].
  cbn [cleanups cleanup_result] in *.
  destruct (cleanup u i) as [[]|e|]; try discriminate.
  destruct k as [|k].
  - right. left. now rewrite Nat.add_0_r.
  - right. right. replace (j + S k)%nat with (S j + k)%nat by lia.
    apply IH; [exact Hr|cbn in Hk; lia].
Qed.

Lemma level_ok_inv (objs : list TestInstance) (i : nat) :
  level_ok objs i = true ->
  (i <= List.length objs)%nat
  /\ List.length (selected objs i) = i
  /\ passes (oc_pre i) (selected objs i) = true
  /\ passes (oc_exec i) (selected objs i) = true
  /\ cleanup_result i (selected objs i) = Returns tt.
Proof.
  unfold level_ok, level_result, exec_ok, pre_ok, in_range.
  destruct (Nat.leb_spec i (List.length objs)) as [Hle|Hgt];
    [|discriminate].
  destruct (passes (oc_pre i) (selected objs i)); [|discriminate].
  destruct (passes (oc_exec i) (selected objs i)); [|discriminate].
  cbn [andb]. intros H.
  repeat split; try assumption.
  - unfold selected. now apply firstn_length_le.
  - now destruct (cleanup_result i (selected objs i)) as [[]|e|].
Qed.

Ltac in_apps := rewrite ?in_app_iff in *; cbn [In] in *; tauto.
Ltac incl_apps := let x := fresh "x" in let Hx := fresh "Hx" in
                  intros x Hx; in_apps.

(** One iteration of the level loop keeps the order. *)
Lemma safe_level (objs : list TestInstance) (i : nat) (seen : list event) :
  level_pre (List.length objs) i seen ->
  safe (List.length objs) seen (level_trace objs i).
Proof.
  intros Hpre. unfold level_trace, level_ok, level_result, exec_ok, pre_ok,
    in_range.
  set (sel := selected objs i).
  apply safe_app.
  { apply safe_Forall, Forall_begins. intros k. exact Hpre. }
  destruct (Nat.leb_spec i (List.length objs)) as [Hle|Hgt]; cbn [andb].
  2:{ exact I. }
  assert (Hlen : List.length sel = i)
    by (unfold sel, selected; now apply firstn_length_le).
  rewrite Hlen.
  apply safe_app.
  { apply safe_ends. intros k Hk. apply in_or_app. right.
    apply In_begins. exists k. split; [lia|reflexivity]. }
  destruct (passes (oc_pre i) sel) eqn:Hp; cbn [andb].
  2:{ exact I. }
  apply safe_app.
  { apply safe_app.
    - apply safe_Forall, Forall_begins. intros k j Hj.
      eapply ended_quietly_mono;
        [|apply (ends_quiet m_pre_test_setup i (oc_pre i) sel j Hp); lia].
      incl_apps.
    - apply safe_ends. intros k Hk. apply in_or_app. right.
      apply In_begins. exists k. split; [lia|reflexivity]. }
  destruct (passes (oc_exec i) sel) eqn:He.
  2:{ exact I. }
  apply safe_app.
  { apply safe_cleanups.
    - intros k Hk.
      eapply ended_quietly_mono;
        [|apply (ends_quiet m_execute_test i (oc_exec i) sel k He); lia].
      incl_apps.
    - intros k Hk. lia. }
  destruct (cleanup_result i sel) as [[]|e|] eqn:Hc; [|exact I|exact I].
  cbn [safe guard]. split; [|exact I].
  intros j Hj. unfold returned. apply in_or_app. right.
  apply (cleanups_complete i sel 0 j Hc). lia.
Qed.

(** After an iteration that went through, the next one may begin. *)
Lemma level_post (objs : list TestInstance) (i : nat) (seen : list event) :
  level_pre (List.length objs) i seen ->
  level_ok objs i = true ->
  level_pre (List.length objs) (S i) (seen ++ level_trace objs i).
Proof.
  intros [Hs _] Hok. split.
  - intros j Hj. eapply ended_quietly_mono; [|now apply Hs]. incl_apps.
  - replace (S i - 1)%nat with i by lia. intros j Hj.
    destruct (level_ok_inv objs i Hok) as (Hle & Hlen & Hp & He & Hc).
    unfold returned, level_trace, exec_ok, pre_ok, in_range.
    apply Nat.leb_le in Hle. rewrite Hle, Hp, He. cbn [andb].
    pose proof (cleanups_complete i (selected objs i) 0 j Hc) as H.
    rewrite Hlen in H. specialize (H Hj). cbn [Nat.add] in H.
    rewrite !in_app_iff. tauto.
Qed.

(** The level loop keeps the order. *)
Lemma safe_levels (objs : list TestInstance) : forall k a seen,
  level_pre (List.length objs) a seen ->
  safe (List.length objs) seen (levels_trace objs (seq a k)).
Proof.
  induction k as [|k IH]; intros a seen Hpre; [exact I|].
  cbn [seq levels_trace]. apply safe_app.
  - now apply safe_level.
  - destruct (level_ok objs a) eqn:Hok; [|exact I].
    apply IH. now apply level_post.
Qed.

(** The [try] block keeps the order. *)
Lemma safe_ramp (clients : nat) (objs : list TestInstance) :
  safe (List.length objs) [] (ramp_trace clients objs).
Proof.
  unfold ramp_trace, setup_ok. apply safe_app.
  { apply safe_Forall, Forall_begins. intros k. exact I. }
  apply safe_app.
  { apply safe_ends. intros k Hk. apply In_begins. exists k.
    split; [lia|reflexivity]. }
  destruct (passes oc_setup objs) eqn:Hp; [|exact I].
  apply safe_levels. split.
  - intros j Hj.
    eapply ended_quietly_mono;
      [|apply (ends_quiet m_setup_environment 0 oc_setup objs j Hp Hj)].
    incl_apps.
  - intros j Hj. cbn in Hj. lia.
Qed.

(** The whole run keeps the order. *)
Lemma safe_main (clients : nat) (objs : list TestInstance) (bed : testbed) :
  safe (List.length objs) [] (main_trace clients objs bed).
Proof.
  unfold main_trace, tail_trace. apply safe_app; [apply safe_ramp|].
  destruct (ramp_result clients objs) as [[]|[]|];
    destruct (destroy_all_instances bed) as [[]|e1|];
    destruct (delete_bucket bed) as [[]|e2|];
    cbn [safe guard]; repeat split; in_apps.
Qed.

End OrderFacts.

(* ================================================================== *)
(** ** The units of each level *)
(* ================================================================== *)

Module PrefixFacts.

Import AwsRunner Shape StructureFacts TraceFacts Order.

Lemma units_begun_app (m : method) (l : nat) (a b : list event) :
  units_begun m l (a ++ b) = units_begun m l a ++ units_begun m l b.
Proof. apply flat_map_app. Qed.

Lemma levels_entered_app (a b : list event) :
  levels_entered (a ++ b) = levels_entered a ++ levels_entered b.
Proof. apply flat_map_app. Qed.

Lemma method_eqb_refl (m : method) : method_eqb m m = true.
Proof. now destruct m. Qed.

Lemma method_eqb_eq (a b : method) : method_eqb a b = true <-> a = b.
Proof. destruct a, b; cbn; split; intros H; congruence. Qed.

Lemma units_begun_cons (m : method) (l : nat) (e : event) (tr : list event) :
  units_begun m l (e :: tr)
  = match e with
    | EvBegin m' l' j =>
        if method_eqb m m' && (l =? l')%nat then j :: units_begun m l tr
        else units_begun m l tr
    | _ => units_begun m l tr
    end.
Proof.
  destruct e as [m' l' j| | | | | |]; try reflexivity.
  unfold units_begun. cbn [flat_map].
  now destruct (method_eqb m m' && (l =? l')%nat).
Qed.

Lemma levels_entered_cons (e : event) (tr : list event) :
  levels_entered (e :: tr)
  = match e with
    | EvBegin m_pre_test_setup l 0 => l :: levels_entered tr
    | _ => levels_entered tr
    end.
Proof.
  destruct e as [[] l' [|j]| | | | | |]; reflexivity.
Qed.

(** No event of level [l], no unit begun at level [l]. *)
Lemma units_begun_other (m : method) (l : nat) (tr : list event) :
  Forall (fun e => level_of e <> Some l) tr -> units_begun m l tr = [].
Proof.
  induction 1 as [|e tr He _ IH]; [reflexivity|].
  rewrite units_begun_cons, IH.
  destruct e as [m' l' j| | | | | |]; try reflexivity.
  destruct (Nat.eqb_spec l l') as [->|Hne]; [|now rewrite andb_false_r].
  now contradiction He.
Qed.

Lemma levels_entered_other (tr : list event) :
  Forall (fun e => match e with
                   | EvBegin m_pre_test_setup _ _ => False
                   | _ => True
                   end) tr ->
  levels_entered tr = [].
Proof.
  induction 1 as [|e tr He _ IH]; [reflexivity|].
  rewrite levels_entered_cons, IH.
  destruct e as [[] l' j| | | | | |]; try reflexivity. contradiction.
Qed.

Lemma units_begun_begins (m m' : method) (l i : nat) : forall c j,
  units_begun m l (begins m' i j c)
  = if method_eqb m m' && (l =? i)%nat then seq j c else [].
Proof.
  induction c as [|c IH]; intros j.
  - cbn. now destruct (method_eqb m m' && (l =? i)%nat).
  - unfold begins in *. cbn [seq map]. rewrite units_begun_cons, IH.
    now destruct (method_eqb m m' && (l =? i)%nat).
Qed.

Lemma units_begun_ends (m m' : method) (l i : nat)
    (oc : TestInstance -> outcome unit) : forall us j,
  units_begun m l (ends m' i oc j us) = [].
Proof.
  induction us as [|u us IH]; intros j; [reflexivity|].
  cbn [ends]. rewrite units_begun_cons.
  destruct (blocks (oc u)); [reflexivity|apply IH].
Qed.

Lemma units_begun_cleanups (m : method) (l i : nat) : forall us j,
  units_begun m l (cleanups i j us)
  = if method_eqb m m_cleanup && (l =? i)%nat
    then seq j (cleanup_calls i us) else [].
Proof.
  induction us as [|u us IH]; intros j.
  - cbn. now destruct (method_eqb m m_cleanup && (l =? i)%nat).
  - cbn [cleanups cleanup_calls]. rewrite !units_begun_cons.
    destruct (cleanup u i) as [[]|e|]; rewrite ?IH;
      now destruct (method_eqb m m_cleanup && (l =? i)%nat).
Qed.

Lemma cleanup_calls_le (i : nat) (us : list TestInstance) :
  (cleanup_calls i us <= List.length us)%nat.
Proof.
  induction us as [|u us IH]; cbn; [lia|].
  destruct (cleanup u i); lia.
Qed.

Lemma levels_entered_begins (m : method) (i : nat) : forall c j,
  levels_entered (begins m i j c)
  = match m, j, c with
    | m_pre_test_setup, 0%nat, S _ => [i]
    | _, _, _ => []
    end.
Proof.
  assert (Hpos : forall c j, levels_entered (begins m i (S j) c) = []).
  { induction c as [|c IH]; intros j; [reflexivity|].
    unfold begins in *. cbn [seq map]. rewrite levels_entered_cons, IH.
    now destruct m. }
  intros [|c] j.
  - cbn. now destruct m, j.
  - unfold begins in *. cbn [seq map]. rewrite levels_entered_cons, Hpos.
    now destruct m, j.
Qed.

Lemma levels_entered_ends (m : method) (i : nat)
    (oc : TestInstance -> outcome unit) (j : nat) (us : list TestInstance) :
  levels_entered (ends m i oc j us) = [].
Proof.
  apply levels_entered_other. apply Forall_ends. now intros.
Qed.

Lemma levels_entered_cleanups (i j : nat) (us : list TestInstance) :
  levels_entered (cleanups i j us) = [].
Proof.
  apply levels_entered_other. apply Forall_cleanups; now intros.
Qed.

Ltac begun_segments :=
  rewrite ?units_begun_app, ?levels_entered_app,
          ?units_begun_begins, ?units_begun_ends, ?units_begun_cleanups,
          ?levels_entered_begins, ?levels_entered_ends,
          ?levels_entered_cleanups;
  cbn [method_eqb andb]; rewrite ?Nat.eqb_refl;
  cbn [units_begun levels_entered flat_map app]; rewrite ?app_nil_r.

(** The launches of one iteration of the level loop, on units that
    exist. *)
Lemma level_begun (objs : list TestInstance) (i : nat) :
  (1 <= i <= List.length objs)%nat ->
  units_begun m_pre_test_setup i (level_trace objs i) = seq 0 i
  /\ units_begun m_execute_test i (level_trace objs i)
     = (if pre_ok objs i then seq 0 i else [])
  /\ units_begun m_cleanup i (level_trace objs i)
     = (if exec_ok objs i
        then seq 0 (cleanup_calls i (selected objs i)) else [])
  /\ levels_entered (level_trace objs i) = [i].
Proof.
  intros [H1 Hle].
  assert (Hlen : List.length (selected objs i) = i)
    by (unfold selected; now apply firstn_length_le).
  assert (Hin : in_range objs i = true) by now apply Nat.leb_le.
  unfold level_trace. rewrite Hlen, Hin.
  destruct i as [|i']; [lia|].
  repeat split;
    destruct (pre_ok objs (S i')), (exec_ok objs (S i')),
      (level_ok objs (S i'));
    begun_segments; reflexivity.
Qed.

Lemma level_begun_other (objs : list TestInstance) (m : method) (i l : nat) :
  l <> i -> units_begun m l (level_trace objs i) = [].
Proof.
  intros Hne. apply units_begun_other.
  eapply Forall_impl; [|apply level_trace_level].
  intros e [_ He]. rewrite He. congruence.
Qed.

(** The level loop over the levels [a], ..., [a+n-1], all of which have
    their units: the levels entered are the first [k] of them, and each of
    them launches what its own iteration launches. *)
Lemma levels_begun (objs : list TestInstance) : forall n a,
  (1 <= a)%nat -> (a + n <= S (List.length objs))%nat ->
  exists k,
    (k <= n)%nat
    /\ levels_entered (levels_trace objs (seq a n)) = seq a k
    /\ (levels_result objs (seq a n) = Returns tt -> k = n)
    /\ (forall m l, (a <= l < a + k)%nat ->
          units_begun m l (levels_trace objs (seq a n))
          = units_begun m l (level_trace objs l))
    /\ (forall m l, (l < a \/ a + k <= l)%nat ->
          units_begun m l (levels_trace objs (seq a n)) = []).
Proof.
  induction n as [|n IH]; intros a Ha Hn.
  - exists 0%nat. cbn. repeat split; auto; intros; lia.
  - cbn [seq levels_trace levels_result].
    destruct (level_begun objs a ltac:(lia)) as (_ & _ & _ & Hent).
    destruct (level_ok objs a) eqn:Hok.
    + destruct (IH (S a) ltac:(lia) ltac:(lia))
        as (k & Hk & Hents & Hres & Hin & Hout).
      exists (S k). split; [lia|]. split.
      { rewrite levels_entered_app, Hent, Hents. reflexivity. }
      split.
      { intros H. f_equal. now apply Hres. }
      split.
      * intros m l Hl. rewrite units_begun_app.
        destruct (Nat.eq_dec l a) as [->|Hne].
        -- rewrite (Hout m a) by lia. now rewrite app_nil_r.
        -- rewrite (level_begun_other objs m a l Hne). cbn [app].
           apply Hin. lia.
      * intros m l Hl. rewrite units_begun_app.
        rewrite (level_begun_other objs m a l) by lia.
        cbn [app]. apply Hout. lia.
    + exists 1%nat. split; [lia|]. rewrite app_nil_r. split; [exact Hent|].
      split.
      { unfold level_ok in Hok. intros H. rewrite H in Hok. discriminate. }
      split.
      * intros m l Hl. now replace l with a by lia.
      * intros m l Hl. apply level_begun_other. lia.
Qed.

(** The first [l] indices select the first [l] units. *)
Lemma index_prefix {A : Type} (l : nat) (objs : list A) :
  (l <= List.length objs)%nat ->
  map (nth_error objs) (seq 0 l) = map Some (firstn l objs).
Proof.
  revert objs. induction l as [|l IH]; intros objs Hl; [reflexivity|].
  destruct objs as [|x objs]; [cbn in Hl; lia|].
  cbn [firstn map seq]. cbn [nth_error]. f_equal.
  rewrite <- seq_shift, map_map. cbn [nth_error].
  apply IH. cbn in Hl. lia.
Qed.

(** The handler, the teardown and the report launch nothing. *)
Lemma main_trace_begun (clients : nat) (objs : list TestInstance)
    (bed : testbed) (m : method) (l : nat) :
  units_begun m l (main_trace clients objs bed)
  = units_begun m l (ramp_trace clients objs)
  /\ levels_entered (main_trace clients objs bed)
     = levels_entered (ramp_trace clients objs).
Proof.
  unfold main_trace, tail_trace.
  rewrite units_begun_app, levels_entered_app.
  destruct (ramp_result clients objs) as [[]|[]|];
    destruct (destroy_all_instances bed) as [[]|e1|];
    destruct (delete_bucket bed) as [[]|e2|];
    cbn [units_begun levels_entered flat_map app]; now rewrite !app_nil_r.
Qed.

End PrefixFacts.

(* ================================================================== *)
(** ** More on RunAverages *)
(* ================================================================== *)

Module AverageFacts.

Import RunAveragesFacts.

Lemma pass_fail_length (status : RunResult -> bool) (l : list RunResult) :
  pass_count status l + fail_count status l = Z.of_nat (List.length l).
Proof.
  induction l as [|r l IH].
  - reflexivity.
  - rewrite pass_count_cons, fail_count_cons. cbn [List.length].
    destruct (status r); lia.
Qed.

Lemma fail_count_nonneg (status : RunResult -> bool) (l : list RunResult) :
  0 <= fail_count status l.
Proof. unfold fail_count. lia. Qed.

(** The counters do not depend on the order of the results. *)
Lemma counters_perm (status : RunResult -> bool) (time : RunResult -> Z)
    (l l' : list RunResult) :
  Permutation l l' ->
  pass_count status l = pass_count status l'
  /\ fail_count status l = fail_count status l'
  /\ sum_of time (passing status l) = sum_of time (passing status l').
Proof.
  induction 1 as [|r l l' _ IH|r1 r2 l|l1 l2 l3 _ IH1 _ IH2].
  - repeat split.
  - rewrite !pass_count_cons, !fail_count_cons, !sum_passing_cons.
    destruct IH as (-> & -> & ->). repeat split.
  - rewrite !pass_count_cons, !fail_count_cons, !sum_passing_cons.
    repeat split; lia.
  - destruct IH1 as (-> & -> & ->). exact IH2.
Qed.

(** The constructor, by the counters. *)
Lemma init_by_tally (l : list RunResult) (id : nat) :
  RunAverages_init l id
  = RunAveragesImpl.finish_delete
      (RunAveragesImpl.finish_read
         (RunAveragesImpl.finish_create (tally l (RunAveragesImpl.zeroed id)))).
Proof. unfold RunAverages_init. now rewrite loop_tally. Qed.

Lemma tally_perm (l l' : list RunResult) (a : RunAverages) :
  Permutation l l' -> tally l a = tally l' a.
Proof.
  intros H. unfold tally.
  destruct (counters_perm get_file_create_status get_file_create_time_ms
              l l' H) as (-> & -> & ->).
  destruct (counters_perm get_file_read_status get_file_read_time_ms
              l l' H) as (-> & -> & ->).
  destruct (counters_perm get_file_delete_status get_file_delete_time_ms
              l l' H) as (-> & -> & ->).
  reflexivity.
Qed.

(** The sum of durations that all lie in a range. *)
Lemma sum_bounds (status : RunResult -> bool) (time : RunResult -> Z)
    (lo hi : Z) (l : list RunResult) :
  (forall r, In r l -> status r = true -> lo <= time r <= hi) ->
  lo * pass_count status l <= sum_of time (passing status l)
  <= hi * pass_count status l.
Proof.
  induction l as [|r l IH]; intros H.
  - cbn. lia.
  - rewrite pass_count_cons, sum_passing_cons.
    assert (IH' := IH (fun r' Hr' => H r' (or_intror Hr'))).
    pose proof (H r (or_introl eq_refl)) as Hr.
    destruct (status r); [specialize (Hr eq_refl)|]; lia.
Qed.

Lemma spec_average_bounds (status : RunResult -> bool) (time : RunResult -> Z)
    (lo hi : Z) (l : list RunResult) :
  (forall r, In r l -> status r = true -> lo <= time r <= hi) ->
  0 < pass_count status l ->
  lo <= spec_average status time l <= hi.
Proof.
  intros H Hp. unfold spec_average.
  destruct (Z.eqb_spec (pass_count status l) 0) as [E|_]; [lia|].
  pose proof (sum_bounds status time lo hi l H) as [Hlo Hhi].
  split.
  - apply Z.div_le_lower_bound; lia.
  - apply Z.div_le_upper_bound; lia.
Qed.

End AverageFacts.

(* ================================================================== *)
(** ** What the pattern matches *)
(* ================================================================== *)

Module TextFacts.

Import Parser ParserFacts Text.
Local Open Scope string_scope.

Lemma span_spec (p : ascii -> bool) : forall s a b,
  span p s = (a, b) -> s = a ++ b /\ all p a = true /\ stops p b.
Proof.
  induction s as [|c s IH]; intros a b H; cbn in H.
  - injection H as <- <-. repeat split.
  - destruct (p c) eqn:Hc.
    + destruct (span p s) as [a' b'] eqn:E. injection H as <- <-.
      destruct (IH a' b' eq_refl) as (-> & Ha & Hb).
      cbn. rewrite Hc, Ha. repeat split. exact Hb.
    + injection H as <- <-. cbn. repeat split. exact Hc.
Qed.

Lemma span_exact (p : ascii -> bool) (b : string) : forall a,
  all p a = true -> stops p b -> span p (a ++ b) = (a, b).
Proof.
  induction a as [|c a IH]; intros Ha Hb.
  - cbn. destruct b as [|c b]; [reflexivity|]. cbn in *. now rewrite Hb.
  - cbn in Ha. apply andb_true_iff in Ha. destruct Ha as [Hc Ha].
    cbn. rewrite Hc, (IH Ha Hb). reflexivity.
Qed.

Lemma plus_spec (p : ascii -> bool) (s a b : string) :
  plus p s = Some (a, b) ->
  s = a ++ b /\ (a <> "" /\ all p a = true) /\ stops p b.
Proof.
  unfold plus. destruct (span p s) as [a' b'] eqn:E.
  apply span_spec in E. destruct E as (-> & Ha & Hb).
  destruct a' as [|c a']; [discriminate|].
  intros H. injection H as <- <-. repeat split; auto. discriminate.
Qed.

Lemma plus_exact (p : ascii -> bool) (a b : string) :
  a <> "" /\ all p a = true -> stops p b -> plus p (a ++ b) = Some (a, b).
Proof.
  intros [Hne Ha] Hb. unfold plus. rewrite (span_exact p b a Ha Hb).
  destruct a; [contradiction|reflexivity].
Qed.

Lemma lit_spec (c : ascii) (s t : string) :
  lit c s = Some t -> s = String c t.
Proof.
  destruct s as [|c' s]; cbn; [discriminate|].
  destruct (Ascii.eqb_spec c c') as [->|]; [|discriminate].
  intros H. now injection H as ->.
Qed.

Lemma lit_hit (c : ascii) (t : string) : lit c (String c t) = Some t.
Proof. cbn. now rewrite Ascii.eqb_refl. Qed.

Lemma digit_not_space (c : ascii) : is_digit c = true -> is_space c = false.
Proof.
  unfold is_digit, is_space. intros H.
  apply andb_true_iff in H. destruct H as [H1 H2].
  apply Nat.leb_le in H1. apply Nat.leb_le in H2.
  apply orb_false_iff. split.
  - apply Nat.eqb_neq. lia.
  - apply andb_false_iff. right. apply Nat.leb_gt. lia.
Qed.

(** A non-empty string of digits does not begin with white space. *)
Lemma digits_stop_space (d rest : string) :
  d <> "" /\ all is_digit d = true -> stops is_space (d ++ rest).
Proof.
  intros [Hne Hd]. destruct d as [|c d]; [contradiction|].
  cbn in *. apply andb_true_iff in Hd. now apply digit_not_space.
Qed.

(** A match at the start of a text: the text begins with a well-formed
    timing line whose parts are the groups. *)
Lemma match_here_sound (s g1 g2 g3 post : string) :
  match_here s = Some (g1, g2, g3, post) ->
  exists ws, s = timing_text ws g1 g2 g3 post /\ well_formed ws g1 g2 g3.
Proof.
  unfold match_here.
  destruct (lit "r" s) as [s1|] eqn:E1; [|discriminate].
  destruct (lit "e" s1) as [s2|] eqn:E2; [|discriminate].
  destruct (lit "a" s2) as [s3|] eqn:E3; [|discriminate].
  destruct (lit "l" s3) as [s4|] eqn:E4; [|discriminate].
  destruct (plus is_space s4) as [[ws s5]|] eqn:E5; [|discriminate].
  destruct (plus is_digit s5) as [[h1 s6]|] eqn:E6; [|discriminate].
  destruct (lit "m" s6) as [s7|] eqn:E7; [|discriminate].
  destruct (plus is_digit s7) as [[h2 s8]|] eqn:E8; [|discriminate].
  destruct (lit "." s8) as [s9|] eqn:E9; [|discriminate].
  destruct (plus is_digit s9) as [[h3 s10]|] eqn:E10; [|discriminate].
  destruct (lit "s" s10) as [s11|] eqn:E11; [|discriminate].
  intros H. injection H as <- <- <- <-.
  apply lit_spec in E1, E2, E3, E4, E7, E9, E11.
  apply plus_spec in E5, E6, E8, E10.
  destruct E5 as (-> & W & _), E6 as (-> & G1 & _), E8 as (-> & G2 & _),
    E10 as (-> & G3 & _).
  subst. exists ws. split; [reflexivity|]. repeat split; tauto.
Qed.

(** A well-formed timing line at the start of a text is matched, with its
    parts as the groups. *)
Lemma match_here_exact (ws g1 g2 g3 post : string) :
  well_formed ws g1 g2 g3 ->
  match_here (timing_text ws g1 g2 g3 post) = Some (g1, g2, g3, post).
Proof.
  intros (W & G1 & G2 & G3). unfold timing_text, match_here. cbn [append].
  rewrite !lit_hit.
  rewrite (plus_exact is_space ws _ W (digits_stop_space g1 _ G1)).
  rewrite (plus_exact is_digit g1 _ G1) by reflexivity.
  rewrite lit_hit.
  rewrite (plus_exact is_digit g2 _ G2) by reflexivity.
  rewrite lit_hit.
  rewrite (plus_exact is_digit g3 _ G3) by reflexivity.
  now rewrite lit_hit.
Qed.

Lemma match_here_starts (s : string) (g : string * string * string * string) :
  match_here s = Some g -> exists t, s = String "r" t.
Proof.
  unfold match_here. destruct (lit "r" s) as [s1|] eqn:E; [|discriminate].
  apply lit_spec in E. intros _. now exists s1.
Qed.

(** The search finds the match that begins where no earlier text has
    one. *)
Lemma re_search_sound : forall s g1 g2 g3,
  re_search s = Some (g1, g2, g3) ->
  exists pre rest post,
    s = pre ++ rest
    /\ match_here rest = Some (g1, g2, g3, post)
    /\ re_search pre = None.
Proof.
  induction s as [|c s IH]; intros g1 g2 g3 H.
  - cbn in H. discriminate.
  - change (re_search (String c s)) with
      (match match_here (String c s) with
       | Some (h1, h2, h3, _) => Some (h1, h2, h3)
       | None => re_search s
       end) in H.
    destruct (match_here (String c s)) as [[[[h1 h2] h3] post]|] eqn:E.
    + injection H as <- <- <-.
      exists "", (String c s), post. repeat split. exact E.
    + destruct (IH _ _ _ H) as (pre & rest & post & -> & Hm & Hpre).
      exists (String c pre), rest, post. repeat split; [exact Hm|].
      destruct (match_here_starts _ _ Hm) as [t ->].
      change (String c (pre ++ String "r" t))
        with (String c pre ++ String "r" t) in E.
      rewrite match_here_app_r in E.
      change (re_search (String c pre)) with
        (match match_here (String c pre) with
         | Some (h1, h2, h3, _) => Some (h1, h2, h3)
         | None => re_search pre
         end).
      destruct (match_here (String c pre)) as [[[[h1 h2] h3] p]|];
        [discriminate|exact Hpre].
Qed.

Lemma re_search_exact (pre ws g1 g2 g3 post : string) :
  well_formed ws g1 g2 g3 ->
  re_search pre = None ->
  re_search (pre ++ timing_text ws g1 g2 g3 post) = Some (g1, g2, g3).
Proof.
  intros Hwf Hpre.
  change (timing_text ws g1 g2 g3 post)
    with (String "r" ("eal" ++ ws ++ g1 ++ "m" ++ g2 ++ "." ++ g3 ++ "s" ++ post)).
  rewrite re_search_skip by exact Hpre.
  change (String "r" ("eal" ++ ws ++ g1 ++ "m" ++ g2 ++ "." ++ g3 ++ "s" ++ post))
    with (timing_text ws g1 g2 g3 post).
  destruct (timing_text ws g1 g2 g3 post) as [|c t] eqn:E;
    [discriminate|].
  change (re_search (String c t)) with
    (match match_here (String c t) with
     | Some (h1, h2, h3, _) => Some (h1, h2, h3)
     | None => re_search t
     end).
  rewrite <- E, (match_here_exact ws g1 g2 g3 post Hwf). reflexivity.
Qed.

(** Digits read as a number. *)
Lemma digit_value_range (c : ascii) :
  is_digit c = true -> 0 <= digit_value c <= 9.
Proof.
  unfold is_digit, digit_value. intros H.
  apply andb_true_iff in H. destruct H as [H1 H2].
  apply Nat.leb_le in H1. apply Nat.leb_le in H2. lia.
Qed.

Lemma int_from_nonneg : forall s acc,
  all is_digit s = true -> 0 <= acc -> 0 <= int_from acc s.
Proof.
  induction s as [|c s IH]; intros acc Hs Hacc; [exact Hacc|].
  cbn in Hs. apply andb_true_iff in Hs. destruct Hs as [Hc Hs].
  cbn. apply IH; [exact Hs|]. pose proof (digit_value_range c Hc). lia.
Qed.

Lemma int_nonneg (s : string) : all is_digit s = true -> 0 <= int s.
Proof. intros H. now apply int_from_nonneg. Qed.

(** What [parse_output] makes of one of its three texts. *)
Lemma parse_with_spec (o : operation) (instance_id : nat)
    (text others : string) :
  let r := parse_with o instance_id text others in
  _id r = instance_id
  /\ match re_search text with
     | Some (minutes, seconds, millisec) =>
         op_status o r = true
         /\ op_time o r
            = int minutes * 60000 + int seconds * 1000 + int millisec
     | None => op_status o r = false /\ op_time o r = 0
     end.
Proof.
  unfold parse_with, parse_output.
  destruct o; cbn [op_status op_time];
    destruct (re_search text) as [[[g1 g2] g3]|];
    destruct (re_search others) as [[[h1 h2] h3]|];
    cbn; unfold _get_time_ms; repeat split; lia.
Qed.

(** The status of each operation tells whether its own text has a match. *)
Lemma parse_output_status (instance_id : nat)
    (create_output read_output delete_output : string) :
  let r := parse_output instance_id create_output read_output delete_output in
  get_file_create_status r = found create_output
  /\ get_file_read_status r = found read_output
  /\ get_file_delete_status r = found delete_output.
Proof.
  unfold parse_output, found.
  destruct (re_search create_output) as [[[a1 a2] a3]|];
    destruct (re_search read_output) as [[[b1 b2] b3]|];
    destruct (re_search delete_output) as [[[c1 c2] c3]|];
    cbn; repeat split.
Qed.

End TextFacts.

(* ================================================================== *)
(** ** Runs that go through, and runs that are cut short *)
(* ================================================================== *)

Module RunFacts.

Import AwsRunner Shape StructureFacts TraceFacts Order.

(** A waiting loop of [run_test] workers that gets through has gathered
    what the calls returned. *)
Lemma gathered_quiet (i : nat) : forall us,
  passes (oc_exec i) us = true ->
  gathered i us = flat_map (fun u => match execute_test u i with
                                     | Returns r => [r]
                                     | _ => []
                                     end) us.
Proof.
  induction us as [|u us IH]; intros H; [reflexivity|].
  cbn [passes forallb] in H. apply andb_true_iff in H. destruct H as [Hu H].
  cbn [gathered flat_map]. rewrite (IH H). unfold oc_exec in Hu.
  destruct (execute_test u i) as [r|[]|]; cbn in *; try reflexivity;
    discriminate.
Qed.

Lemma level_ok_store (objs : list TestInstance) (i : nat) (s : lists) :
  level_ok objs i = true ->
  level_store objs i s
  = mkLists (test_per_run_results s ++ level_results objs i)
      (test_run_averages s
       ++ [RunAverages_init (test_per_run_results s ++ level_results objs i) i]).
Proof.
  intros Hok.
  destruct (OrderFacts.level_ok_inv objs i Hok) as (Hle & _ & Hp & He & _).
  unfold level_store, pre_ok, in_range. apply Nat.leb_le in Hle.
  rewrite Hok, Hle, Hp. cbn [andb].
  now rewrite (gathered_quiet i _ He).
Qed.

Lemma levels_result_cons (objs : list TestInstance) (a : nat) (ls : list nat) :
  levels_result objs (a :: ls) = Returns tt ->
  level_ok objs a = true /\ levels_result objs ls = Returns tt.
Proof.
  cbn [levels_result]. unfold level_ok.
  destruct (level_result objs a) as [[]|e|]; try discriminate. now split.
Qed.

(** The lists after a level loop that went through all its levels. *)
Lemma levels_store_ok (objs : list TestInstance) : forall n a s,
  levels_result objs (seq a n) = Returns tt ->
  levels_store objs (seq a n) s
  = mkLists
      (test_per_run_results s ++ flat_map (level_results objs) (seq a n))
      (test_run_averages s
       ++ map (fun l =>
                 RunAverages_init
                   (test_per_run_results s
                    ++ flat_map (level_results objs) (seq a (S l - a))) l)
              (seq a n)).
Proof.
  induction n as [|n IH]; intros a s H.
  - cbn. rewrite !app_nil_r. now destruct s.
  - cbn [seq] in *. apply levels_result_cons in H. destruct H as [Hok H].
    cbn [levels_store]. rewrite Hok, (level_ok_store objs a s Hok).
    rewrite (IH (S a) _ H). cbn [test_per_run_results test_run_averages].
    cbn [flat_map map]. rewrite <- !app_assoc. f_equal. f_equal.
    replace (S a - a)%nat with 1%nat by lia. cbn [seq flat_map].
    rewrite app_nil_r. cbn [app]. f_equal.
    apply map_ext_in. intros l Hl. apply in_seq in Hl.
    replace (S l - a)%nat with (S (S l - S a)) by lia.
    cbn [seq flat_map]. now rewrite <- app_assoc.
Qed.

(** The cleanup loop stops at the first call that does not return, so a
    call in it that does not return is how the loop ends. *)
Lemma cleanups_not_returning (i : nat) (m : method) (l k : nat)
    (r : outcome unit) :
  r <> Returns tt ->
  forall us j,
    In (EvEnd m l k r) (cleanups i j us) -> cleanup_result i us = r.
Proof.
  intros Hr. induction us as [|u us IH]; intros j H; [contradiction|].
  cbn [cleanups cleanup_result] in *.
  destruct H as [H|[H|H]]; [discriminate| |].
  - injection H as _ _ _ H. rewrite H.
    destruct r as [[]|e|]; [contradiction|reflexivity..].
  - destruct (cleanup u i) as [[]|e'|]; [eapply IH; eauto|contradiction..].
Qed.

(** A cleanup call that does not return, seen in a level's iteration, is
    how the iteration ends. *)
Lemma level_cleanup_stops (objs : list TestInstance) (i l j : nat)
    (r : outcome unit) :
  r <> Returns tt ->
  In (EvEnd m_cleanup l j r) (level_trace objs i) ->
  level_result objs i = r.
Proof.
  intros Hr Hin. unfold level_trace in Hin. rewrite !in_app_iff in Hin.
  destruct Hin as [H|[H|[H|[H|H]]]].
  - apply In_begins in H. now destruct H as (k & _ & H).
  - destruct (in_range objs i); [|contradiction].
    apply In_ends in H. destruct H as (k & u & _ & H). discriminate.
  - destruct (pre_ok objs i); [|contradiction].
    apply in_app_iff in H. destruct H as [H|H].
    + apply In_begins in H. now destruct H as (k & _ & H).
    + apply In_ends in H. destruct H as (k & u & _ & H). discriminate.
  - unfold level_result. destruct (exec_ok objs i); [|contradiction].
    eapply cleanups_not_returning; eauto.
  - destruct (level_ok objs i); [|contradiction]. now destruct H as [H|[]].
Qed.

Lemma levels_cleanup_stops (objs : list TestInstance) (l j : nat)
    (r : outcome unit) (Hr : r <> Returns tt) : forall ls,
  In (EvEnd m_cleanup l j r) (levels_trace objs ls) ->
  levels_result objs ls = r.
Proof.
  induction ls as [|a ls IH]; intros Hin; [contradiction|].
  cbn [levels_trace levels_result] in *. apply in_app_iff in Hin.
  destruct Hin as [Hin|Hin].
  - pose proof (level_cleanup_stops objs a l j r Hr Hin) as H.
    unfold level_ok. rewrite H. destruct r as [[]|e|]; [contradiction|easy..].
  - destruct (level_ok objs a); [now apply IH|contradiction].
Qed.


(** The report of a run, read off its description. *)
Lemma reported_main (clients : nat) (objs : list TestInstance)
    (bed : testbed) :
  reported (main_trace clients objs bed)
  = match main_result clients objs bed with
    | Returns _ =>
        Some (map row_of
                (test_run_averages
                   (ramp_store clients objs (mkLists [] []))))
    | _ => None
    end.
Proof.
  unfold main_trace, main_result, tail_trace, tail_result.
  rewrite (reported_skip _ _ (ramp_trace_events clients objs)).
  destruct (ramp_result clients objs) as [[]|[]|];
    destruct (destroy_all_instances bed) as [[]|e1|];
    destruct (delete_bucket bed) as [[]|e2|]; reflexivity.
Qed.

(** Every list is a rearrangement of itself, level by level. *)
Lemma Forall2_map_Permutation {A B : Type} (f : A -> list B) :
  forall l : list A,
    Forall2 (fun added x => Permutation added (f x)) (map f l) l.
Proof.
  induction l as [|x l IH]; cbn [map]; constructor;
    [apply Permutation_refl|exact IH].
Qed.

End RunFacts.

(* ================================================================== *)
(** ** classicTest: the phases of the parallel runner *)
(* ================================================================== *)

Module ClassicFacts.

Import PerformParallelOperations Shape StructureFacts ClassicTest.

Lemma begun_app (tr tr' : list event) :
  begun_methods (tr ++ tr') = begun_methods tr ++ begun_methods tr'.
Proof. apply flat_map_app. Qed.

Lemma begun_begins (m : method) (i : nat) : forall n j,
  begun_methods (begins m i j n) = repeat m n.
Proof.
  unfold begins. induction n as [|n IH]; intros j; [reflexivity|].
  cbn [seq map begun_methods flat_map app repeat]. f_equal. apply IH.
Qed.

Lemma begun_ends (m : method) (i : nat) (oc : TestInstance -> outcome unit) :
  forall us j, begun_methods (ends m i oc j us) = [].
Proof.
  induction us as [|u us IH]; intros j; [reflexivity|].
  cbn [ends begun_methods flat_map app].
  destruct (blocks (oc u)); [reflexivity|apply IH].
Qed.

Lemma log_begins (m : method) (i : nat) : forall n j,
  ~ In EvLogException (begins m i j n).
Proof.
  unfold begins. intros n j H. apply in_map_iff in H.
  destruct H as (x & Hx & _). discriminate.
Qed.

Lemma log_ends (m : method) (i : nat) (oc : TestInstance -> outcome unit) :
  forall us j, ~ In EvLogException (ends m i oc j us).
Proof.
  induction us as [|u us IH]; intros j H; [contradiction|].
  cbn [ends] in H. destruct H as [H|H]; [discriminate|].
  destruct (blocks (oc u)); [contradiction|]. now apply IH in H.
Qed.

(** The loop over the phases, described. *)
Lemma phases_shape (self : t) : forall ms w,
  for_ ms (fun m =>
             try_except (_perform_ops self m)
                        (bind (emit EvLogException)
                              (fun _ => raise ExcException))) w
  = (if phases_ok (tests self) ms then Returns tt else Raises ExcException,
     mkWorld (phases_store (tests self) ms (store w))
             (trace w ++ phases_trace (tests self) ms)).
Proof.
  induction ms as [|m ms IH]; intros w.
  - cbn. unfold ret. now rewrite app_nil_r, world_eta.
  - cbn [for_ phases_ok forallb phases_store phases_trace].
    unfold bind at 1. unfold try_except. rewrite PPOFacts._perform_ops_shape.
    destruct (passes (oc_invoke m) (tests self)) eqn:E.
    + rewrite IH. cbn [store trace andb]. fold (phases_ok (tests self) ms).
      now rewrite <- !app_assoc.
    + unfold bind, emit, raise. cbn [store trace andb].
      now rewrite <- !app_assoc.
Qed.

(** [perform_all_operations], described. *)
Lemma perform_all_operations_shape (self : t) (w : world results_t) :
  PerformParallelOperations.perform_all_operations self w
  = (if phases_ok (tests self) order
     then Returns (phases_store (tests self) order (store w))
     else Raises ExcException,
     mkWorld (phases_store (tests self) order (store w))
             (trace w ++ phases_trace (tests self) order)).
Proof.
  unfold PerformParallelOperations.perform_all_operations. unfold bind at 1.
  fold order. rewrite phases_shape.
  destruct (phases_ok (tests self) order); reflexivity.
Qed.

Lemma phases_ok_leading (tests : list TestInstance) : forall ms,
  phases_ok tests ms = (leading_phases tests ms =? List.length ms)%nat.
Proof.
  induction ms as [|m ms IH]; [reflexivity|].
  cbn [phases_ok forallb leading_phases List.length].
  destruct (passes (oc_invoke m) tests); cbn [andb]; [exact IH|reflexivity].
Qed.

Lemma leading_phases_le (tests : list TestInstance) : forall ms,
  (leading_phases tests ms <= List.length ms)%nat.
Proof.
  induction ms as [|m ms IH]; [apply le_n|].
  cbn [leading_phases List.length].
  destruct (passes (oc_invoke m) tests); lia.
Qed.

Lemma begun_phases (tests : list TestInstance) : forall ms,
  begun_methods (phases_trace tests ms)
  = flat_map (fun m => repeat m (List.length tests))
             (firstn (S (leading_phases tests ms)) ms).
Proof.
  induction ms as [|m ms IH]; [reflexivity|].
  cbn [phases_trace leading_phases].
  rewrite !begun_app, begun_begins, begun_ends. cbn [app].
  destruct (passes (oc_invoke m) tests).
  - rewrite IH. reflexivity.
  - cbn. now rewrite app_nil_r.
Qed.

Lemma log_phases (tests : list TestInstance) : forall ms,
  In EvLogException (phases_trace tests ms) <-> phases_ok tests ms = false.
Proof.
  induction ms as [|m ms IH].
  - cbn. split; [contradiction|discriminate].
  - cbn [phases_trace phases_ok forallb]. fold (phases_ok tests ms).
    rewrite !in_app_iff.
    destruct (passes (oc_invoke m) tests); cbn [andb].
    + rewrite IH. split; [|tauto].
      intros [H|[H|H]]; [now apply log_begins in H|now apply log_ends in H|
                         exact H].
    + split; [reflexivity|]. intros _. right. right. now left.
Qed.

(** ** What the phases leave in [self.results] *)

Lemma get_results_app (s s' : results_t) (m : method) :
  _get_results (s ++ s') m = _get_results s m ++ _get_results s' m.
Proof. apply flat_map_app. Qed.

Lemma method_eqb_neq (m m' : method) : m <> m' -> method_eqb m m' = false.
Proof. destruct m, m'; intros H; try reflexivity; now elim H. Qed.

Lemma get_results_same (m : method) : forall vs,
  _get_results (map (pair m) vs) m = vs.
Proof.
  induction vs as [|v vs IH]; [reflexivity|].
  cbn [map _get_results flat_map fst snd]. rewrite PrefixFacts.method_eqb_refl.
  cbn [app]. f_equal. exact IH.
Qed.

Lemma get_results_other (m m' : method) : m <> m' -> forall vs,
  _get_results (map (pair m') vs) m = [].
Proof.
  intros Hne. induction vs as [|v vs IH]; [reflexivity|].
  cbn [map _get_results flat_map fst snd]. rewrite (method_eqb_neq _ _ Hne).
  exact IH.
Qed.

(** A batch appends values of its own operation only. *)
Lemma batch_appends (m : method) : forall us s,
  exists vs,
    batch_store (oc_invoke m) (g_invoke m) us s = s ++ map (pair m) vs.
Proof.
  induction us as [|u us IH]; intros s.
  - exists []. cbn. now rewrite app_nil_r.
  - cbn [batch_store].
    assert (Hg : exists vs0, g_invoke m u s = s ++ map (pair m) vs0).
    { unfold g_invoke. destruct (invoke u m 0) as [v| |].
      - now exists [v].
      - exists []. cbn. now rewrite app_nil_r.
      - exists []. cbn. now rewrite app_nil_r. }
    destruct Hg as (vs0 & Hg).
    destruct (blocks (oc_invoke m u)).
    + now exists vs0.
    + destruct (IH (g_invoke m u s)) as (vs & Hvs).
      exists (vs0 ++ vs). rewrite Hvs, Hg, map_app. now rewrite app_assoc.
Qed.

(** A batch that gets through appends what its calls returned. *)
Lemma batch_passes (m : method) : forall us s,
  passes (oc_invoke m) us = true ->
  batch_store (oc_invoke m) (g_invoke m) us s
  = s ++ map (pair m) (returned_values m us).
Proof.
  induction us as [|u us IH]; intros s Hp.
  - cbn. now rewrite app_nil_r.
  - cbn [passes forallb] in Hp. apply andb_prop in Hp.
    destruct Hp as [Hu Hp]. apply negb_true_iff in Hu.
    cbn [batch_store]. rewrite Hu. rewrite (IH _ Hp).
    unfold g_invoke, returned_values. cbn [flat_map].
    destruct (invoke u m 0) as [v| |]; cbn [app map];
      now rewrite <- ?app_assoc.
Qed.

Lemma get_batch_other (m m' : method) (us : list TestInstance)
    (s : results_t) :
  m <> m' ->
  _get_results (batch_store (oc_invoke m') (g_invoke m') us s) m
  = _get_results s m.
Proof.
  intros Hne. destruct (batch_appends m' us s) as (vs & ->).
  rewrite get_results_app, (get_results_other _ _ Hne). apply app_nil_r.
Qed.

(** A phase that is not among [ms] leaves nothing. *)
Lemma get_phases_other (tests : list TestInstance) (m : method) :
  forall ms s,
    ~ In m ms ->
    _get_results (phases_store tests ms s) m = _get_results s m.
Proof.
  induction ms as [|m' ms IH]; intros s Hnot; [reflexivity|].
  cbn [phases_store].
  assert (Hne : m <> m') by (intros ->; apply Hnot; now left).
  destruct (passes (oc_invoke m') tests).
  - rewrite IH by (intros H; apply Hnot; now right).
    now apply get_batch_other.
  - now apply get_batch_other.
Qed.

(** A phase that got through leaves what its calls returned. *)
Lemma get_phases_passed (tests : list TestInstance) (m : method) :
  forall ms k s,
    NoDup ms -> nth_error ms k = Some m ->
    (k < leading_phases tests ms)%nat ->
    _get_results (phases_store tests ms s) m
    = _get_results s m ++ returned_values m tests.
Proof.
  induction ms as [|m' ms IH]; intros k s Hnd Hk Hlt;
    [destruct k; discriminate|].
  inversion Hnd as [|? ? Hnot Hnd']; subst.
  cbn [phases_store leading_phases] in *.
  destruct (passes (oc_invoke m') tests) eqn:Hp; [|lia].
  destruct k as [|k].
  - cbn in Hk. injection Hk as ->.
    rewrite (get_phases_other tests m ms _ Hnot).
    rewrite (batch_passes m tests s Hp), get_results_app.
    now rewrite get_results_same.
  - cbn in Hk. rewrite (IH k _ Hnd' Hk) by lia.
    rewrite get_batch_other; [reflexivity|].
    intros ->. apply Hnot. eapply nth_error_In; eassumption.
Qed.

(** A phase after the one that failed leaves nothing. *)
Lemma get_phases_later (tests : list TestInstance) (m : method) :
  forall ms k s,
    NoDup ms -> nth_error ms k = Some m ->
    (leading_phases tests ms < k)%nat ->
    _get_results (phases_store tests ms s) m = _get_results s m.
Proof.
  induction ms as [|m' ms IH]; intros k s Hnd Hk Hlt;
    [destruct k; discriminate|].
  inversion Hnd as [|? ? Hnot Hnd']; subst.
  destruct k as [|k]; [lia|]. cbn in Hk.
  assert (Hne : m <> m').
  { intros ->. apply Hnot. eapply nth_error_In; eassumption. }
  cbn [phases_store leading_phases] in *.
  destruct (passes (oc_invoke m') tests) eqn:Hp.
  - rewrite (IH k _ Hnd' Hk) by lia. now apply get_batch_other.
  - now apply get_batch_other.
Qed.

Lemma order_NoDup : NoDup order.
Proof.
  unfold order. repeat constructor; cbn; intuition discriminate.
Qed.

Lemma order_position (m : method) : nth_error order (position m) = Some m.
Proof. now destruct m. Qed.

(** ** The runner of tests/AwsRunner *)








End ClassicFacts.

(* ################################################################## *)
(** * The claims *)
(* ################################################################## *)

Local Open Scope string_scope.

(** C2, at a list that shows the defect: one result whose create and delete
    passed (100 ms and 50 ms) and whose read failed.  No read passed, so
    the read average should be -1 and the create average 100; the
    constructed [RunAverages] has read average 0 and create average -1,
    because the branch for "no read passed" assigns the create average.
    The delete average is the specified one. *)
Theorem C2_read_sentinel_lands_on_create :
  let l := [mkRunResult 0 100 true 0 false 50 true] in
  let a := RunAverages_init l 1 in
  pass_count (op_status op_read) l = 0
  /\ op_average op_read a = 0
  /\ spec_average (op_status op_read) (op_time op_read) l = -1
  /\ op_average op_create a = -1
  /\ spec_average (op_status op_create) (op_time op_create) l = 100
  /\ op_average op_delete a = 50
  /\ spec_average (op_status op_delete) (op_time op_delete) l = 50.
Proof. cbv. repeat split; reflexivity. Qed.

(** C3, the claim as stated fails: a text can contain [real 1m2.345s] after
    an earlier match of the pattern, and [re.search] reports the earlier
    one. *)
Lemma C3_counterexample_earlier_match :
  ~ (forall pre post : string,
       let r := Parser.parse_output 0 (pre ++ "real 1m2.345s" ++ post) "" "" in
       get_file_create_status r = true
       /\ get_file_create_time_ms r = 62345).
Proof.
  intros H. specialize (H "real 0m0.001s " "").
  destruct H as [_ H]. vm_compute in H. discriminate.
Qed.

(** C3, as amended.  For each operation [o] and every text [text] given as
    that operation's output: when the pattern matches, the status is true
    and the duration is minutes*60000 + seconds*1000 + the fraction's digits
    read as a number (of the leftmost match); without a match the status is
    false and the duration 0.  A text in which [real 1m2.345s] is the
    leftmost match (nothing before it matches) yields 62345 ms.  A result
    without a match adds one to the operation's fail count and nothing to
    the pass count and the summed time the average is taken from. *)
Theorem C3_parse_output_leftmost_match
    (o : operation) (instance_id : nat)
    (text others pre post miss : string)
    (l1 l2 : list RunResult) (run_id : nat)
    (Hpre : Parser.re_search pre = None)
    (Hmiss : Parser.re_search miss = None) :
  (let r := parse_with o instance_id text others in
   match Parser.re_search text with
   | Some (minutes, seconds, millisec) =>
       op_status o r = true
       /\ op_time o r
          = Parser.int minutes * 60000 + Parser.int seconds * 1000
            + Parser.int millisec
   | None => op_status o r = false /\ op_time o r = 0
   end)
  /\ (let r := parse_with o instance_id
                 (pre ++ "real 1m2.345s" ++ post) others in
      op_status o r = true /\ op_time o r = 62345)
  /\ (let r := parse_with o instance_id miss others in
      op_status o r = false /\ op_time o r = 0
      /\ op_total_fail o (RunAverages_init (l1 ++ r :: l2) run_id)
         = op_total_fail o (RunAverages_init (l1 ++ l2) run_id) + 1
      /\ op_total_pass o (RunAverages_init (l1 ++ r :: l2) run_id)
         = op_total_pass o (RunAverages_init (l1 ++ l2) run_id)
      /\ op_total_time_ms o (RunAverages_init (l1 ++ r :: l2) run_id)
         = op_total_time_ms o (RunAverages_init (l1 ++ l2) run_id)).
Proof.
  assert (G : forall t : string,
    let r := parse_with o instance_id t others in
    match Parser.re_search t with
    | Some (minutes, seconds, millisec) =>
        op_status o r = true
        /\ op_time o r
           = Parser.int minutes * 60000 + Parser.int seconds * 1000
             + Parser.int millisec
    | None => op_status o r = false /\ op_time o r = 0
    end).
  { intros t. unfold parse_with, Parser.parse_output.
    destruct o; cbn [op_status op_time];
      destruct (Parser.re_search t) as [[[g1 g2] g3]|];
      destruct (Parser.re_search others) as [[[h1 h2] h3]|];
      cbn; unfold Parser._get_time_ms; split; try reflexivity; lia. }
  split; [apply G|]. split.
  - pose proof (G (pre ++ "real 1m2.345s" ++ post)) as G1.
    rewrite (ParserFacts.re_search_first pre post Hpre) in G1.
    exact G1.
  - pose proof (G miss) as G2. rewrite Hmiss in G2.
    cbv zeta in *. destruct G2 as [Gs Gt].
    split; [exact Gs|]. split; [exact Gt|].
    set (r := parse_with o instance_id miss others) in *.
    destruct (RunAveragesFacts.init_totals (l1 ++ r :: l2) run_id)
      as (A1 & A2 & A3 & A4 & A5 & A6 & A7 & A8 & A9 & _).
    destruct (RunAveragesFacts.init_totals (l1 ++ l2) run_id)
      as (B1 & B2 & B3 & B4 & B5 & B6 & B7 & B8 & B9 & _).
    destruct o; cbn [op_total_fail op_total_pass op_total_time_ms op_status] in *;
      rewrite ?A1, ?A2, ?A3, ?A4, ?A5, ?A6, ?A7, ?A8, ?A9,
              ?B1, ?B2, ?B3, ?B4, ?B5, ?B6, ?B7, ?B8, ?B9;
      rewrite !RunAveragesFacts.fail_count_app, !RunAveragesFacts.pass_count_app,
              !RunAveragesFacts.sum_passing_app,
              !RunAveragesFacts.fail_count_cons, !RunAveragesFacts.pass_count_cons,
              !RunAveragesFacts.sum_passing_cons, Gs;
      repeat split; lia.
Qed.

(** C3's theorem at work: nothing before the sample, and a failing output
    without a match. *)
Lemma C3_witness :
  Parser.re_search "" = None
  /\ Parser.re_search "sys 0m0.0s" = None
  /\ (let r := parse_with op_read 3 ("" ++ "real 1m2.345s" ++ "") "" in
      op_status op_read r = true /\ op_time op_read r = 62345).
Proof.
  split; [reflexivity|]. split; [reflexivity|].
  exact (proj1 (proj2 (C3_parse_output_leftmost_match
                         op_read 3 "real 0m1.5s" "" "" "" "sys 0m0.0s"
                         [] [] 1 eq_refl eq_refl))).
Defined.



(** C10.  The constructor raises for an omitted and for an empty list of
    tests, and an executor it returns has at least one test (the list it
    was given) and no results yet. *)
Theorem C10_no_tests_specified (test_instances : option (list TestInstance)) :
  PerformParallelOperations.__init__ None = Raises ExcException
  /\ PerformParallelOperations.__init__ (Some []) = Raises ExcException
  /\ match PerformParallelOperations.__init__ test_instances with
     | Returns (self, results) =>
         test_instances = Some (PerformParallelOperations.tests self)
         /\ (exists test rest,
               PerformParallelOperations.tests self = test :: rest)
         /\ results = []
     | Raises e =>
         e = ExcException
         /\ (test_instances = None \/ test_instances = Some [])
     | Hangs => False
     end.
Proof.
  split; [reflexivity|]. split; [reflexivity|].
  destruct test_instances as [[|test rest]|]; cbn.
  - split; [reflexivity|]. now right.
  - split; [reflexivity|]. split; [|reflexivity]. now exists test, rest.
  - split; [reflexivity|]. now left.
Qed.







(** C1, at a run that shows the defect: two units, everything returns;
    unit A measures 100 ms at level 1 and 300 ms at level 2, unit B measures
    300 ms at level 2.  The module-level list [test_per_run_results] is
    never emptied, so the averages of level 2 are taken over the three
    results of levels 1 and 2 (233 ms) and not over the two results of
    level 2 (300 ms). *)
Theorem C1_level_two_mixes_level_one :
  let r (ms : Z) := mkRunResult 0 ms true ms true ms true in
  let unit_a :=
    mkTestInstance (Returns tt) (fun _ => Returns tt)
      (fun lvl => Returns (r (if (lvl =? 1)%nat then 100 else 300)))
      (fun _ => Returns tt) in
  let unit_b :=
    mkTestInstance (Returns tt) (fun _ => Returns tt)
      (fun _ => Returns (r 300)) (fun _ => Returns tt) in
  let bed := AwsRunner.mkTestbed (Returns tt) (Returns tt) in
  let run := AwsRunner.run_main 2 [unit_a; unit_b] bed in
  fst run = Returns tt
  /\ AwsRunner.test_per_run_results (store (snd run)) = [r 100; r 300; r 300]
  /\ AwsRunner.test_run_averages (store (snd run))
     = [RunAverages_init [r 100] 1; RunAverages_init [r 100; r 300; r 300] 2]
  /\ AwsRunner.reported (trace (snd run))
     = Some [mkRow 1 100 100 100; mkRow 2 233 233 233]
  /\ AwsRunner.row_of (RunAverages_init [r 300; r 300] 2)
     = mkRow 2 300 300 300.
Proof. vm_compute. repeat split; reflexivity. Qed.

(** C4, the claim as stated fails: the first unit's [execute_test] returns
    a result, the second one's raises; the phase fails and the first unit's
    result is in the accumulator, in the executor of [classicTest] as in the
    driver's level 2. *)
Lemma C4_counterexample_partial_results :
  let r := mkRunResult 0 5 true 5 true 5 true in
  let unit_ok :=
    mkTestInstance (Returns tt) (fun _ => Returns tt)
                   (fun _ => Returns r) (fun _ => Returns tt) in
  let unit_bad :=
    mkTestInstance (Returns tt) (fun _ => Returns tt)
                   (fun _ => Raises ExcException) (fun _ => Returns tt) in
  let phase :=
    PerformParallelOperations._perform_ops
      (PerformParallelOperations.mk [unit_ok; unit_bad]) m_execute_test
      (mkWorld [] []) in
  let run :=
    AwsRunner.level [unit_ok; unit_bad] 2 AwsRunner.initial in
  fst phase = Raises ExcException
  /\ store (snd phase)
     = [(m_execute_test, PerformParallelOperations.PyRunResult r)]
  /\ fst run = Raises ExcException
  /\ AwsRunner.test_per_run_results (store (snd run)) = [r].
Proof. vm_compute. repeat split; reflexivity. Qed.

(** C4, as amended.  If the phase call of some unit raises an [Exception]
    or its worker does not finish within the timeout, the phase reports
    failure (it raises); nothing is taken back from the accumulator: what
    it held before is still at its head, and what has been added holds a
    result for every unit that returned and was joined before the first
    failing one, whatever the order of the appends and whatever the units
    started after the failing one have added.  This holds for
    [_perform_ops] of [classicTest] and for the [execute_test] phase of a
    driver level, where in addition no averages are computed from the
    partial results. *)
Theorem C4_failed_phase_keeps_joined_results
    (self : PerformParallelOperations.t) (m : method)
    (w : world PerformParallelOperations.results_t) (u : TestInstance)
    (objs : list TestInstance) (i : nat) (w2 : world AwsRunner.lists)
    (u2 : TestInstance)
    (Hu : In u (PerformParallelOperations.tests self))
    (Hfail : PerformParallelOperations.invoke u m 0 = Raises ExcException
             \/ PerformParallelOperations.invoke u m 0 = Hangs)
    (Hi : (i <= List.length objs)%nat)
    (Hpre : forall v, In v (firstn i objs) ->
                      pre_test_setup v i <> Raises ExcException
                      /\ pre_test_setup v i <> Hangs)
    (Hu2 : In u2 (firstn i objs))
    (Hfail2 : execute_test u2 i = Raises ExcException
              \/ execute_test u2 i = Hangs) :
  (let phase := PerformParallelOperations._perform_ops self m w in
   fst phase = Raises ExcException
   /\ exists before bad after added others,
        PerformParallelOperations.tests self = (before ++ bad :: after)%list
        /\ (PerformParallelOperations.invoke bad m 0 = Raises ExcException
            \/ PerformParallelOperations.invoke bad m 0 = Hangs)
        /\ store (snd phase) = (store w ++ added)%list
        /\ Permutation added
             (flat_map
                (fun u' =>
                   match PerformParallelOperations.invoke u' m 0 with
                   | Returns v => [(m, v)]
                   | _ => []
                   end) before ++ others)%list)
  /\ (let run := AwsRunner.level objs i w2 in
      fst run = Raises ExcException
      /\ AwsRunner.test_run_averages (store (snd run))
         = AwsRunner.test_run_averages (store w2)
      /\ exists before bad after added others,
           firstn i objs = (before ++ bad :: after)%list
           /\ (execute_test bad i = Raises ExcException
               \/ execute_test bad i = Hangs)
           /\ AwsRunner.test_per_run_results (store (snd run))
              = (AwsRunner.test_per_run_results (store w2) ++ added)%list
           /\ Permutation added
                (flat_map (fun u' => match execute_test u' i with
                                     | Returns r => [r]
                                     | _ => []
                                     end) before ++ others)%list).
Proof.
  split; cbv zeta.
  - rewrite PPOFacts._perform_ops_shape. cbn [fst snd store].
    apply PPOFacts.blocks_ended in Hfail.
    destruct (PPOFacts.first_blocking (Shape.oc_invoke m) _ u Hu Hfail)
      as (before & bad & after & Heq & Hall & Hbad).
    rewrite Heq, (PPOFacts.passes_split _ _ _ _ Hbad).
    split; [reflexivity|].
    exists before, bad, after,
      (flat_map
         (fun u' =>
            match PerformParallelOperations.invoke u' m 0 with
            | Returns v => [(m, v)]
            | _ => []
            end) before), [].
    split; [reflexivity|]. pose proof Hbad as Hbad'.
    apply PPOFacts.blocks_ended in Hbad'. split; [exact Hbad'|].
    split; [|rewrite app_nil_r; apply Permutation_refl].
    rewrite (PPOFacts.batch_store_split _ _ _ _ Hbad _ _ Hall).
    rewrite PPOFacts.fold_g_invoke. unfold Shape.g_invoke.
    now destruct Hbad' as [-> | ->].
  - rewrite StructureFacts.level_shape. cbn [fst snd store].
    apply (PPOFacts.blocks_ended (execute_test u2 i)) in Hfail2.
    destruct (PPOFacts.first_blocking (Shape.oc_exec i) _ u2 Hu2 Hfail2)
      as (before & bad & after & Heq & Hall & Hbad).
    assert (Hpre_ok : Shape.pre_ok objs i = true).
    { unfold Shape.pre_ok, Shape.in_range, Shape.selected, Shape.passes.
      apply andb_true_iff. split; [now apply Nat.leb_le|].
      apply forallb_forall. intros v Hv. apply negb_true_iff.
      change (Shape.oc_pre i v) with (pre_test_setup v i).
      rewrite <- (StructureFacts.ended_unit (pre_test_setup v i)).
      apply (PPOFacts.not_blocks_ended (pre_test_setup v i)).
      now apply Hpre. }
    assert (Hexec : Shape.exec_ok objs i = false).
    { unfold Shape.exec_ok, Shape.selected. rewrite Hpre_ok, Heq.
      now rewrite (PPOFacts.passes_split _ _ _ _ Hbad). }
    assert (Hres : Shape.level_result objs i = Raises ExcException).
    { unfold Shape.level_result. now rewrite Hexec. }
    assert (Hok : Shape.level_ok objs i = false).
    { unfold Shape.level_ok. now rewrite Hres. }
    split; [exact Hres|].
    unfold Shape.level_store. rewrite Hok, Hpre_ok.
    cbn [AwsRunner.test_run_averages AwsRunner.test_per_run_results].
    split; [now rewrite app_nil_r|].
    exists before, bad, after,
      (flat_map (fun u' => match execute_test u' i with
                           | Returns r => [r]
                           | _ => []
                           end) before), [].
    split; [exact Heq|].
    split; [now apply (PPOFacts.blocks_ended (execute_test bad i))|].
    split; [|rewrite app_nil_r; apply Permutation_refl].
    unfold Shape.selected. rewrite Heq.
    now rewrite (PPOFacts.gathered_split i bad after Hbad before Hall).
Qed.

(** C4's theorem at work, on the units of the counterexample. *)
Lemma C4_witness :
  let r := mkRunResult 0 5 true 5 true 5 true in
  let unit_ok :=
    mkTestInstance (Returns tt) (fun _ => Returns tt)
                   (fun _ => Returns r) (fun _ => Returns tt) in
  let unit_bad :=
    mkTestInstance (Returns tt) (fun _ => Returns tt)
                   (fun _ => Raises ExcException) (fun _ => Returns tt) in
  In unit_bad [unit_ok; unit_bad]
  /\ fst (PerformParallelOperations._perform_ops
            (PerformParallelOperations.mk [unit_ok; unit_bad]) m_execute_test
            (mkWorld [] [])) = Raises ExcException
  /\ fst (AwsRunner.level [unit_ok; unit_bad] 2 AwsRunner.initial)
     = Raises ExcException.
Proof.
  intros r unit_ok unit_bad.
  split; [right; now left|].
  assert (Hpre : forall v, In v (firstn 2 [unit_ok; unit_bad]) ->
                           pre_test_setup v 2 <> Raises ExcException
                           /\ pre_test_setup v 2 <> Hangs).
  { intros v [<-|[<-|[]]]; split; discriminate. }
  pose proof (C4_failed_phase_keeps_joined_results
                (PerformParallelOperations.mk [unit_ok; unit_bad])
                m_execute_test (mkWorld [] []) unit_bad
                [unit_ok; unit_bad] 2%nat AwsRunner.initial unit_bad
                (or_intror (or_introl eq_refl)) (or_introl eq_refl)
                (le_n 2) Hpre
                (or_intror (or_introl eq_refl)) (or_introl eq_refl)) as H.
  cbv zeta in H. destruct H as [[H1 _] [H2 _]]. split; assumption.
Defined.

(* ################################################################## *)
(** * Further properties of the code *)
(* ################################################################## *)

Local Open Scope list_scope.

(** X1.  The events of a run of the driver come in the order of the
    phases.  Whatever the units and the testbed do, every event [e] of the
    trace is preceded by what [Order.guard] asks for:
    - [pre_test_setup] is launched at a level only after the
      [setup_environment] call of every provisioned unit has ended quietly
      (returned, or ended by a throw outside of [Exception], which the worker
      does not capture) and after every cleanup call of the level before has
      returned;
    - [execute_test] is launched at level [l] only after the
      [pre_test_setup] calls of all [l] units of the level have ended
      quietly;
    - a cleanup call of level [l] is made only after the [execute_test]
      calls of all [l] units have ended quietly and the cleanup calls on the
      units before it have returned;
    - the averages of level [l] are taken only after all [l] cleanup calls
      have returned;
    - a call's end is seen only after its launch, the bucket is deleted only
      after the instances' teardown was attempted, and the report comes only
      after the bucket's. *)
Theorem X1_events_follow_the_phases
    (clients : nat) (objs : list TestInstance) (bed : AwsRunner.testbed)
    (before after : list event) (e : event)
    (Hsplit : trace (snd (AwsRunner.run_main clients objs bed))
              = before ++ e :: after) :
  Order.guard (List.length objs) e before.
Proof.
  rewrite StructureFacts.run_main_shape in Hsplit. cbn [snd trace] in Hsplit.
  exact (OrderFacts.safe_split _ before [] _ e after
           (OrderFacts.safe_main clients objs bed) Hsplit).
Qed.

(** X1's theorem at work: in the run of one unit on which everything
    returns, the launch of [execute_test] comes fifth. *)
Lemma X1_witness :
  Order.guard 1 (EvBegin m_execute_test 1 0)
    [EvBegin m_setup_environment 0 0;
     EvEnd m_setup_environment 0 0 (Returns tt);
     EvBegin m_pre_test_setup 1 0;
     EvEnd m_pre_test_setup 1 0 (Returns tt)].
Proof.
  eapply (X1_events_follow_the_phases 1
            [mkTestInstance (Returns tt) (fun _ => Returns tt)
               (fun _ => Returns (RunResult_init 0)) (fun _ => Returns tt)]
            (AwsRunner.mkTestbed (Returns tt) (Returns tt))).
  cbv. reflexivity.
Defined.

(** X2.  Prefix selection.  When at least [clients] units are provisioned,
    the levels whose iteration is entered are 1, 2, ..., [k] in this order
    for some [k <= clients] ([k = clients] when the [try] block returns);
    [setup_environment] is launched once on every provisioned unit; at each
    entered level [l], [pre_test_setup] is launched on exactly the first [l]
    units in their order, [execute_test] on the same units or (after a
    failed [pre_test_setup]) on none, and [cleanup] on a prefix of them;
    nothing is launched at a level that is not entered. *)
Theorem X2_levels_use_prefixes
    (clients : nat) (objs : list TestInstance) (bed : AwsRunner.testbed)
    (Hlen : (clients <= List.length objs)%nat) :
  let tr := trace (snd (AwsRunner.run_main clients objs bed)) in
  exists k,
    (k <= clients)%nat
    /\ Order.levels_entered tr = seq 1 k
    /\ (fst (AwsRunner.ramp clients objs AwsRunner.initial) = Returns tt ->
        k = clients)
    /\ Order.units_begun m_setup_environment 0 tr = seq 0 (List.length objs)
    /\ (forall l, (1 <= l <= k)%nat ->
          Order.units_begun m_pre_test_setup l tr = seq 0 l
          /\ (Order.units_begun m_execute_test l tr = seq 0 l
              \/ Order.units_begun m_execute_test l tr = [])
          /\ (exists c, (c <= l)%nat
                        /\ Order.units_begun m_cleanup l tr = seq 0 c)
          /\ map (nth_error objs) (seq 0 l) = map Some (firstn l objs))
    /\ (forall m l, (k < l)%nat -> m <> m_setup_environment ->
          Order.units_begun m l tr = []).
Proof.
  cbv zeta. rewrite StructureFacts.run_main_shape, StructureFacts.ramp_shape.
  cbn [fst snd trace].
  assert (Hm : forall m l,
    Order.units_begun m l (Shape.main_trace clients objs bed)
    = Order.units_begun m l (Shape.ramp_trace clients objs))
    by (intros; apply PrefixFacts.main_trace_begun).
  destruct (PrefixFacts.main_trace_begun clients objs bed m_cleanup 0)
    as [_ He].
  rewrite He. clear He.
  unfold Shape.ramp_result.
  assert (Hr : forall m l rest,
    Order.units_begun m l
      (Shape.begins m_setup_environment 0 0 (List.length objs)
       ++ Shape.ends m_setup_environment 0 Shape.oc_setup 0 objs ++ rest)
    = (if method_eqb m m_setup_environment && (l =? 0)%nat
       then seq 0 (List.length objs) else [])
      ++ Order.units_begun m l rest).
  { intros m l rest.
    rewrite !PrefixFacts.units_begun_app, PrefixFacts.units_begun_begins,
      PrefixFacts.units_begun_ends. reflexivity. }
  assert (Hent : forall rest,
    Order.levels_entered
      (Shape.begins m_setup_environment 0 0 (List.length objs)
       ++ Shape.ends m_setup_environment 0 Shape.oc_setup 0 objs ++ rest)
    = Order.levels_entered rest).
  { intros rest.
    rewrite !PrefixFacts.levels_entered_app,
      PrefixFacts.levels_entered_begins, PrefixFacts.levels_entered_ends.
    reflexivity. }
  unfold Shape.ramp_trace in *.
  destruct (Shape.setup_ok objs).
  - destruct (PrefixFacts.levels_begun objs clients 1 (le_n 1)
                ltac:(lia)) as (k & Hk & Hents & Hres & Hin & Hout).
    exists k. split; [exact Hk|]. split; [now rewrite Hent|].
    split; [exact Hres|]. split.
    { rewrite Hm, Hr. cbn [method_eqb andb Nat.eqb].
      rewrite (Hout m_setup_environment 0%nat) by lia. apply app_nil_r. }
    split.
    + intros l Hl.
      destruct (PrefixFacts.level_begun objs l ltac:(lia))
        as (Hp & Hx & Hc & _).
      rewrite !Hm, !Hr. cbn [method_eqb andb app].
      rewrite !Hin by lia. rewrite Hp, Hx, Hc.
      split; [reflexivity|]. split.
      { destruct (Shape.pre_ok objs l); auto. }
      split.
      { destruct (Shape.exec_ok objs l).
        - exists (Order.cleanup_calls l (Shape.selected objs l)).
          split; [|reflexivity].
          pose proof (PrefixFacts.cleanup_calls_le l (Shape.selected objs l)).
          unfold Shape.selected in *. rewrite firstn_length_le in *; lia.
        - exists 0%nat. split; [lia|reflexivity]. }
      apply PrefixFacts.index_prefix. lia.
    + intros m l Hl Hne. rewrite Hm, Hr.
      destruct m; try contradiction; cbn [method_eqb andb app];
        apply Hout; lia.
  - exists 0%nat. split; [lia|]. split; [now rewrite Hent|].
    split; [discriminate|]. split.
    { rewrite Hm, Hr. cbn. apply app_nil_r. }
    split; [intros l Hl; lia|].
    intros m l Hl Hne. rewrite Hm, Hr.
    destruct m; try contradiction; reflexivity.
Qed.

(** X2's theorem at work: two units, two levels. *)
Lemma X2_witness :
  let unit_ok :=
    mkTestInstance (Returns tt) (fun _ => Returns tt)
                   (fun _ => Returns (RunResult_init 0)) (fun _ => Returns tt) in
  let bed := AwsRunner.mkTestbed (Returns tt) (Returns tt) in
  (2 <= List.length [unit_ok; unit_ok])%nat
  /\ exists k, Order.levels_entered
                 (trace (snd (AwsRunner.run_main 2 [unit_ok; unit_ok] bed)))
               = seq 1 k.
Proof.
  intros unit_ok bed. split; [apply le_n|].
  destruct (X2_levels_use_prefixes 2 [unit_ok; unit_ok] bed (le_n 2))
    as (k & _ & Hk & _).
  exists k. exact Hk.
Defined.

(** X3.  For each operation, the pass count and the fail count of a
    constructed [RunAverages] are non-negative and add up to the number of
    results it was given, and the run id is the one it was given. *)
Theorem X3_every_result_is_counted_once
    (o : operation) (l : list RunResult) (id : nat) :
  let a := RunAverages_init l id in
  op_total_pass o a + op_total_fail o a = Z.of_nat (List.length l)
  /\ 0 <= op_total_pass o a
  /\ 0 <= op_total_fail o a
  /\ get_run_id a = id.
Proof.
  cbv zeta.
  destruct (RunAveragesFacts.init_totals l id)
    as (A1 & A2 & _ & A4 & A5 & _ & A7 & A8 & _ & A10).
  split; [|split; [|split; [|exact A10]]];
    destruct o; cbn [op_total_pass op_total_fail];
    rewrite ?A1, ?A2, ?A4, ?A5, ?A7, ?A8;
    auto using AverageFacts.pass_fail_length,
      RunAveragesFacts.pass_count_nonneg, AverageFacts.fail_count_nonneg.
Qed.

(** X4.  The order of the results does not matter: two lists that are
    permutations of each other give the same [RunAverages].  So the
    order in which the worker threads append to the shared list has no
    influence on the report. *)
Theorem X4_RunAverages_ignores_the_order
    (l l' : list RunResult) (id : nat) (Hperm : Permutation l l') :
  RunAverages_init l id = RunAverages_init l' id.
Proof.
  rewrite !AverageFacts.init_by_tally.
  now rewrite (AverageFacts.tally_perm l l' _ Hperm).
Qed.

(** X4's theorem at work: two results, swapped. *)
Lemma X4_witness :
  let r1 := mkRunResult 1 10 true 20 true 30 false in
  let r2 := mkRunResult 2 40 true 0 false 60 true in
  Permutation [r1; r2] [r2; r1]
  /\ RunAverages_init [r1; r2] 1 = RunAverages_init [r2; r1] 1.
Proof.
  intros r1 r2. split; [apply perm_swap|].
  exact (X4_RunAverages_ignores_the_order [r1; r2] [r2; r1] 1
           (perm_swap r2 r1 [])).
Defined.

(** X5.  When at least one read passes, all three averages are the
    specified ones: the sum of the passing durations divided (rounding
    down) by the passing count, and -1 for an operation that never
    passed. *)
Theorem X5_averages_when_a_read_passes
    (o : operation) (l : list RunResult) (id : nat)
    (Hread : 0 < pass_count get_file_read_status l) :
  op_average o (RunAverages_init l id)
  = spec_average (op_status o) (op_time o) l.
Proof.
  destruct o; cbn [op_average op_status op_time].
  - rewrite RunAveragesFacts.avg_create_spec.
    destruct (Z.eqb_spec (pass_count get_file_read_status l) 0); [lia|easy].
  - rewrite RunAveragesFacts.avg_read_spec.
    destruct (Z.eqb_spec (pass_count get_file_read_status l) 0); [lia|easy].
  - apply RunAveragesFacts.avg_delete_spec.
Qed.

(** X5's theorem at work: a passing read of 7 ms. *)
Lemma X5_witness :
  let l := [mkRunResult 0 0 false 7 true 0 false] in
  0 < pass_count get_file_read_status l
  /\ op_average op_create (RunAverages_init l 1) = -1.
Proof.
  intros l. split; [reflexivity|].
  exact (X5_averages_when_a_read_passes op_create l 1 eq_refl).
Defined.

(** X6.  An average lies within the range of the durations it is taken
    from: when the passing durations of the delete operation all lie
    between [lo] and [hi] and at least one delete passes, so does the
    delete average; the same holds for create and read when at least one
    read passes. *)
Theorem X6_average_within_range
    (o : operation) (l : list RunResult) (id : nat) (lo hi : Z)
    (Hrange : forall r, In r l -> op_status o r = true ->
                        lo <= op_time o r <= hi)
    (Hpass : 0 < pass_count (op_status o) l)
    (Hread : o = op_delete \/ 0 < pass_count get_file_read_status l) :
  lo <= op_average o (RunAverages_init l id) <= hi.
Proof.
  assert (E : op_average o (RunAverages_init l id)
              = spec_average (op_status o) (op_time o) l).
  { destruct Hread as [->|Hread].
    - apply RunAveragesFacts.avg_delete_spec.
    - destruct o; cbn [op_average op_status op_time].
      + rewrite RunAveragesFacts.avg_create_spec.
        destruct (Z.eqb_spec (pass_count get_file_read_status l) 0);
          [lia|easy].
      + rewrite RunAveragesFacts.avg_read_spec.
        destruct (Z.eqb_spec (pass_count get_file_read_status l) 0);
          [lia|easy].
      + apply RunAveragesFacts.avg_delete_spec. }
  rewrite E. now apply AverageFacts.spec_average_bounds.
Qed.

(** X6's theorem at work: deletes of 10 ms and 21 ms average to 15 ms. *)
Lemma X6_witness :
  let l := [mkRunResult 0 0 false 0 false 10 true;
            mkRunResult 1 0 false 0 false 21 true] in
  0 < pass_count get_file_delete_status l
  /\ 10 <= op_average op_delete (RunAverages_init l 1) <= 21.
Proof.
  intros l. split; [reflexivity|].
  apply (X6_average_within_range op_delete l 1 10 21).
  - intros r [<-|[<-|[]]] _; cbn; lia.
  - reflexivity.
  - now left.
Defined.

Local Open Scope string_scope.

(** X7.  What [re.search(time_pattern, text)] finds.  The search yields the
    groups [minutes], [seconds] and [millisec] exactly when the text is some
    [pre], then a timing line [real<ws><minutes>m<seconds>.<millisec>s]
    whose white space [ws] and three groups are non-empty and of the right
    class (white space, digits), then some [post], where [pre] itself has no
    match.  So the match reported is always the leftmost one, and its
    groups are read greedily to their ends. *)
Theorem X7_search_finds_the_leftmost_timing_line
    (text minutes seconds millisec : string) :
  Parser.re_search text = Some (minutes, seconds, millisec)
  <-> exists pre ws post,
        text = pre ++ Text.timing_text ws minutes seconds millisec post
        /\ Text.well_formed ws minutes seconds millisec
        /\ Parser.re_search pre = None.
Proof.
  split.
  - intros H.
    destruct (TextFacts.re_search_sound _ _ _ _ H)
      as (pre & rest & post & -> & Hm & Hpre).
    destruct (TextFacts.match_here_sound _ _ _ _ _ Hm) as (ws & -> & Hwf).
    now exists pre, ws, post.
  - intros (pre & ws & post & -> & Hwf & Hpre).
    now apply TextFacts.re_search_exact.
Qed.

(** X8.  The duration of a timing line.  For a text whose first match is
    the timing line [real<ws><minutes>m<seconds>.<millisec>s], each
    operation's parse has status true and the non-negative duration
    minutes * 60000 + seconds * 1000 + millisec, the three digit strings
    being read as decimal numbers. *)
Theorem X8_duration_of_a_timing_line
    (o : operation) (instance_id : nat)
    (pre ws minutes seconds millisec post others : string)
    (Hwf : Text.well_formed ws minutes seconds millisec)
    (Hpre : Parser.re_search pre = None) :
  let r := parse_with o instance_id
             (pre ++ Text.timing_text ws minutes seconds millisec post)
             others in
  op_status o r = true
  /\ op_time o r
     = Parser.int minutes * 60000 + Parser.int seconds * 1000
       + Parser.int millisec
  /\ 0 <= op_time o r.
Proof.
  cbv zeta.
  destruct (TextFacts.parse_with_spec o instance_id
              (pre ++ Text.timing_text ws minutes seconds millisec post)
              others) as [_ H].
  rewrite (TextFacts.re_search_exact pre ws minutes seconds millisec post
             Hwf Hpre) in H.
  destruct H as [Hs Ht]. split; [exact Hs|]. split; [exact Ht|].
  rewrite Ht. destruct Hwf as (_ & [_ H1] & [_ H2] & [_ H3]).
  pose proof (TextFacts.int_nonneg _ H1).
  pose proof (TextFacts.int_nonneg _ H2).
  pose proof (TextFacts.int_nonneg _ H3). lia.
Qed.

(** X8's theorem at work: the output of the shell's [time], with a tab
    after [real] and two more lines. *)
Lemma X8_witness :
  let tab := String (ascii_of_nat 9) "" in
  let nl := String (ascii_of_nat 10) "" in
  Parser.re_search nl = None
  /\ op_time op_read
       (parse_with op_read 4
          (nl ++ Text.timing_text tab "0" "12" "034"
                   (nl ++ "user" ++ tab ++ "0m0.004s")) "")
     = 12034.
Proof.
  intros tab nl. split; [reflexivity|].
  refine (proj1 (proj2 (X8_duration_of_a_timing_line op_read 4
            nl tab "0" "12" "034" (nl ++ "user" ++ tab ++ "0m0.004s") ""
            _ eq_refl))).
  repeat split; discriminate.
Defined.

(** X9.  Whatever the three texts are, a parsed duration is never
    negative, a failed status always comes with the duration 0, and the
    result carries the id it was given. *)
Theorem X9_durations_are_not_negative
    (o : operation) (instance_id : nat) (text others : string) :
  let r := parse_with o instance_id text others in
  0 <= op_time o r
  /\ (op_status o r = false -> op_time o r = 0)
  /\ _id r = instance_id.
Proof.
  cbv zeta.
  destruct (TextFacts.parse_with_spec o instance_id text others) as [Hid H].
  destruct (Parser.re_search text) as [[[g1 g2] g3]|] eqn:E.
  - destruct H as [Hs Ht]. rewrite Hs, Ht.
    destruct (TextFacts.re_search_sound _ _ _ _ E)
      as (pre & rest & post & _ & Hm & _).
    destruct (TextFacts.match_here_sound _ _ _ _ _ Hm)
      as (ws & _ & (_ & [_ H1] & [_ H2] & [_ H3])).
    pose proof (TextFacts.int_nonneg _ H1).
    pose proof (TextFacts.int_nonneg _ H2).
    pose proof (TextFacts.int_nonneg _ H3).
    split; [lia|]. split; [discriminate|exact Hid].
  - destruct H as [Hs Ht]. rewrite Ht. split; [lia|]. now split.
Qed.

Local Close Scope string_scope.


(** X11.  When the [try] block returns, the shared list holds the results
    of all levels, level by level and in some order within a level (the
    workers of a level append as they finish), and the averages of level
    [l] are those of the results of the levels 1 to [l] together: the list
    is not emptied between the levels. *)
Theorem X11_level_averages_cover_all_levels_so_far
    (clients : nat) (objs : list TestInstance) (bed : AwsRunner.testbed)
    (Htry : fst (AwsRunner.ramp clients objs AwsRunner.initial) = Returns tt) :
  let run := AwsRunner.run_main clients objs bed in
  (exists per_level,
      AwsRunner.test_per_run_results (store (snd run))
      = List.concat per_level
      /\ Forall2 (fun added l =>
                    Permutation added (Order.level_results objs l))
                 per_level (seq 1 clients))
  /\ AwsRunner.test_run_averages (store (snd run))
     = map (fun l => RunAverages_init (Order.results_through objs l) l)
           (seq 1 clients).
Proof.
  cbv zeta. rewrite StructureFacts.run_main_shape.
  rewrite StructureFacts.ramp_shape in Htry. cbn [fst snd store] in *.
  unfold Shape.ramp_result, Shape.ramp_store in *.
  destruct (Shape.setup_ok objs); [|discriminate].
  rewrite (RunFacts.levels_store_ok objs clients 1 _ Htry).
  cbn [AwsRunner.test_per_run_results AwsRunner.test_run_averages app].
  split.
  - exists (map (Order.level_results objs) (seq 1 clients)).
    split; [apply flat_map_concat_map|].
    apply RunFacts.Forall2_map_Permutation.
  - apply map_ext. intros l. unfold Order.results_through.
    now replace (S l - 1)%nat with l by lia.
Qed.

(** X11's theorem at work: one unit, one level. *)
Lemma X11_witness :
  let r := mkRunResult 0 5 true 6 true 7 true in
  let unit_ok :=
    mkTestInstance (Returns tt) (fun _ => Returns tt)
                   (fun _ => Returns r) (fun _ => Returns tt) in
  let bed := AwsRunner.mkTestbed (Returns tt) (Returns tt) in
  fst (AwsRunner.ramp 1 [unit_ok] AwsRunner.initial) = Returns tt
  /\ AwsRunner.test_run_averages
       (store (snd (AwsRunner.run_main 1 [unit_ok] bed)))
     = [RunAverages_init [r] 1].
Proof.
  intros r unit_ok bed. split; [reflexivity|].
  exact (proj2 (X11_level_averages_cover_all_levels_so_far 1 [unit_ok] bed
                  eq_refl)).
Defined.

(** X12.  A cleanup call that is ended by a throw outside of [Exception]
    (SystemExit, KeyboardInterrupt), or that never returns, ends the run
    right there: the handler of [main] does not catch it, so nothing is
    logged, neither teardown is attempted and nothing is reported. *)
Theorem X12_cleanup_escape_skips_the_teardown
    (clients : nat) (objs : list TestInstance) (bed : AwsRunner.testbed)
    (l j : nat) (r : outcome unit)
    (Hr : r = Raises ExcBaseOnly \/ r = Hangs)
    (Hev : In (EvEnd m_cleanup l j r)
              (trace (snd (AwsRunner.run_main clients objs bed)))) :
  let run := AwsRunner.run_main clients objs bed in
  let tr := trace (snd run) in
  fst run = r
  /\ ~ In EvLogException tr
  /\ ~ In EvDestroyAllInstances tr
  /\ ~ In EvDeleteBucket tr
  /\ AwsRunner.reported tr = None.
Proof.
  cbv zeta. rewrite StructureFacts.run_main_shape in *.
  cbn [fst snd trace] in *.
  assert (Hne : r <> Returns tt) by (destruct Hr as [-> | ->]; discriminate).
  assert (Hin : In (EvEnd m_cleanup l j r) (Shape.ramp_trace clients objs)).
  { unfold Shape.main_trace, Shape.tail_trace in Hev.
    apply in_app_iff in Hev. destruct Hev as [H|H]; [exact H|].
    destruct (Shape.ramp_result clients objs) as [[]|[]|];
      destruct (AwsRunner.destroy_all_instances bed) as [[]|e1|];
      destruct (AwsRunner.delete_bucket bed) as [[]|e2|];
      cbn in H; repeat (destruct H as [H|H]; [discriminate|]);
      contradiction. }
  assert (Hres : Shape.ramp_result clients objs = r).
  { unfold Shape.ramp_trace, Shape.ramp_result in *.
    rewrite !in_app_iff in Hin. destruct Hin as [H|[H|H]].
    - apply TraceFacts.In_begins in H. now destruct H as (k & _ & H).
    - apply TraceFacts.In_ends in H. destruct H as (k & u & _ & H).
      discriminate.
    - destruct (Shape.setup_ok objs); [|contradiction].
      eapply RunFacts.levels_cleanup_stops; eauto. }
  rewrite RunFacts.reported_main.
  unfold Shape.main_result, Shape.main_trace. rewrite Hres.
  pose proof (TraceFacts.ramp_trace_events clients objs) as Hev'.
  destruct Hr as [-> | ->]; rewrite app_nil_r;
    (split; [reflexivity|]);
    repeat split; try reflexivity;
    apply (TraceFacts.not_ramp_event_In _ _ Hev'); cbn; tauto.
Qed.

(** X12's theorem at work: the only unit's cleanup exits the process. *)
Lemma X12_witness :
  let unit_exit :=
    mkTestInstance (Returns tt) (fun _ => Returns tt)
                   (fun _ => Returns (RunResult_init 0))
                   (fun _ => Raises ExcBaseOnly) in
  let bed := AwsRunner.mkTestbed (Returns tt) (Returns tt) in
  let run := AwsRunner.run_main 1 [unit_exit] bed in
  In (EvEnd m_cleanup 1 0 (Raises ExcBaseOnly)) (trace (snd run))
  /\ ~ In EvDestroyAllInstances (trace (snd run)).
Proof.
  intros unit_exit bed run.
  assert (Hev : In (EvEnd m_cleanup 1 0 (Raises ExcBaseOnly))
                   (trace (snd run))) by (cbv; auto 20).
  split; [exact Hev|].
  exact (proj1 (proj2 (proj2
           (X12_cleanup_escape_skips_the_teardown 1 [unit_exit] bed 1 0
              (Raises ExcBaseOnly) (or_introl eq_refl) Hev)))).
Defined.

(** X13.  A failed warm-up runs no level.  [setup_environment] is launched
    on every provisioned unit; when the call of one of them raises an
    [Exception] or does not end within the timeout, no call of any level is
    launched, both lists stay empty, the handler logs the error and the
    teardown of the instances is attempted. *)
Theorem X13_failed_warm_up_runs_no_level
    (clients : nat) (objs : list TestInstance) (bed : AwsRunner.testbed)
    (u : TestInstance) (Hu : In u objs)
    (Hfail : setup_environment u = Raises ExcException
             \/ setup_environment u = Hangs) :
  let run := AwsRunner.run_main clients objs bed in
  let tr := trace (snd run) in
  (forall m l j, (1 <= l)%nat -> ~ In (EvBegin m l j) tr)
  /\ Order.units_begun m_setup_environment 0 tr = seq 0 (List.length objs)
  /\ AwsRunner.test_per_run_results (store (snd run)) = []
  /\ AwsRunner.test_run_averages (store (snd run)) = []
  /\ In EvLogException tr
  /\ In EvDestroyAllInstances tr.
Proof.
  cbv zeta. rewrite StructureFacts.run_main_shape. cbn [fst snd store trace].
  assert (Hno : Shape.setup_ok objs = false).
  { unfold Shape.setup_ok.
    assert (Hb : Shape.blocks (Shape.oc_setup u) = true).
    { unfold Shape.oc_setup. destruct Hfail as [-> | ->]; reflexivity. }
    destruct (PPOFacts.first_blocking Shape.oc_setup objs u Hu Hb)
      as (before & bad & after & -> & _ & Hbad).
    now apply PPOFacts.passes_split. }
  destruct (PrefixFacts.main_trace_begun clients objs bed
              m_setup_environment 0) as [Hm _].
  rewrite Hm. clear Hm.
  unfold Shape.main_trace, Shape.ramp_store, Shape.ramp_trace,
    Shape.ramp_result, Shape.tail_trace.
  rewrite Hno, !app_nil_r.
  split; [|split; [|split; [reflexivity|split; [reflexivity|]]]].
  - intros m l j Hl H. rewrite !in_app_iff in H.
    destruct H as [[H|H]|H].
    + apply TraceFacts.In_begins in H. destruct H as (k & _ & H).
      injection H as _ -> _. lia.
    + apply TraceFacts.In_ends in H. now destruct H as (k & x & _ & H).
    + destruct (AwsRunner.destroy_all_instances bed) as [[]|e1|];
        destruct (AwsRunner.delete_bucket bed) as [[]|e2|];
        cbn in H; repeat (destruct H as [H|H]; [discriminate|]);
        contradiction.
  - rewrite PrefixFacts.units_begun_app, PrefixFacts.units_begun_begins,
      PrefixFacts.units_begun_ends. cbn. apply app_nil_r.
  - split; rewrite !in_app_iff; cbn [In]; auto.
Qed.

(** X13's theorem at work: the second of two units fails its warm-up. *)
Lemma X13_witness :
  let unit_ok :=
    mkTestInstance (Returns tt) (fun _ => Returns tt)
                   (fun _ => Returns (RunResult_init 0)) (fun _ => Returns tt) in
  let unit_bad :=
    mkTestInstance Hangs (fun _ => Returns tt)
                   (fun _ => Returns (RunResult_init 1)) (fun _ => Returns tt) in
  let bed := AwsRunner.mkTestbed (Returns tt) (Returns tt) in
  In unit_bad [unit_ok; unit_bad]
  /\ AwsRunner.test_run_averages
       (store (snd (AwsRunner.run_main 2 [unit_ok; unit_bad] bed))) = [].
Proof.
  intros unit_ok unit_bad bed. split; [right; now left|].
  exact (proj1 (proj2 (proj2 (proj2
           (X13_failed_warm_up_runs_no_level 2 [unit_ok; unit_bad] bed
              unit_bad (or_intror (or_introl eq_refl))
              (or_intror eq_refl)))))).
Defined.

Local Open Scope string_scope.

(** X14.  [execute_test] and failing commands.  Whatever fabric's [run]
    does on the three commands:
    - the test raises an [Exception] only for a file type other than
      [zero] and [random]; a command that raises an [Exception] or exits
      with a non-zero status never makes the test raise;
    - when the test returns, the status of each operation is true exactly
      when its command returned with exit status 0 and its output has a
      match of the timing pattern;
    - a throw outside of [Exception] leaves the test only from the read or
      the delete command (the create command's handler is a bare
      [except:]), and the test hangs only if a command does. *)
Theorem X14_failed_commands_are_failed_measurements
    (instance_id : nat) (file_type : string)
    (gos : Remote.command -> outcome Remote.fabric_result) :
  match Remote.execute_test instance_id file_type gos with
  | Returns r =>
      (file_type = "zero" \/ file_type = "random")
      /\ forall o,
           op_status o r = true
           <-> exists result,
                 gos (Remote.command_of file_type o) = Returns result
                 /\ Remote.return_code result = 0%Z
                 /\ Text.found (Remote.stdout result) = true
  | Raises ExcException => file_type <> "zero" /\ file_type <> "random"
  | Raises ExcBaseOnly =>
      gos Remote.read_files = Raises ExcBaseOnly
      \/ gos Remote.delete_files = Raises ExcBaseOnly
  | Hangs => exists c, gos c = Hangs
  end.
Proof.
  assert (Hempty : Text.found "" = false) by reflexivity.
  assert (Hrun : forall ran : outcome Remote.fabric_result,
    (exists text result,
        Remote.run_command_on_gos ran = Returns text
        /\ ran = Returns result /\ Remote.return_code result = 0%Z
        /\ text = Remote.stdout result)
    \/ ((exists e, Remote.run_command_on_gos ran = Raises e)
        /\ forall result, ran = Returns result ->
                          Remote.return_code result <> 0%Z)
    \/ (Remote.run_command_on_gos ran = Hangs /\ ran = Hangs)).
  { intros [result|e|]; cbn.
    - destruct (Z.eqb_spec (Remote.return_code result) 0) as [E|E].
      + left. now exists (Remote.stdout result), result.
      + right. left. split; [now exists ExcException|].
        intros r' H. now injection H as <-.
    - right. left. split; [now exists e|]. discriminate.
    - right. right. now split. }
  assert (Hstatus : forall (ran : outcome Remote.fabric_result) text,
    (exists result, Remote.run_command_on_gos ran = Returns text
                    /\ ran = Returns result
                    /\ Remote.return_code result = 0%Z
                    /\ text = Remote.stdout result)
    \/ (text = ""
        /\ forall result, ran = Returns result ->
                          Remote.return_code result <> 0%Z) ->
    Text.found text = true
    <-> exists result, ran = Returns result
                       /\ Remote.return_code result = 0%Z
                       /\ Text.found (Remote.stdout result) = true).
  { intros ran text [(result & _ & -> & Hz & ->)|[-> Hno]]; split.
    - intros H. now exists result.
    - intros (r' & H & _ & Hf). now injection H as <-.
    - rewrite Hempty. discriminate.
    - intros (r' & H & Hz & _). now destruct (Hno r' H). }
  unfold Remote.execute_test.
  destruct (String.eqb_spec file_type "zero") as [Hz|Hz];
    [|destruct (String.eqb_spec file_type "random") as [Hr|Hr];
      [|now split]].
  all: set (cc := if (file_type =? "zero")%string then Remote.create_zero
                  else Remote.create_random).
  all: assert (Hcc : Remote.command_of file_type op_create = cc)
         by reflexivity.
  all: assert (Hc' : (if (file_type =? "zero")%string
                      then Some Remote.create_zero
                      else if (file_type =? "random")%string
                           then Some Remote.create_random else None)
                     = Some cc)
         by (unfold cc; subst file_type; reflexivity).
  all: try (replace Remote.create_zero with cc
              by (unfold cc; subst file_type; reflexivity)).
  all: try (replace Remote.create_random with cc
              by (unfold cc; subst file_type; reflexivity)).
  all: destruct (Hrun (gos cc)) as [(t1 & r1 & E1 & G1 & Z1 & T1)
                                   |[[[e1 E1] N1]|[E1 G1]]];
       rewrite E1;
       try (now exists cc).
  all: destruct (Hrun (gos Remote.read_files))
         as [(t2 & r2 & E2 & G2 & Z2 & T2)|[[[e2 E2] N2]|[E2 G2]]];
       rewrite E2;
       try (now exists Remote.read_files).
  all: try (destruct e1 as [|]).
  all: try (destruct e2 as [|];
            [|left; destruct (gos Remote.read_files) as [x| |];
              cbn in E2; [destruct (Remote.return_code x =? 0)%Z|..];
              congruence]).
  all: destruct (Hrun (gos Remote.delete_files))
         as [(t3 & r3 & E3 & G3 & Z3 & T3)|[[[e3 E3] N3]|[E3 G3]]];
       rewrite E3;
       try (now exists Remote.delete_files).
  all: try (destruct e3 as [|];
            [|right; destruct (gos Remote.delete_files) as [x| |];
              cbn in E3; [destruct (Remote.return_code x =? 0)%Z|..];
              congruence]).
  all: (split; [auto|]).
  all: intros o;
       match goal with
       | |- context [Parser.parse_output ?i ?a ?b ?c] =>
           destruct (TextFacts.parse_output_status i a b c)
             as (S1 & S2 & S3)
       end;
       destruct o; cbn [op_status Remote.command_of];
       rewrite ?Hcc, ?S1, ?S2, ?S3;
       apply Hstatus; eauto 10.
Qed.

(** X15.  The checks of the command line.  They pass exactly when
    [--clients] is given and positive, [--bucket], [--region], [--key],
    [--secretkey] and [--keypairname] are given, and [--keypairfile] is
    given and names an existing file; [--outfile] plays no part.  A missing
    or non-positive [--clients] is reported first, whatever else is
    missing. *)
Theorem X15_command_line_checks
    (isfile : string -> bool) (a : CommandLine.args) :
  (CommandLine.validate isfile a = None
   <-> (exists n, CommandLine.clients a = Some n /\ (0 < n)%Z)
       /\ CommandLine.bucket a <> None
       /\ CommandLine.region a <> None
       /\ CommandLine.key a <> None
       /\ CommandLine.secretkey a <> None
       /\ CommandLine.keypairname a <> None
       /\ exists path, CommandLine.keypairfile a = Some path
                       /\ isfile path = true)
  /\ ((forall n, CommandLine.clients a = Some n -> (n <= 0)%Z) ->
      CommandLine.validate isfile a = Some "Invalid number of clients").
Proof.
  destruct a as [c b k s kn kf r o]. unfold CommandLine.validate.
  cbn [CommandLine.clients CommandLine.bucket CommandLine.key
       CommandLine.secretkey CommandLine.keypairname CommandLine.keypairfile
       CommandLine.region].
  split.
  - split.
    + intros H. destruct c as [n|]; [|discriminate].
      destruct (Z.leb_spec n 0); [discriminate|].
      destruct b; [|discriminate]. destruct r; [|discriminate].
      destruct k; [|discriminate]. destruct s; [|discriminate].
      destruct kn; [|discriminate]. destruct kf as [path|]; [|discriminate].
      destruct (isfile path) eqn:E; [|discriminate].
      repeat split; try discriminate; eauto.
    + intros ((n & -> & Hn) & Hb & Hr & Hk & Hs & Hkn & path & -> & Hf).
      destruct (Z.leb_spec n 0); [lia|].
      destruct b; [|contradiction]. destruct r; [|contradiction].
      destruct k; [|contradiction]. destruct s; [|contradiction].
      destruct kn; [|contradiction]. now rewrite Hf.
  - intros H. destruct c as [n|]; [|reflexivity].
    specialize (H n eq_refl). destruct (Z.leb_spec n 0); [reflexivity|lia].
Qed.

(** X15's theorem at work: a command line without [--clients]. *)
Lemma X15_witness :
  let a := CommandLine.mkArgs None (Some "bucket") None None None None
             None None in
  (forall n, CommandLine.clients a = Some n -> (n <= 0)%Z)
  /\ CommandLine.validate (fun _ => true) a
     = Some "Invalid number of clients".
Proof.
  intros a.
  assert (H : forall n, CommandLine.clients a = Some n -> (n <= 0)%Z)
    by (intros n Hn; discriminate Hn).
  split; [exact H|].
  exact (proj2 (X15_command_line_checks (fun _ => true) a) H).
Defined.

Local Close Scope string_scope.

(* ------------------------------------------------------------------ *)
(** ** classicTest *)
(* ------------------------------------------------------------------ *)

(** One way through the serial runner: the events are read off the run,
    and the claims about them are settled by computing. *)
Ltac serial_case :=
  eexists; rewrite <- ?app_assoc; split; [reflexivity|];
  cbn [ClassicTest.begun_methods flat_map app firstn Nat.eqb nth ended In];
  repeat match goal with
         | E : PerformParallelOperations.invoke _ _ _ = _ |- _ => rewrite E
         end;
  cbn [ended];
  split; [reflexivity|]; split; [reflexivity|];
  split;
  [ intros H; repeat (destruct H as [H|H]; try discriminate H);
    try reflexivity; try contradiction
  | intros H; try discriminate H; cbn; auto 12 ].

(** X16.  The serial runner [TestInstance.perform_all_operations] calls
    the four operations in the order setup_environment, pre_test_setup,
    execute_test, cleanup, and a later one only when all the earlier ones
    have returned.  It returns exactly when all four return; otherwise it
    ends as the first operation that does not return has ended.  It logs
    exactly when it raises an [Exception], and it changes nothing else. *)
Theorem X16_serial_run_stops_at_the_first_failure
    {St : Type} (self : TestInstance) (w : world St) :
  let n := ClassicTest.leading_returns self ClassicTest.order in
  let run := ClassicTest.perform_all_operations self w in
  exists tr,
    snd run = mkWorld (store w) (trace w ++ tr)
    /\ ClassicTest.begun_methods tr = firstn (S n) ClassicTest.order
    /\ fst run
       = (if (n =? 4)%nat then Returns tt
          else ended (PerformParallelOperations.invoke self
                        (nth n ClassicTest.order m_cleanup) 0))
    /\ (In EvLogException tr <-> fst run = Raises ExcException).
Proof.
  cbv zeta.
  unfold ClassicTest.perform_all_operations, ClassicTest.guarded,
    ClassicTest.direct, ClassicTest.order, try_except, bind, emit, raise.
  cbn [ClassicTest.leading_returns store trace].
  destruct (PerformParallelOperations.invoke self m_setup_environment 0)
    as [v1|[]|] eqn:E1; cbn [ended fst snd store trace];
    try serial_case.
  destruct (PerformParallelOperations.invoke self m_pre_test_setup 0)
    as [v2|[]|] eqn:E2; cbn [ended fst snd store trace];
    try serial_case.
  destruct (PerformParallelOperations.invoke self m_execute_test 0)
    as [v3|[]|] eqn:E3; cbn [ended fst snd store trace];
    try serial_case.
  destruct (PerformParallelOperations.invoke self m_cleanup 0)
    as [v4|[]|] eqn:E4; cbn [ended fst snd store trace];
    serial_case.
Qed.

(** X17.  The parallel runner
    [PerformParallelOperations.perform_all_operations] goes through the
    phases in the same order.  A phase launches the operation on every
    test, and the next phase is launched only when no worker of this one
    has captured an [Exception] or is alive after its join.  The call
    returns the list [self.results] exactly when all four phases get
    through; otherwise it raises an [Exception], and it logs exactly then.
    It never hangs and never ends by a throw outside of [Exception],
    whatever the operations of the tests do. *)
Theorem X17_parallel_run_stops_at_the_first_failed_phase
    (self : PerformParallelOperations.t)
    (w : world PerformParallelOperations.results_t) :
  let us := PerformParallelOperations.tests self in
  let n := ClassicTest.leading_phases us ClassicTest.order in
  let run := PerformParallelOperations.perform_all_operations self w in
  exists tr,
    trace (snd run) = trace w ++ tr
    /\ ClassicTest.begun_methods tr
       = flat_map (fun m => repeat m (List.length us))
                  (firstn (S n) ClassicTest.order)
    /\ fst run
       = (if (n =? 4)%nat then Returns (store (snd run))
          else Raises ExcException)
    /\ (In EvLogException tr <-> fst run = Raises ExcException).
Proof.
  cbv zeta. rewrite ClassicFacts.perform_all_operations_shape.
  cbn [fst snd store trace].
  exists (ClassicTest.phases_trace (PerformParallelOperations.tests self)
            ClassicTest.order).
  split; [reflexivity|]. split; [apply ClassicFacts.begun_phases|].
  rewrite ClassicFacts.log_phases.
  rewrite (ClassicFacts.phases_ok_leading _ ClassicTest.order).
  change (List.length ClassicTest.order) with 4%nat.
  destruct (ClassicTest.leading_phases _ _ =? 4)%nat.
  - split; [reflexivity|]. split; discriminate.
  - split; [reflexivity|]. split; reflexivity.
Qed.

(** X18.  The results of a phase that got through.  After
    [perform_all_operations], however it has ended, [_get_results(m)] for
    an operation [m] whose phase got through holds what it held before,
    and one value for each test whose call of [m] returned (none for a
    call that was ended by a throw outside of [Exception]).  The list is
    not emptied by the call: a second run on the same object adds to the
    results of the first. *)
Theorem X18_results_of_a_passed_phase
    (self : PerformParallelOperations.t)
    (w : world PerformParallelOperations.results_t) (m : method)
    (Hpassed : (ClassicTest.position m
                < ClassicTest.leading_phases
                    (PerformParallelOperations.tests self)
                    ClassicTest.order)%nat) :
  Permutation
    (PerformParallelOperations._get_results
       (store (snd (PerformParallelOperations.perform_all_operations
                      self w))) m)
    (PerformParallelOperations._get_results (store w) m
     ++ ClassicTest.returned_values m
          (PerformParallelOperations.tests self)).
Proof.
  rewrite ClassicFacts.perform_all_operations_shape. cbn [snd store].
  rewrite (ClassicFacts.get_phases_passed _ m ClassicTest.order
             (ClassicTest.position m) (store w) ClassicFacts.order_NoDup
             (ClassicFacts.order_position m) Hpassed).
  apply Permutation_refl.
Qed.

(** X19.  The phases after a failed one leave no results.  When the
    phase of an operation [m] comes after the first phase that did not
    get through, [_get_results(m)] is after the call what it was before:
    with a failed [pre_test_setup] phase, for example,
    [get_execute_test_results()] gets nothing new. *)
Theorem X19_no_results_after_a_failed_phase
    (self : PerformParallelOperations.t)
    (w : world PerformParallelOperations.results_t) (m : method)
    (Hlater : (ClassicTest.leading_phases
                 (PerformParallelOperations.tests self) ClassicTest.order
               < ClassicTest.position m)%nat) :
  PerformParallelOperations._get_results
    (store (snd (PerformParallelOperations.perform_all_operations self w)))
    m
  = PerformParallelOperations._get_results (store w) m.
Proof.
  rewrite ClassicFacts.perform_all_operations_shape. cbn [snd store].
  exact (ClassicFacts.get_phases_later _ m ClassicTest.order
           (ClassicTest.position m) (store w) ClassicFacts.order_NoDup
           (ClassicFacts.order_position m) Hlater).
Qed.

(** X18's theorem at work: one test on which everything returns. *)
Lemma X18_witness :
  let r := mkRunResult 1 10 true 20 true 30 true in
  let unit_ok :=
    mkTestInstance (Returns tt) (fun _ => Returns tt)
                   (fun _ => Returns r) (fun _ => Returns tt) in
  let self := PerformParallelOperations.mk [unit_ok] in
  (ClassicTest.position m_execute_test
   < ClassicTest.leading_phases (PerformParallelOperations.tests self)
       ClassicTest.order)%nat
  /\ Permutation
       (PerformParallelOperations._get_results
          (store (snd (PerformParallelOperations.perform_all_operations
                         self (mkWorld [] [])))) m_execute_test)
       (PerformParallelOperations._get_results [] m_execute_test
        ++ ClassicTest.returned_values m_execute_test
             (PerformParallelOperations.tests self)).
Proof.
  intros r unit_ok self.
  assert (H : (ClassicTest.position m_execute_test
               < ClassicTest.leading_phases
                   (PerformParallelOperations.tests self)
                   ClassicTest.order)%nat) by (vm_compute; lia).
  split; [exact H|].
  exact (X18_results_of_a_passed_phase self (mkWorld [] [])
           m_execute_test H).
Defined.

(** X19's theorem at work: the warm-up of the only test fails. *)
Lemma X19_witness :
  let r := mkRunResult 1 10 true 20 true 30 true in
  let unit_bad :=
    mkTestInstance (Raises ExcException) (fun _ => Returns tt)
                   (fun _ => Returns r) (fun _ => Returns tt) in
  let self := PerformParallelOperations.mk [unit_bad] in
  (ClassicTest.leading_phases (PerformParallelOperations.tests self)
     ClassicTest.order
   < ClassicTest.position m_execute_test)%nat
  /\ PerformParallelOperations._get_results
       (store (snd (PerformParallelOperations.perform_all_operations
                      self (mkWorld [] [])))) m_execute_test
     = PerformParallelOperations._get_results [] m_execute_test.
Proof.
  intros r unit_bad self.
  assert (H : (ClassicTest.leading_phases
                 (PerformParallelOperations.tests self) ClassicTest.order
               < ClassicTest.position m_execute_test)%nat)
    by (vm_compute; lia).
  split; [exact H|].
  exact (X19_no_results_after_a_failed_phase self (mkWorld [] [])
           m_execute_test H).
Defined.

(* ------------------------------------------------------------------ *)
(** ** tests/AwsRunner: the runner built on classicTest *)
(* ------------------------------------------------------------------ *)

